(** * lex-learning: the training orchestration engine

    A shallow embedding of the Python package [lex_learning] (configuration,
    algorithm selector, hyperparameter search loop, multi-model trainer and
    pipeline orchestrator) and the properties of it that the specification
    states.

    Conventions of the embedding.
    - Python [int] is [Z]; Python [float] is idealised as an exact rational
      [Q] (no rounding, no NaN), compared with [Qltb].
    - Python [dict]s with string keys are [gmap string _].
    - Exceptions are values of [exn]; a computation that may raise returns a
      [result].  Every class of [exn] derives from Python's [Exception], as
      in [errors.py].
    - Calls into third-party code (scikit-learn estimators, Optuna sampling,
      the preprocessor, SHAP) are oracles: the fields of [externals].
    - What a run does to the outside (progress updates, calls of the
      cancellation check) is threaded through explicitly as a [world]. *)

From Stdlib Require Import QArith Ascii String.
From stdpp Require Import base strings list gmap fin_sets pretty sorting.

Local Open Scope string_scope.
Local Open Scope list_scope.
Local Open Scope Z_scope.

(** ** Floats as rationals *)

Definition Qltb (x y : Q) : bool := negb (Qle_bool y x).

(** ** config.py *)

Inductive ProblemType := CLASSIFICATION | REGRESSION.

#[global] Instance ProblemType_eq_dec : EqDecision ProblemType.
Proof. solve_decision. Defined.

Definition ProblemType_value (p : ProblemType) : string :=
  match p with CLASSIFICATION => "classification" | REGRESSION => "regression" end.

Record PipelineConfig := {
  problem_type : ProblemType;
  target_column : option string;
  algorithm : option string;
  top_k_algorithms : Z;
  optimize_hyperparams : bool;
  n_trials : Z;
  cv_folds : Z;
  test_size : Q;
  enable_neural_networks : bool;
  enable_explainability : bool;
  shap_max_samples : Z;
  random_seed : Z;
  n_jobs : Z
}.

(** ** errors.py: the exception hierarchy, plus the built-in exceptions the
    code raises itself.  [OtherError] stands for any other [Exception]
    raised by third-party code. *)

Inductive exn :=
  | ValueError (msg : string)
  | AssertionError
  | KeyError (key : string)
  | InvalidDataError (message : string)
  | TargetNotFoundError (column : string) (available : list string)
  | TrainingFailedError (failures : gmap string string)
  | CancelledError
  | OtherError (msg : string).

Inductive result (A : Type) :=
  | Ok (a : A)
  | Raise (e : exn).
Arguments Ok {A} a.
Arguments Raise {A} e.

Definition is_CancelledError (e : exn) : bool :=
  match e with CancelledError => true | _ => false end.

(** [PipelineConfig.__post_init__]: the five checks, in source order. *)
Definition post_init (self : PipelineConfig) : result unit :=
  if top_k_algorithms self <? 1 then Raise (ValueError "top_k_algorithms must be at least 1")
  else if n_trials self <? 1 then Raise (ValueError "n_trials must be at least 1")
  else if cv_folds self <? 2 then Raise (ValueError "cv_folds must be at least 2")
  else if negb (Qltb 0 (test_size self) && Qltb (test_size self) 1)
       then Raise (ValueError "test_size must be between 0 and 1")
  else if shap_max_samples self <? 1 then Raise (ValueError "shap_max_samples must be at least 1")
  else Ok tt.

(** Construction of the dataclass: the generated [__init__] stores the
    fields and then runs [__post_init__]. *)
Definition new_PipelineConfig (fields : PipelineConfig) : result PipelineConfig :=
  match post_init fields with
  | Ok _ => Ok fields
  | Raise e => Raise e
  end.

(** [PipelineConfigBuilder]: its thirteen attributes with their defaults
    ([_problem_type] starts as [None]); every setter stores one of them;
    [build] requires the problem type and constructs the dataclass. *)
Record PipelineConfigBuilder := {
  b_problem_type : option ProblemType;
  b_settings : PipelineConfig
}.

Definition builder : PipelineConfigBuilder :=
  {| b_problem_type := None;
     b_settings :=
       {| problem_type := CLASSIFICATION; target_column := None; algorithm := None;
          top_k_algorithms := 3; optimize_hyperparams := true; n_trials := 30;
          cv_folds := 5; test_size := 2 # 10; enable_neural_networks := true;
          enable_explainability := true; shap_max_samples := 100; random_seed := 42;
          n_jobs := -1 |} |}.

Definition build (self : PipelineConfigBuilder) : result PipelineConfig :=
  match b_problem_type self with
  | None => Raise (ValueError "problem_type is required")
  | Some p =>
      new_PipelineConfig
        {| problem_type := p;
           target_column := target_column (b_settings self);
           algorithm := algorithm (b_settings self);
           top_k_algorithms := top_k_algorithms (b_settings self);
           optimize_hyperparams := optimize_hyperparams (b_settings self);
           n_trials := n_trials (b_settings self);
           cv_folds := cv_folds (b_settings self);
           test_size := test_size (b_settings self);
           enable_neural_networks := enable_neural_networks (b_settings self);
           enable_explainability := enable_explainability (b_settings self);
           shap_max_samples := shap_max_samples (b_settings self);
           random_seed := random_seed (b_settings self);
           n_jobs := n_jobs (b_settings self) |}
  end.

(** The conditions the specification lists for a failing construction. *)
Definition invalid_config (c : PipelineConfig) : Prop :=
  top_k_algorithms c < 1 \/ n_trials c < 1 \/ cv_folds c < 2 \/
  ~ (0 < test_size c /\ test_size c < 1)%Q \/ shap_max_samples c < 1.

(** ** training/trainer.py: [_assess_overfitting]

    The risk is the Python string the function returns. *)

Definition _assess_overfitting (train_score test_score : Q) : string :=
  let gap := (train_score - test_score)%Q in
  if Qltb gap (5 # 100) then "low"
  else if Qltb gap (15 # 100) then "medium"
  else "high".

(** ** training/selector.py *)

Record DatasetInfo := {
  n_samples : Z;
  n_features : Z;
  di_problem_type : ProblemType;
  n_classes : option Z
}.

(** The three strings [size_category] can return, as an enumeration. *)
Inductive SizeCategory := small | medium | large.

Definition size_category (self : DatasetInfo) : SizeCategory :=
  if n_samples self <? 1000 then small
  else if n_samples self <? 10000 then medium
  else large.

(** [n_features > 100 or n_features > n_samples * 0.5]. *)
Definition is_high_dimensional (self : DatasetInfo) : bool :=
  (100 <? n_features self) ||
  Qltb (inject_Z (n_samples self) * (5 # 10)) (inject_Z (n_features self)).

Definition CLASSIFICATION_PRIORITIES (c : SizeCategory) : list string :=
  match c with
  | small =>
      ["logistic_regression"; "decision_tree"; "knn"; "random_forest"; "gradient_boosting"]
  | medium =>
      ["random_forest"; "xgboost"; "gradient_boosting"; "logistic_regression"; "lightgbm";
       "extra_trees"]
  | large =>
      ["lightgbm"; "xgboost"; "random_forest"; "neural_network"; "gradient_boosting";
       "extra_trees"]
  end.

Definition REGRESSION_PRIORITIES (c : SizeCategory) : list string :=
  match c with
  | small => ["ridge"; "decision_tree"; "knn"; "random_forest"; "gradient_boosting"]
  | medium =>
      ["random_forest"; "xgboost"; "gradient_boosting"; "ridge"; "lightgbm"; "extra_trees"]
  | large =>
      ["lightgbm"; "xgboost"; "random_forest"; "neural_network"; "gradient_boosting";
       "extra_trees"]
  end.

Definition tree_models : list string :=
  ["random_forest"; "extra_trees"; "xgboost"; "lightgbm"; "gradient_boosting"].

(** The static list picked for (problem kind, size category). *)
Definition static_priority_list (dataset_info : DatasetInfo) : list string :=
  match di_problem_type dataset_info with
  | CLASSIFICATION => CLASSIFICATION_PRIORITIES (size_category dataset_info)
  | REGRESSION => REGRESSION_PRIORITIES (size_category dataset_info)
  end.

(** [[m for m in tree_models if m in priority_list] +
     [m for m in priority_list if m not in tree_models]]. *)
Definition boost_tree_models (priority_list : list string) : list string :=
  filter (λ m, m ∈ priority_list) tree_models ++
  filter (λ m, m ∉ tree_models) priority_list.

Definition effective_priority_list (dataset_info : DatasetInfo) : list string :=
  if is_high_dimensional dataset_info
  then boost_tree_models (static_priority_list dataset_info)
  else static_priority_list dataset_info.

(** [available_set = set(available_algorithms)], with ["neural_network"]
    discarded when [include_neural] is false. *)
Definition available_set (available_algorithms : list string) (include_neural : bool)
    : gset string :=
  if include_neural then list_to_set available_algorithms
  else list_to_set available_algorithms ∖ {["neural_network"]}.

(** First loop: walk the priority list; [break] as soon as
    [len(selected) >= top_k] after an append. *)
Fixpoint select_from_priority (top_k : Z) (avail : gset string)
    (priority_list selected : list string) : list string :=
  match priority_list with
  | [] => selected
  | algo :: rest =>
      if decide (algo ∈ avail ∧ algo ∉ selected) then
        let selected' := selected ++ [algo] in
        if top_k <=? Z.of_nat (length selected') then selected'
        else select_from_priority top_k avail rest selected'
      else select_from_priority top_k avail rest selected
  end.

(** Second loop: the remaining available algorithms, in their own order. *)
Fixpoint select_remaining (top_k : Z) (include_neural : bool)
    (available_algorithms selected : list string) : list string :=
  match available_algorithms with
  | [] => selected
  | algo :: rest =>
      if decide ((algo ∉ selected) ∧ (include_neural = true ∨ algo ≠ "neural_network")) then
        let selected' := selected ++ [algo] in
        if top_k <=? Z.of_nat (length selected') then selected'
        else select_remaining top_k include_neural rest selected'
      else select_remaining top_k include_neural rest selected
  end.

Definition select_algorithms (dataset_info : DatasetInfo)
    (available_algorithms : list string) (top_k : Z) (include_neural : bool)
    : list string :=
  let priority_list := effective_priority_list dataset_info in
  let avail := available_set available_algorithms include_neural in
  let selected := select_from_priority top_k avail priority_list [] in
  if Z.of_nat (length selected) <? top_k
  then select_remaining top_k include_neural available_algorithms selected
  else selected.

(** A list in which no tree-ensemble name comes after a name that is not
    one. *)
Definition trees_first (l : list string) : Prop :=
  ∃ l1 l2, l = l1 ++ l2 ∧ Forall (λ m, m ∈ tree_models) l1
           ∧ Forall (λ m, m ∉ tree_models) l2.

Definition hd_150_1000 (p : ProblemType) (k : option Z) : DatasetInfo :=
  {| n_samples := 1000; n_features := 150; di_problem_type := p; n_classes := k |}.

(** ** progress/reporter.py *)

Inductive TrainingStage :=
  | INITIALIZING | PREPROCESSING | ALGORITHM_SELECTION | TRAINING | EVALUATION
  | EXPLAINABILITY | COMPLETE | FAILED | CANCELLED.

#[global] Instance TrainingStage_eq_dec : EqDecision TrainingStage.
Proof. solve_decision. Defined.

Record ProgressUpdate := {
  stage : TrainingStage;
  progress : Q;
  message : string;
  current_model : option string;
  models_completed : option (Z * Z)
}.

(** What a run can observe and change outside itself: the updates the
    progress callback has captured so far, and how many times the
    cancellation check has been called. *)
Record world := {
  captured : list ProgressUpdate;
  polls : nat
}.

(** The two reporter classes.  [progress_callback] tells whether a callback
    is installed (it captures every update it is given);
    [cancellation_check], when present, gives the answer of the check at its
    k-th call. *)
Inductive ProgressReporter :=
  | CallbackProgressReporter (progress_callback : bool)
      (cancellation_check : option (nat → bool))
  | NullProgressReporter.

(** ** Computations that may raise and that act on the [world] *)

Definition M (A : Type) : Type := world → result A * world.

#[global] Instance M_ret : MRet M := λ A a w, (Ok a, w).
#[global] Instance M_bind : MBind M := λ A B f m w,
  match m w with
  | (Ok a, w') => f a w'
  | (Raise e, w') => (Raise e, w')
  end.

#[global] Instance result_ret : MRet result := λ A a, Ok a.
#[global] Instance result_bind : MBind result := λ A B f r,
  match r with
  | Ok a => f a
  | Raise e => Raise e
  end.

Definition raise {A} (e : exn) : M A := λ w, (Raise e, w).
Definition lift {A} (r : result A) : M A := λ w, (r, w).

(** [try: body  except ...: handler e]; a handler re-raises with [raise e]. *)
Definition try_except {A} (body : M A) (handler : exn → M A) : M A := λ w,
  match body w with
  | (Ok a, w') => (Ok a, w')
  | (Raise e, w') => handler e w'
  end.

Definition report (self : ProgressReporter) (update : ProgressUpdate) : M unit := λ w,
  match self with
  | CallbackProgressReporter true _ =>
      (Ok tt, {| captured := captured w ++ [update]; polls := polls w |})
  | _ => (Ok tt, w)
  end.

Definition is_cancelled (self : ProgressReporter) : M bool := λ w,
  match self with
  | CallbackProgressReporter _ (Some check) =>
      (Ok (check (polls w)), {| captured := captured w; polls := S (polls w) |})
  | _ => (Ok false, w)
  end.

(** ** models/__init__.py: the registry and the estimators *)

Inductive pyval :=
  | PInt (z : Z) | PFloat (q : Q) | PStr (s : string) | PBool (b : bool).

Abbreviation params := (gmap string pyval).

(** An entry of [_ALL_MODELS]. [init_params] are the parameter names of the
    model class' [__init__] (what [_get_model_params] returns). *)
Record ModelSpec := {
  problem_types : list ProblemType;
  has_suggest_params : bool;
  default_params : option params;
  init_params : list string
}.

(** An estimator object: scikit-learn's convention is that [__init__] only
    stores its keyword arguments as attributes; [fit] marks it fitted. *)
Record estimator := {
  est_algorithm : string;
  est_attrs : params;
  est_settable : list string;
  est_fitted : bool
}.

Inductive split := TrainSplit | TestSplit.

(** A pandas frame as far as validation looks at it. *)
Record DataFrame := {
  columns : list string;
  null_columns : list string;
  n_rows : Z
}.

(** A numpy array as far as the stages look at it: its shape and the number
    of distinct values ([len(np.unique(_))]). *)
Record ndarray := {
  shape : Z * Z;
  n_unique : Z
}.

Record Preprocessor := {
  feature_names : list string;
  class_labels : option (list string);
  transformed_feature_names : list string
}.

(** core/metrics.py *)
Inductive Metrics :=
  | ClassificationMetrics (accuracy precision recall f1_score : Q) (roc_auc : option Q)
      (confusion_matrix : list (list Z)) (metrics_test_score : Q)
  | RegressionMetrics (mse rmse mae r2 : Q) (metrics_test_score : Q).

(** core/types.py *)
Record ExplainabilityResult := {
  feature_importance : list (string * Q);
  method : string
}.

(** The third-party behaviour a run depends on. *)
Record externals := {
  (* the registry, in insertion order *)
  _ALL_MODELS : list (string * ModelSpec);
  (* [suggest_params(trial, problem_type)] for the trial with this number:
     the constructor arguments it returns, and [trial.params] afterwards *)
  suggest_params : string → nat → params * params;
  (* mean of [cross_val_score(model, X_train, y_train, cv, scoring)] *)
  cross_val_score : estimator → Z → string → result Q;
  (* [model.fit(X_train, y_train)]: the exception it raises, if any *)
  fit_raises : estimator → option exn;
  (* [model.score(X, y)] on a split *)
  score : estimator → split → result Q;
  (* wall-clock seconds spent on an algorithm, and on the whole run *)
  elapsed : string → Q;
  total_elapsed : Q;
  (* [Preprocessor(problem_type).fit_transform(X, y)] *)
  fit_transform : ProblemType → list string → string → result (Preprocessor * ndarray * ndarray);
  (* [train_test_split(X, y, test_size, random_state, stratify)]:
     X_train, X_test, y_train, y_test *)
  train_test_split : ndarray → ndarray → Q → Z → bool
                     → result (ndarray * ndarray * ndarray * ndarray);
  (* the scikit-learn metrics of [EvaluationStage._calculate_metrics] *)
  calculate_metrics : estimator → ProblemType → result Metrics;
  (* [explain_model]: every path of it returns a result, it catches what
     SHAP raises *)
  explain_model : estimator → Z → ExplainabilityResult
}.

Section Engine.
Context (E : externals).

Definition registry_get (name : string) : option ModelSpec :=
  match list_find (λ entry, entry.1 = name) (_ALL_MODELS E) with
  | Some (_, entry) => Some entry.2
  | None => None
  end.

Definition get_available_algorithms (problem_type : ProblemType) : list string :=
  fst <$> filter (λ entry, problem_type ∈ problem_types entry.2) (_ALL_MODELS E).

Definition model_class (name : string) (config : ModelSpec) (kwargs : params) : estimator :=
  {| est_algorithm := name; est_attrs := kwargs;
     est_settable := init_params config; est_fitted := false |}.

(** [trial] is the number of the Optuna trial, or [None]. *)
Definition create_model (name : string) (problem_type : ProblemType)
    (trial : option nat) (random_seed n_jobs : Z) : result estimator :=
  match registry_get name with
  | None => Raise (ValueError ("Unknown algorithm '" +:+ name +:+ "'"))
  | Some config =>
      if decide (problem_type ∉ problem_types config) then
        Raise (ValueError ("Algorithm '" +:+ name +:+ "' does not support "
                             +:+ ProblemType_value problem_type))
      else
        let params :=
          match trial with
          | Some number =>
              if has_suggest_params config then (suggest_params E name number).1
              else default (∅ : params) (default_params config)
          | None => default (∅ : params) (default_params config)
          end in
        let params := if decide ("random_state" ∈ init_params config)
                      then <["random_state" := PInt random_seed]> params else params in
        let params := if decide ("n_jobs" ∈ init_params config)
                      then <["n_jobs" := PInt n_jobs]> params else params in
        let params := if decide ("seed" ∈ init_params config)
                      then <["seed" := PInt random_seed]> params else params in
        Ok (model_class name config params)
  end.

Definition get_default_params (name : string) : params :=
  match registry_get name with
  | None => ∅
  | Some config => default (∅ : params) (default_params config)
  end.

Definition hasattr (model : estimator) (key : string) : bool :=
  bool_decide (key ∈ est_settable model).

Definition setattr (model : estimator) (key : string) (value : pyval) : estimator :=
  {| est_algorithm := est_algorithm model; est_attrs := <[key := value]> (est_attrs model);
     est_settable := est_settable model; est_fitted := est_fitted model |}.

(** ** Optuna, as far as [optimizer.py] uses it

    A study is the list of its finished trials.  A trial whose objective
    returned has a value (state COMPLETE); one whose objective raised an
    exception listed in [catch] has none (state FAIL) and the study goes
    on; any other exception leaves [Study.optimize].  [Study.best_trial]
    is the first complete trial with the greatest value, and raises
    [ValueError] when no trial is complete; [Study.best_params] is
    [best_trial.params]. *)

Record FrozenTrial := {
  number : nat;
  value : option Q;
  trial_params : params
}.

Definition better (best : option FrozenTrial) (t : FrozenTrial) : option FrozenTrial :=
  match value t, best with
  | None, _ => best
  | Some _, None => Some t
  | Some v, Some b =>
      match value b with
      | Some bv => if Qltb bv v then Some t else Some b
      | None => Some t
      end
  end.

Definition best_trial (study : list FrozenTrial) : result FrozenTrial :=
  match foldl better None study with
  | Some t => Ok t
  | None => Raise (ValueError "No trials are completed yet.")
  end.

Definition best_params (study : list FrozenTrial) : result params :=
  t ← best_trial study; mret (trial_params t).

Fixpoint Study_optimize (func : nat → M Q) (params_of : nat → params)
    (catch : exn → bool) (n_trials : nat) (number : nat) (study : list FrozenTrial)
    : M (list FrozenTrial) :=
  match n_trials with
  | O => mret study
  | S n' =>
      v ← try_except (v ← func number; mret (Some v))
                     (λ e, if catch e then mret None else raise e);
      Study_optimize func params_of catch n' (S number)
        (study ++ [{| number := number; value := v; trial_params := params_of number |}])
  end.

(** [catch=(Exception,)]: every class of [exn] derives from [Exception]. *)
Definition catch_Exception (e : exn) : bool := true.

(** ** training/optimizer.py *)

Definition scoring_of (problem_type : ProblemType) : string :=
  match problem_type with
  | CLASSIFICATION => "accuracy"
  | REGRESSION => "neg_mean_squared_error"
  end.

(** The objective of one trial.  Its bookkeeping of the non-local
    [best_params] is left out: line 106 overwrites that variable before it
    is read. *)
Definition objective (algorithm : string) (config : PipelineConfig)
    (reporter : ProgressReporter) (trial : nat) : M Q :=
  c ← is_cancelled reporter;
  if (c : bool) then raise CancelledError
  else
    model ← lift (create_model algorithm (problem_type config) (Some trial)
                    (random_seed config) (n_jobs config));
    lift (cross_val_score E model (cv_folds config) (scoring_of (problem_type config))).

Definition optimize_hyperparameters (algorithm : string) (config : PipelineConfig)
    (reporter : ProgressReporter) : M (estimator * params) :=
  study ← try_except
             (Study_optimize (objective algorithm config reporter)
                (λ number, (suggest_params E algorithm number).2)
                catch_Exception (Z.to_nat (n_trials config)) 0%nat [])
             (λ e, raise e);
  (* best_params = study.best_params if study.best_trial else {} *)
  best_params ← lift (_ ← best_trial study; best_params study);
  best_model ← lift (create_model algorithm (problem_type config) None
                       (random_seed config) (n_jobs config));
  let best_model :=
    map_fold (λ key value model,
                if hasattr model key then setattr model key value else model)
             best_model best_params in
  mret (best_model, best_params).

(** ** core/types.py: [ModelResult] *)

Record ModelResult := {
  name : string;
  test_score : Q;
  train_score : Q;
  cv_score : Q;
  training_time_seconds : Q;
  hyperparameters : params;
  overfitting_risk : string
}.

(** ** training/trainer.py *)

Definition _score_model (model : estimator) (on : split) (problem_type : ProblemType)
    : result Q :=
  match problem_type with
  | CLASSIFICATION => score E model on
  | REGRESSION => score E model on
  end.

Definition clone (model : estimator) : estimator :=
  {| est_algorithm := est_algorithm model; est_attrs := est_attrs model;
     est_settable := est_settable model; est_fitted := false |}.

Definition _cross_validate (model : estimator) (config : PipelineConfig) : result Q :=
  let scoring := match problem_type config with
                 | CLASSIFICATION => "accuracy" | REGRESSION => "r2" end in
  cross_val_score E (clone model) (cv_folds config) scoring.

Definition fit (model : estimator) : result estimator :=
  match fit_raises E model with
  | Some e => Raise e
  | None => Ok {| est_algorithm := est_algorithm model; est_attrs := est_attrs model;
                  est_settable := est_settable model; est_fitted := true |}
  end.

(** The body of the [try] block of [train_single_model]. *)
Definition train_single_model_body (algorithm : string) (config : PipelineConfig)
    (reporter : ProgressReporter) : M (estimator * ModelResult) :=
  '(model, best_params) ←
    (if optimize_hyperparams config
     then optimize_hyperparameters algorithm config reporter
     else
       let best_params := get_default_params algorithm in
       model ← lift (create_model algorithm (problem_type config) None
                       (random_seed config) (n_jobs config));
       mret (model, best_params));
  model ← lift (fit model);
  train_score ← lift (_score_model model TrainSplit (problem_type config));
  test_score ← lift (_score_model model TestSplit (problem_type config));
  cv_score ← lift (_cross_validate model config);
  let training_time := elapsed E algorithm in
  let overfitting_risk := _assess_overfitting train_score test_score in
  mret (model,
        {| name := algorithm; test_score := test_score; train_score := train_score;
           cv_score := cv_score; training_time_seconds := training_time;
           hyperparameters := best_params; overfitting_risk := overfitting_risk |}).

(** [except Exception as e: logger.warning(...); return None]. *)
Definition train_single_model (algorithm : string) (config : PipelineConfig)
    (progress_reporter : option ProgressReporter) : M (option (estimator * ModelResult)) :=
  let reporter := default NullProgressReporter progress_reporter in
  try_except
    (r ← train_single_model_body algorithm config reporter; mret (Some r))
    (λ e, mret None).

Definition newline : string := String "010"%char "".

(** [str(e)] for the exceptions whose text the code uses. *)
Definition str_exn (e : exn) : string :=
  match e with
  | ValueError msg => msg
  | AssertionError => ""
  | KeyError key => "'" +:+ key +:+ "'"
  | InvalidDataError message => "Invalid data: " +:+ message
  | TargetNotFoundError column available =>
      "Target column '" +:+ column +:+ "' not found. Available columns: ['"
        +:+ String.concat "', '" available +:+ "']"
  | TrainingFailedError failures =>
      "All models failed to train:" +:+ newline
        +:+ String.concat newline
              ((λ entry, "  - " +:+ entry.1 +:+ ": " +:+ entry.2) <$> map_to_list failures)
  | CancelledError => "Training was cancelled"
  | OtherError msg => msg
  end.

(** [results.sort(key=lambda r: r.test_score, reverse=True)]: Python's sort
    is stable, also with [reverse=True]; a stable insertion sort computes
    the same list. *)
Fixpoint insert_desc (r : ModelResult) (l : list ModelResult) : list ModelResult :=
  match l with
  | [] => [r]
  | y :: l' =>
      if Qltb (test_score r) (test_score y) then y :: insert_desc r l'
      else r :: y :: l'
  end.

Definition sort_by_test_score_desc (results : list ModelResult) : list ModelResult :=
  foldr insert_desc [] results.

(** The three accumulators of the loop of [train_models]. *)
Record train_acc := {
  acc_results : list ModelResult;
  acc_models : gmap string estimator;
  acc_failures : gmap string string
}.

Definition training_progress (i n_algorithms : Z) : Q :=
  ((2 # 10) + ((65 # 100) * inject_Z i / inject_Z n_algorithms))%Q.

Definition training_update (algorithm : string) (i n_algorithms : Z) : ProgressUpdate :=
  {| stage := TRAINING; progress := training_progress i n_algorithms;
     message := "Training " +:+ algorithm +:+ "...";
     current_model := Some algorithm;
     models_completed := Some (i, n_algorithms) |}.

(** [for i, algorithm in enumerate(algorithms)]: the suffix still to do,
    starting at index [i]. *)
Fixpoint train_loop (config : PipelineConfig) (reporter : ProgressReporter)
    (n_algorithms : Z) (i : Z) (algorithms : list string) (acc : train_acc)
    : M train_acc :=
  match algorithms with
  | [] => mret acc
  | algorithm :: rest =>
      c ← is_cancelled reporter;
      if (c : bool) then raise CancelledError
      else
        _ ← report reporter (training_update algorithm i n_algorithms);
        acc' ← try_except
                  (result ← train_single_model algorithm config (Some reporter);
                   match result with
                   | Some (model, model_result) =>
                       mret {| acc_results := acc_results acc ++ [model_result];
                               acc_models := <[algorithm := model]> (acc_models acc);
                               acc_failures := acc_failures acc |}
                   | None =>
                       mret {| acc_results := acc_results acc;
                               acc_models := acc_models acc;
                               acc_failures := <[algorithm := "Training returned no result"]>
                                                 (acc_failures acc) |}
                   end)
                  (λ e, if is_CancelledError e then raise e
                        else mret {| acc_results := acc_results acc;
                                     acc_models := acc_models acc;
                                     acc_failures := <[algorithm := str_exn e]>
                                                       (acc_failures acc) |});
        train_loop config reporter n_algorithms (i + 1) rest acc'
  end.

Definition empty_acc : train_acc :=
  {| acc_results := []; acc_models := ∅; acc_failures := ∅ |}.

Definition train_models (algorithms : list string) (config : PipelineConfig)
    (progress_reporter : option ProgressReporter) : M (estimator * list ModelResult) :=
  let reporter := default NullProgressReporter progress_reporter in
  let n_algorithms := Z.of_nat (length algorithms) in
  acc ← train_loop config reporter n_algorithms 0 algorithms empty_acc;
  match acc_results acc with
  | [] => raise (TrainingFailedError (acc_failures acc))
  | _ :: _ =>
      let results := sort_by_test_score_desc (acc_results acc) in
      match results with
      | [] => raise (OtherError "list index out of range")
      | best :: _ =>
          let best_algorithm := name best in
          match acc_models acc !! best_algorithm with
          | Some best_model => mret (best_model, results)
          | None => raise (KeyError best_algorithm)
          end
      end
  end.

(** ** core/types.py and core/protocols.py *)

(** [explainability] can hold [None] like any Python attribute. *)
Record TrainingResult := {
  success : bool;
  best_model_name : string;
  metrics : Metrics;
  model_comparison : list ModelResult;
  explainability : option ExplainabilityResult;
  tr_training_time_seconds : Q;
  warnings : list string;
  _model : option estimator;
  _preprocessor : option Preprocessor;
  _feature_names : list string;
  _class_labels : option (list string);
  _problem_type : string;
  _target_column : string
}.

Record PipelineContext := {
  ctx_config : PipelineConfig;
  ctx_reporter : ProgressReporter;
  ctx_data : option DataFrame;
  ctx_X : option (list string);
  ctx_y : option string;
  ctx_target_column : option string;
  ctx_X_train : option ndarray;
  ctx_y_train : option ndarray;
  ctx_X_test : option ndarray;
  ctx_y_test : option ndarray;
  ctx_preprocessor : option Preprocessor;
  ctx_algorithms : option (list string);
  ctx_model : option estimator;
  ctx_model_results : option (list ModelResult);
  ctx_metrics : option Metrics;
  ctx_explainability : option ExplainabilityResult;
  ctx_warnings : list string;
  ctx_start_time : Q;
  (* the two attributes the preprocessing stage adds for the split stage *)
  ctx__X_transformed : option ndarray;
  ctx__y_transformed : option ndarray
}.

Definition stage_update (s : TrainingStage) (p : Q) (msg : string) : ProgressUpdate :=
  {| stage := s; progress := p; message := msg;
     current_model := None; models_completed := None |}.

(** ** pipeline/stages.py *)

Definition ValidationStage (context : PipelineContext) : M PipelineContext :=
  _ ← report (ctx_reporter context) (stage_update PREPROCESSING (5 # 100) "Validating data...");
  match ctx_data context with
  | None => raise (InvalidDataError "No data provided to pipeline")
  | Some data =>
      target_column ←
        match target_column (ctx_config context) with
        | Some c => mret c
        | None =>
            match last (columns data) with
            | Some c => mret c
            | None => raise (OtherError "index -1 is out of bounds for axis 0 with size 0")
            end
        end;
      if decide (target_column ∉ columns data) then
        raise (TargetNotFoundError target_column (columns data))
      else if decide (null_columns data ≠ []) then
        raise (InvalidDataError ("Data contains null values in columns: ['"
                 +:+ String.concat "', '" (null_columns data) +:+ "']"))
      else if n_rows data <? 10 then
        raise (InvalidDataError ("Data must have at least 10 samples, got "
                 +:+ pretty (n_rows data)))
      else
        mret {| ctx_config := ctx_config context; ctx_reporter := ctx_reporter context;
                ctx_data := ctx_data context;
                ctx_X := Some (filter (λ c, c ≠ target_column) (columns data));
                ctx_y := Some target_column;
                ctx_target_column := Some target_column;
                ctx_X_train := ctx_X_train context; ctx_y_train := ctx_y_train context;
                ctx_X_test := ctx_X_test context; ctx_y_test := ctx_y_test context;
                ctx_preprocessor := ctx_preprocessor context;
                ctx_algorithms := ctx_algorithms context; ctx_model := ctx_model context;
                ctx_model_results := ctx_model_results context;
                ctx_metrics := ctx_metrics context;
                ctx_explainability := ctx_explainability context;
                ctx_warnings := ctx_warnings context; ctx_start_time := ctx_start_time context;
                ctx__X_transformed := ctx__X_transformed context;
                ctx__y_transformed := ctx__y_transformed context |}
  end.

Definition PreprocessingStage (context : PipelineContext) : M PipelineContext :=
  _ ← report (ctx_reporter context) (stage_update PREPROCESSING (8 # 100) "Preprocessing data...");
  match ctx_X context, ctx_y context with
  | Some X, Some y =>
      '(preprocessor, X_transformed, y_transformed) ←
        lift (fit_transform E (problem_type (ctx_config context)) X y);
      mret {| ctx_config := ctx_config context; ctx_reporter := ctx_reporter context;
              ctx_data := ctx_data context; ctx_X := ctx_X context; ctx_y := ctx_y context;
              ctx_target_column := ctx_target_column context;
              ctx_X_train := ctx_X_train context; ctx_y_train := ctx_y_train context;
              ctx_X_test := ctx_X_test context; ctx_y_test := ctx_y_test context;
              ctx_preprocessor := Some preprocessor;
              ctx_algorithms := ctx_algorithms context; ctx_model := ctx_model context;
              ctx_model_results := ctx_model_results context;
              ctx_metrics := ctx_metrics context;
              ctx_explainability := ctx_explainability context;
              ctx_warnings := ctx_warnings context; ctx_start_time := ctx_start_time context;
              ctx__X_transformed := Some X_transformed;
              ctx__y_transformed := Some y_transformed |}
  | _, _ => raise (InvalidDataError "Validation stage must run before preprocessing")
  end.

Definition SplitStage (context : PipelineContext) : M PipelineContext :=
  _ ← report (ctx_reporter context) (stage_update PREPROCESSING (10 # 100) "Splitting data...");
  match ctx__X_transformed context, ctx__y_transformed context with
  | Some X_transformed, Some y_transformed =>
      '(X_train, X_test, y_train, y_test) ←
        lift (train_test_split E X_transformed y_transformed
                (test_size (ctx_config context)) (random_seed (ctx_config context))
                (bool_decide (problem_type (ctx_config context) = CLASSIFICATION)));
      mret {| ctx_config := ctx_config context; ctx_reporter := ctx_reporter context;
              ctx_data := ctx_data context; ctx_X := ctx_X context; ctx_y := ctx_y context;
              ctx_target_column := ctx_target_column context;
              ctx_X_train := Some X_train; ctx_y_train := Some y_train;
              ctx_X_test := Some X_test; ctx_y_test := Some y_test;
              ctx_preprocessor := ctx_preprocessor context;
              ctx_algorithms := ctx_algorithms context; ctx_model := ctx_model context;
              ctx_model_results := ctx_model_results context;
              ctx_metrics := ctx_metrics context;
              ctx_explainability := ctx_explainability context;
              ctx_warnings := ctx_warnings context; ctx_start_time := ctx_start_time context;
              ctx__X_transformed := None; ctx__y_transformed := None |}
  | _, _ => raise (InvalidDataError "Preprocessing stage must run before split")
  end.

Definition with_algorithms (context : PipelineContext) (algorithms : list string)
    : PipelineContext :=
  {| ctx_config := ctx_config context; ctx_reporter := ctx_reporter context;
     ctx_data := ctx_data context; ctx_X := ctx_X context; ctx_y := ctx_y context;
     ctx_target_column := ctx_target_column context;
     ctx_X_train := ctx_X_train context; ctx_y_train := ctx_y_train context;
     ctx_X_test := ctx_X_test context; ctx_y_test := ctx_y_test context;
     ctx_preprocessor := ctx_preprocessor context;
     ctx_algorithms := Some algorithms; ctx_model := ctx_model context;
     ctx_model_results := ctx_model_results context;
     ctx_metrics := ctx_metrics context;
     ctx_explainability := ctx_explainability context;
     ctx_warnings := ctx_warnings context; ctx_start_time := ctx_start_time context;
     ctx__X_transformed := ctx__X_transformed context;
     ctx__y_transformed := ctx__y_transformed context |}.

(** [if context.config.algorithm:] is false for [None] and for the empty
    string. *)
Definition forced_algorithm (config : PipelineConfig) : option string :=
  match algorithm config with
  | Some a => if decide (a = "") then None else Some a
  | None => None
  end.

Definition AlgorithmSelectionStage (context : PipelineContext) : M PipelineContext :=
  _ ← report (ctx_reporter context)
        (stage_update ALGORITHM_SELECTION (15 # 100) "Selecting algorithms...");
  match ctx_X_train context, ctx_y_train context with
  | Some X_train, Some y_train =>
      match forced_algorithm (ctx_config context) with
      | Some a => mret (with_algorithms context [a])
      | None =>
          let available := get_available_algorithms (problem_type (ctx_config context)) in
          let available :=
            if enable_neural_networks (ctx_config context) then available
            else filter (λ a, a ≠ "neural_network") available in
          let n_classes :=
            match problem_type (ctx_config context) with
            | CLASSIFICATION => Some (n_unique y_train)
            | REGRESSION => None
            end in
          let dataset_info :=
            {| n_samples := (shape X_train).1; n_features := (shape X_train).2;
               di_problem_type := problem_type (ctx_config context);
               n_classes := n_classes |} in
          mret (with_algorithms context
                  (select_algorithms dataset_info available
                     (top_k_algorithms (ctx_config context))
                     (enable_neural_networks (ctx_config context))))
      end
  | _, _ => raise (InvalidDataError "Split stage must run before algorithm selection")
  end.

Definition ModelTrainingStage (context : PipelineContext) : M PipelineContext :=
  match ctx_algorithms context with
  | None => raise (InvalidDataError "Algorithm selection stage must run before training")
  | Some algorithms =>
      match ctx_X_train context, ctx_y_train context, ctx_X_test context,
            ctx_y_test context with
      | Some _, Some _, Some _, Some _ =>
          _ ← report (ctx_reporter context)
                (stage_update TRAINING (20 # 100)
                   ("Training " +:+ pretty (Z.of_nat (length algorithms)) +:+ " models..."));
          '(best_model, model_results) ←
            train_models algorithms (ctx_config context) (Some (ctx_reporter context));
          mret {| ctx_config := ctx_config context; ctx_reporter := ctx_reporter context;
                  ctx_data := ctx_data context; ctx_X := ctx_X context;
                  ctx_y := ctx_y context;
                  ctx_target_column := ctx_target_column context;
                  ctx_X_train := ctx_X_train context; ctx_y_train := ctx_y_train context;
                  ctx_X_test := ctx_X_test context; ctx_y_test := ctx_y_test context;
                  ctx_preprocessor := ctx_preprocessor context;
                  ctx_algorithms := ctx_algorithms context;
                  ctx_model := Some best_model;
                  ctx_model_results := Some model_results;
                  ctx_metrics := ctx_metrics context;
                  ctx_explainability := ctx_explainability context;
                  ctx_warnings := ctx_warnings context;
                  ctx_start_time := ctx_start_time context;
                  ctx__X_transformed := ctx__X_transformed context;
                  ctx__y_transformed := ctx__y_transformed context |}
      | _, _, _, _ => raise (InvalidDataError "Split stage must run before training")
      end
  end.

Definition with_metrics (context : PipelineContext) (m : Metrics) : PipelineContext :=
  {| ctx_config := ctx_config context; ctx_reporter := ctx_reporter context;
     ctx_data := ctx_data context; ctx_X := ctx_X context; ctx_y := ctx_y context;
     ctx_target_column := ctx_target_column context;
     ctx_X_train := ctx_X_train context; ctx_y_train := ctx_y_train context;
     ctx_X_test := ctx_X_test context; ctx_y_test := ctx_y_test context;
     ctx_preprocessor := ctx_preprocessor context;
     ctx_algorithms := ctx_algorithms context; ctx_model := ctx_model context;
     ctx_model_results := ctx_model_results context;
     ctx_metrics := Some m;
     ctx_explainability := ctx_explainability context;
     ctx_warnings := ctx_warnings context; ctx_start_time := ctx_start_time context;
     ctx__X_transformed := ctx__X_transformed context;
     ctx__y_transformed := ctx__y_transformed context |}.

Definition EvaluationStage (context : PipelineContext) : M PipelineContext :=
  _ ← report (ctx_reporter context) (stage_update EVALUATION (90 # 100) "Calculating metrics...");
  match ctx_model context, ctx_X_test context, ctx_y_test context with
  | Some model, Some _, Some _ =>
      m ← lift (calculate_metrics E model (problem_type (ctx_config context)));
      mret (with_metrics context m)
  | _, _, _ => raise (InvalidDataError "Training stage must run before evaluation")
  end.

Definition with_explainability (context : PipelineContext) (x : ExplainabilityResult)
    : PipelineContext :=
  {| ctx_config := ctx_config context; ctx_reporter := ctx_reporter context;
     ctx_data := ctx_data context; ctx_X := ctx_X context; ctx_y := ctx_y context;
     ctx_target_column := ctx_target_column context;
     ctx_X_train := ctx_X_train context; ctx_y_train := ctx_y_train context;
     ctx_X_test := ctx_X_test context; ctx_y_test := ctx_y_test context;
     ctx_preprocessor := ctx_preprocessor context;
     ctx_algorithms := ctx_algorithms context; ctx_model := ctx_model context;
     ctx_model_results := ctx_model_results context;
     ctx_metrics := ctx_metrics context;
     ctx_explainability := Some x;
     ctx_warnings := ctx_warnings context; ctx_start_time := ctx_start_time context;
     ctx__X_transformed := ctx__X_transformed context;
     ctx__y_transformed := ctx__y_transformed context |}.

Definition ExplainabilityStage (context : PipelineContext) : M PipelineContext :=
  if negb (enable_explainability (ctx_config context)) then
    mret (with_explainability context {| feature_importance := []; method := "disabled" |})
  else
    _ ← report (ctx_reporter context)
          (stage_update EXPLAINABILITY (95 # 100) "Generating explanations...");
    match ctx_model context, ctx_X_test context, ctx_preprocessor context with
    | Some model, Some _, Some _ =>
        mret (with_explainability context
                (explain_model E model (shap_max_samples (ctx_config context))))
    | _, _, _ => raise (InvalidDataError "Training stage must run before explainability")
    end.

(** ** pipeline/orchestrator.py *)

(** [_progress_callback] tells whether a callback was given. *)
Record Pipeline := {
  _config : PipelineConfig;
  _progress_callback : bool
}.

(** [CallbackProgressReporter(progress_callback) if progress_callback else
    NullProgressReporter()]: no cancellation check is passed. *)
Definition _reporter (self : Pipeline) : ProgressReporter :=
  if _progress_callback self then CallbackProgressReporter true None
  else NullProgressReporter.

Definition _stages : list (PipelineContext → M PipelineContext) :=
  [ValidationStage; PreprocessingStage; SplitStage; AlgorithmSelectionStage;
   ModelTrainingStage; EvaluationStage; ExplainabilityStage].

Definition _report (self : Pipeline) (s : TrainingStage) (p : Q) (msg : string) : M unit :=
  report (_reporter self) (stage_update s p msg).

Definition _build_result (self : Pipeline) (context : PipelineContext) (training_time : Q)
    : result TrainingResult :=
  match ctx_model_results context, ctx_metrics context, ctx_preprocessor context,
        ctx_target_column context with
  | Some model_results, Some m, Some preprocessor, Some target =>
      match model_results with
      | [] => Raise (OtherError "list index out of range")
      | best :: _ =>
          Ok {| success := true;
                best_model_name := name best;
                metrics := m;
                model_comparison := model_results;
                explainability :=
                  Some (default {| feature_importance := []; method := "none" |}
                          (ctx_explainability context));
                tr_training_time_seconds := training_time;
                warnings := ctx_warnings context;
                _model := ctx_model context;
                _preprocessor := Some preprocessor;
                _feature_names := feature_names preprocessor;
                _class_labels := class_labels preprocessor;
                _problem_type := ProblemType_value (problem_type (_config self));
                _target_column := target |}
      end
  | _, _, _, _ => Raise AssertionError
  end.

Fixpoint run_stages (stages : list (PipelineContext → M PipelineContext))
    (context : PipelineContext) : M PipelineContext :=
  match stages with
  | [] => mret context
  | stage :: rest => context ← stage context; run_stages rest context
  end.

Definition initial_context (self : Pipeline) (data : DataFrame) : PipelineContext :=
  {| ctx_config := _config self; ctx_reporter := _reporter self;
     ctx_data := Some data; ctx_X := None; ctx_y := None; ctx_target_column := None;
     ctx_X_train := None; ctx_y_train := None; ctx_X_test := None; ctx_y_test := None;
     ctx_preprocessor := None; ctx_algorithms := None; ctx_model := None;
     ctx_model_results := None; ctx_metrics := None; ctx_explainability := None;
     ctx_warnings := []; ctx_start_time := 0;
     ctx__X_transformed := None; ctx__y_transformed := None |}.

Definition train (self : Pipeline) (data : DataFrame) : M TrainingResult :=
  try_except
    (_ ← _report self INITIALIZING 0 "Initializing pipeline...";
     context ← run_stages _stages (initial_context self data);
     let training_time := total_elapsed E in
     _ ← _report self COMPLETE 1 "Training complete!";
     lift (_build_result self context training_time))
    (λ e, if is_CancelledError e
          then _ ← _report self CANCELLED 0 "Training cancelled"; raise e
          else _ ← _report self FAILED 0 ("Training failed: " +:+ str_exn e); raise e).

End Engine.

(** * Predicates and expected values used by the properties *)

(** Scores in descending order. *)
Definition desc (a b : ModelResult) : Prop := (test_score b <= test_score a)%Q.

#[local] Instance Qeq_decision (x y : Q) : Decision (x == y)%Q := Qeq_dec x y.

(** The results whose test score equals [s], in list order. *)
Definition with_score (s : Q) (l : list ModelResult) : list ModelResult :=
  filter (λ r, (test_score r == s)%Q) l.

(** A computation that reports nothing. *)
Definition silent {A} (m : M A) : Prop := ∀ w, captured (m w).2 = captured w.

(** The updates a reporter passes on to a callback. *)
Definition shown (reporter : ProgressReporter) (updates : list ProgressUpdate)
    : list ProgressUpdate :=
  match reporter with
  | CallbackProgressReporter true _ => updates
  | _ => []
  end.

(** What one iteration records for the outcome [r] of [train_single_model]. *)
Definition record_attempt (algorithm : string) (r : option (estimator * ModelResult))
    (acc : train_acc) : train_acc :=
  match r with
  | Some (model, model_result) =>
      {| acc_results := acc_results acc ++ [model_result];
         acc_models := <[algorithm := model]> (acc_models acc);
         acc_failures := acc_failures acc |}
  | None =>
      {| acc_results := acc_results acc;
         acc_models := acc_models acc;
         acc_failures := <[algorithm := "Training returned no result"]> (acc_failures acc) |}
  end.



(** The updates the loop of [train_models] reports, from index [i] on. *)
Fixpoint training_updates (n_algorithms i : Z) (algorithms : list string)
    : list ProgressUpdate :=
  match algorithms with
  | [] => []
  | algorithm :: rest =>
      training_update algorithm i n_algorithms :: training_updates n_algorithms (i + 1) rest
  end.

(** The updates of a run that goes through all its stages. *)
Definition successful_run_updates (config : PipelineConfig) (algorithms : list string)
    : list ProgressUpdate :=
  let n := Z.of_nat (length algorithms) in
  [stage_update INITIALIZING 0 "Initializing pipeline...";
   stage_update PREPROCESSING (5 # 100) "Validating data...";
   stage_update PREPROCESSING (8 # 100) "Preprocessing data...";
   stage_update PREPROCESSING (10 # 100) "Splitting data...";
   stage_update ALGORITHM_SELECTION (15 # 100) "Selecting algorithms...";
   stage_update TRAINING (20 # 100) ("Training " +:+ pretty n +:+ " models...")]
  ++ training_updates n 0 algorithms
  ++ [stage_update EVALUATION (90 # 100) "Calculating metrics..."]
  ++ (if enable_explainability config
      then [stage_update EXPLAINABILITY (95 # 100) "Generating explanations..."]
      else [])
  ++ [stage_update COMPLETE 1 "Training complete!"].

(** What every stage keeps, and what it reports. *)
Definition stage_reports (stage : PipelineContext → M PipelineContext)
    (updates : PipelineContext → list ProgressUpdate → Prop) : Prop :=
  ∀ context w context' w',
    stage context w = (Ok context', w') →
    ctx_config context' = ctx_config context
    ∧ ctx_reporter context' = ctx_reporter context
    ∧ ∃ us, captured w' = captured w ++ shown (ctx_reporter context) us
            ∧ updates context' us.

(** The fractions of a run that goes through all stages. *)
Definition successful_run_fractions (explain : bool) (n : Z) : list Q :=
  [0%Q; (5 # 100)%Q; (8 # 100)%Q; (10 # 100)%Q; (15 # 100)%Q; (20 # 100)%Q]
  ++ ((λ i, training_progress i n) <$> seqZ 0 n)
  ++ [(90 # 100)%Q]
  ++ (if explain then [(95 # 100)%Q] else [])
  ++ [1%Q].

(** * Concrete inputs *)

Definition demo_spec : ModelSpec :=
  {| problem_types := [CLASSIFICATION; REGRESSION];
     has_suggest_params := true;
     default_params := Some {[ "max_depth" := PInt 10 ]};
     init_params := ["max_depth"; "random_state"] |}.

Definition demo_preprocessor : Preprocessor :=
  {| feature_names := ["x1"; "x2"]; class_labels := Some ["0"; "1"];
     transformed_feature_names := ["x1"; "x2"] |}.

(** Externals with two registered algorithms; the cross-validation and the
    fit are left open. *)
Definition demo_externals (cv : estimator → Z → string → result Q)
    (fit_exn : estimator → option exn) : externals :=
  {| _ALL_MODELS := [("decision_tree", demo_spec); ("knn", demo_spec)];
     suggest_params := λ _ number,
       ({[ "max_depth" := PInt (Z.of_nat number + 2) ]},
        {[ "max_depth" := PInt (Z.of_nat number + 2) ]});
     cross_val_score := cv;
     fit_raises := fit_exn;
     score := λ _ on, Ok (match on with TrainSplit => 9 # 10 | TestSplit => 8 # 10 end);
     elapsed := λ _, 1%Q;
     total_elapsed := 2%Q;
     fit_transform := λ _ _ _,
       Ok (demo_preprocessor, {| shape := (50, 2); n_unique := 2 |},
           {| shape := (50, 1); n_unique := 2 |});
     train_test_split := λ _ _ _ _ _,
       Ok ({| shape := (40, 2); n_unique := 40 |}, {| shape := (10, 2); n_unique := 10 |},
           {| shape := (40, 1); n_unique := 2 |}, {| shape := (10, 1); n_unique := 2 |});
     calculate_metrics := λ _ _,
       Ok (ClassificationMetrics (8 # 10) (8 # 10) (8 # 10) (8 # 10) None [] (8 # 10));
     explain_model := λ _ _, {| feature_importance := []; method := "shap" |} |}.

Definition demo_config (optimize : bool) (explain : bool) : PipelineConfig :=
  {| problem_type := CLASSIFICATION; target_column := None; algorithm := None;
     top_k_algorithms := 1; optimize_hyperparams := optimize; n_trials := 2;
     cv_folds := 2; test_size := 2 # 10; enable_neural_networks := true;
     enable_explainability := explain; shap_max_samples := 100; random_seed := 42;
     n_jobs := -1 |}.

Definition world0 : world := {| captured := []; polls := 0 |}.

Definition cv_ok : estimator → Z → string → result Q := λ _ _ _, Ok (8 # 10).
Definition cv_fails : estimator → Z → string → result Q :=
  λ _ _ _, Raise (ValueError "n_splits=2 cannot be greater than the number of members in each class.").
Definition fit_ok : estimator → option exn := λ _, None.
Definition fit_fails : estimator → option exn := λ _, Some (OtherError "boom").

(** A reporter whose cancellation check answers true from its k-th call on. *)
Definition cancelled_from (k : nat) : ProgressReporter :=
  CallbackProgressReporter false (Some (λ call, bool_decide (k ≤ call)%nat)).

Definition demo_pipeline (optimize explain : bool) : Pipeline :=
  {| _config := demo_config optimize explain; _progress_callback := true |}.

Definition demo_data : DataFrame :=
  {| columns := ["x1"; "x2"; "target"]; null_columns := []; n_rows := 50 |}.

Definition demo_failed_study : list FrozenTrial :=
  [{| number := 0; value := None; trial_params := {[ "max_depth" := PInt 2 ]} |};
   {| number := 1; value := None; trial_params := {[ "max_depth" := PInt 3 ]} |}].

(** * Further definitions *)

(** The names of [l] that are in [avail] and not yet in [seen], each at its
    first occurrence: what a selection loop without a limit would append. *)
Fixpoint novel (avail : gset string) (l seen : list string) : list string :=
  match l with
  | [] => []
  | a :: rest =>
      if decide (a ∈ avail ∧ a ∉ seen) then a :: novel avail rest (seen ++ [a])
      else novel avail rest seen
  end.

(** [t] is the first trial of [study] with the greatest value. *)
Definition first_best (study : list FrozenTrial) (t : FrozenTrial) : Prop :=
  ∃ before after v,
    study = before ++ t :: after
    ∧ value t = Some v
    ∧ (∀ t' v', t' ∈ before → value t' = Some v' → (v' < v)%Q)
    ∧ (∀ t' v', t' ∈ after → value t' = Some v' → (v' <= v)%Q).

(** What a reporter's cancellation check does to the number of calls. *)
Definition polled (reporter : ProgressReporter) (n : nat) (w : world) : world :=
  match reporter with
  | CallbackProgressReporter _ (Some _) => {| captured := captured w; polls := polls w + n |}
  | _ => w
  end.

(** [self._cancellation_check]; the null reporter has none. *)
Definition _cancellation_check (self : ProgressReporter) : option (nat → bool) :=
  match self with
  | CallbackProgressReporter _ check => check
  | NullProgressReporter => None
  end.

(** The calls of the cancellation check one algorithm of the training loop
    makes: one at the start of its iteration, and one for each trial of the
    hyperparameter search. *)
Definition polls_per_algorithm (config : PipelineConfig) : nat :=
  if optimize_hyperparams config then S (Z.to_nat (n_trials config)) else 1.

(** An update of a run that is still going on. *)
Definition in_progress (u : ProgressUpdate) : Prop :=
  stage u ≠ COMPLETE ∧ stage u ≠ FAILED ∧ stage u ≠ CANCELLED.

(** A computation that calls no cancellation check and, whatever its
    outcome, only hands the callback of [reporter] updates of a run that is
    still going on. *)
Definition reports_only {A} (reporter : ProgressReporter) (m : M A) : Prop :=
  ∀ w, polls (m w).2 = polls w
       ∧ ∃ us, captured (m w).2 = captured w ++ shown reporter us ∧ Forall in_progress us.

(** The last update of a run that raises [e]. *)
Definition failure_update (e : exn) : ProgressUpdate :=
  if is_CancelledError e then stage_update CANCELLED 0 "Training cancelled"
  else stage_update FAILED 0 ("Training failed: " +:+ str_exn e).

(** * Properties *)

(** ** Comparisons of rationals *)

Lemma Qltb_lt x y : Qltb x y = true <-> (x < y)%Q.
Proof.
  unfold Qltb. rewrite negb_true_iff. split.
  - intros H. apply Qnot_le_lt. intros Hle. apply Qle_bool_iff in Hle. congruence.
  - intros H. destruct (Qle_bool y x) eqn:E; [|done].
    apply Qle_bool_iff in E. exfalso. exact (Qlt_not_le _ _ H E).
Qed.

Lemma Qltb_ge x y : Qltb x y = false <-> (y <= x)%Q.
Proof.
  unfold Qltb. rewrite negb_false_iff. apply Qle_bool_iff.
Qed.

Lemma Qltb_spec x y : reflect (x < y)%Q (Qltb x y).
Proof.
  destruct (Qltb x y) eqn:H; constructor.
  - by apply Qltb_lt.
  - apply Qltb_ge in H. by apply Qle_not_lt.
Qed.

(** ** Overfitting risk *)

(** C6, as the code has it: the two comparisons are strict, so a gap below
    0.05 is low, a gap from 0.05 (included) to 0.15 (excluded) is medium and
    a gap of 0.15 or more is high; the boundary values 0.05 and 0.15 fall in
    the upper of the two buckets they separate. *)
Theorem assess_overfitting_buckets (train_score test_score : Q) :
  let gap := (train_score - test_score)%Q in
  ((gap < 5 # 100)%Q ∧ _assess_overfitting train_score test_score = "low") ∨
  ((5 # 100 <= gap)%Q ∧ (gap < 15 # 100)%Q
     ∧ _assess_overfitting train_score test_score = "medium") ∨
  ((15 # 100 <= gap)%Q ∧ _assess_overfitting train_score test_score = "high").
Proof.
  intros gap. unfold _assess_overfitting. fold gap.
  destruct (Qltb_spec gap (5 # 100)) as [Hlow | Hlow].
  - by left.
  - apply Qnot_lt_le in Hlow.
    destruct (Qltb_spec gap (15 # 100)) as [Hmed | Hmed].
    + right; left. done.
    + right; right. split; [by apply Qnot_lt_le | done].
Qed.

(** C6, as the specification words it, fails: a gap of exactly 0.05 is not
    put in the lower bucket (low) but in medium, and a gap of exactly 0.15
    is put in high. *)
Lemma assess_overfitting_boundary_not_lower :
  ¬ (∀ train_score test_score : Q,
        ((train_score - test_score == 5 # 100)%Q →
           _assess_overfitting train_score test_score = "low") ∧
        ((train_score - test_score == 15 # 100)%Q →
           _assess_overfitting train_score test_score = "medium")).
Proof.
  intros H. destruct (H (5 # 100) 0%Q) as [H1 _].
  assert (Hm : _assess_overfitting (5 # 100) 0 = "medium") by reflexivity.
  rewrite H1 in Hm; [discriminate | reflexivity].
Qed.

(** ** Configuration *)

Lemma post_init_Ok (c : PipelineConfig) :
  post_init c = Ok tt ↔ ¬ invalid_config c.
Proof.
  unfold post_init, invalid_config.
  destruct (Z.ltb_spec (top_k_algorithms c) 1); [split; [done | intros H'; exfalso; apply H'; lia]|].
  destruct (Z.ltb_spec (n_trials c) 1); [split; [done | intros H'; exfalso; apply H'; lia]|].
  destruct (Z.ltb_spec (cv_folds c) 2); [split; [done | intros H'; exfalso; apply H'; lia]|].
  destruct (Qltb_spec 0 (test_size c)) as [Hlo | Hlo]; simpl;
    [| split; [done | intros H'; exfalso; apply H'; do 3 right; left; tauto]].
  destruct (Qltb_spec (test_size c) 1) as [Hhi | Hhi]; simpl;
    [| split; [done | intros H'; exfalso; apply H'; do 3 right; left; tauto]].
  destruct (Z.ltb_spec (shap_max_samples c) 1);
    [split; [done | intros H'; exfalso; apply H'; lia]|].
  split; [|done]. intros _ [?|[?|[?|[Hn|?]]]]; try lia. apply Hn; done.
Qed.

Lemma invalid_config_dec (fields : PipelineConfig) :
  invalid_config fields ∨ ¬ invalid_config fields.
Proof.
  destruct (post_init fields) as [[]|e] eqn:Hp.
  - right. by apply post_init_Ok.
  - left. destruct (Z.ltb_spec (top_k_algorithms fields) 1); [by left|].
    destruct (Z.ltb_spec (n_trials fields) 1); [by right; left|].
    destruct (Z.ltb_spec (cv_folds fields) 2); [by right; right; left|].
    destruct (Z.ltb_spec (shap_max_samples fields) 1); [by do 4 right|].
    do 3 right; left. intros [Hlo Hhi].
    apply Qltb_lt in Hlo, Hhi. unfold post_init in Hp.
    repeat match type of Hp with
           | context [?a <? ?b] => destruct (Z.ltb_spec a b); [lia|]
           end.
    rewrite Hlo, Hhi in Hp. simpl in Hp. discriminate.
Qed.

Lemma new_PipelineConfig_Raise (fields : PipelineConfig) :
  (∃ e, new_PipelineConfig fields = Raise e) ↔ invalid_config fields.
Proof.
  unfold new_PipelineConfig. split.
  - intros [e He]. destruct (invalid_config_dec fields) as [|Hv]; [done|].
    apply post_init_Ok in Hv. rewrite Hv in He. discriminate.
  - intros Hinv. destruct (post_init fields) as [[]|e] eqn:Hp; [|by eexists].
    exfalso. by apply post_init_Ok in Hp.
Qed.

Lemma new_PipelineConfig_Ok (fields c : PipelineConfig) :
  new_PipelineConfig fields = Ok c ↔ c = fields ∧ ¬ invalid_config fields.
Proof.
  unfold new_PipelineConfig. split.
  - destruct (post_init fields) as [[]|e] eqn:Hp; [|discriminate].
    intros [= <-]. split; [done|]. by apply post_init_Ok.
  - intros [-> Hv]. apply post_init_Ok in Hv. by rewrite Hv.
Qed.

(** C7: construction raises exactly when top-k < 1, trials < 1, cv-folds <
    2, the test fraction is not strictly between 0 and 1, or the sample cap
    is < 1; otherwise it returns the configuration with the given values,
    unchanged, so every configuration that exists satisfies all five
    bounds and no later step can meet an invalid value. *)
Theorem config_construction_fails_iff_invalid (fields : PipelineConfig) :
  ((∃ e, new_PipelineConfig fields = Raise e) ↔ invalid_config fields) ∧
  (¬ invalid_config fields ↔ new_PipelineConfig fields = Ok fields) ∧
  (∀ c, new_PipelineConfig fields = Ok c →
        c = fields ∧ 1 ≤ top_k_algorithms c ∧ 1 ≤ n_trials c ∧ 2 ≤ cv_folds c
        ∧ (0 < test_size c)%Q ∧ (test_size c < 1)%Q ∧ 1 ≤ shap_max_samples c).
Proof.
  split; [apply new_PipelineConfig_Raise|]. split.
  - rewrite new_PipelineConfig_Ok. tauto.
  - intros c [-> Hv]%new_PipelineConfig_Ok. unfold invalid_config in Hv.
    split; [done|].
    repeat split; try lia.
    + destruct (Qlt_le_dec 0 (test_size fields)) as [|Hle]; [done|].
      exfalso. apply Hv. do 3 right; left. intros [Hlt _].
      exact (Qlt_not_le _ _ Hlt Hle).
    + destruct (Qlt_le_dec (test_size fields) 1) as [|Hle]; [done|].
      exfalso. apply Hv. do 3 right; left. intros [_ Hlt].
      exact (Qlt_not_le _ _ Hlt Hle).
Qed.

(** Through the builder, construction needs the problem kind as well; once
    it is given, [build] fails under the same five conditions. *)
Lemma build_with_problem_type (self : PipelineConfigBuilder) (p : ProblemType) :
  b_problem_type self = Some p →
  ((∃ e, build self = Raise e) ↔ invalid_config (b_settings self))
  ∧ (∀ c, build self = Ok c → problem_type c = p ∧ ¬ invalid_config c).
Proof.
  intros Hp. unfold build. rewrite Hp.
  match goal with |- context [new_PipelineConfig ?f] => set (fields := f) end.
  split; [by rewrite new_PipelineConfig_Raise|].
  by intros c [-> Hv]%new_PipelineConfig_Ok.
Qed.

Lemma build_without_problem_type (self : PipelineConfigBuilder) :
  b_problem_type self = None → build self = Raise (ValueError "problem_type is required").
Proof. intros Hp. unfold build. by rewrite Hp. Qed.

(** ** The selector *)

Section Selector.
Implicit Types (selected priority_list available : list string) (avail : gset string).

(** What the first loop adds to [selected]: a subsequence of the priority
    list, made of available names; it stops at [top_k] names, and when it
    ends below [top_k] it has taken every available name of the list. *)
Lemma select_from_priority_spec top_k avail priority_list selected :
  ∃ extra,
    select_from_priority top_k avail priority_list selected = selected ++ extra
    ∧ extra `sublist_of` priority_list
    ∧ Forall (λ a, a ∈ avail) extra
    ∧ (NoDup selected → NoDup (selected ++ extra))
    ∧ (Z.of_nat (length selected) < top_k →
         Z.of_nat (length (selected ++ extra)) ≤ top_k)
    ∧ (Z.of_nat (length (selected ++ extra)) < top_k →
         ∀ a, a ∈ priority_list → a ∈ avail → a ∈ selected ++ extra).
Proof.
  revert selected.
  induction priority_list as [|algo rest IH]; intros selected; simpl.
  - exists []. rewrite app_nil_r. repeat split; try done; try lia.
    intros _ a Ha. by apply elem_of_nil in Ha.
  - destruct (decide (algo ∈ avail ∧ algo ∉ selected)) as [[Hav Hnew]|Hno].
    + destruct (Z.leb_spec top_k (Z.of_nat (length (selected ++ [algo])))) as [Hfull|Hroom].
      * exists [algo]. repeat split.
        -- apply sublist_skip, sublist_nil_l.
        -- by constructor.
        -- intros Hnd. apply NoDup_app. repeat split; [done | | apply NoDup_singleton].
           intros x Hx Hx'. apply list_elem_of_singleton in Hx'. by subst.
        -- rewrite length_app in *. simpl in *. lia.
        -- lia.
      * destruct (IH (selected ++ [algo])) as (extra & Heq & Hsub & Hall & Hnd & Hlen & Hcomp).
        exists (algo :: extra). rewrite <- app_assoc in *. simpl in *.
        repeat split.
        -- done.
        -- by apply sublist_skip.
        -- by constructor.
        -- intros Hs. apply Hnd. rewrite cons_middle, app_assoc, app_nil_r.
           apply NoDup_app. repeat split; [done | | apply NoDup_singleton].
           intros x Hx Hx'. apply list_elem_of_singleton in Hx'. by subst.
        -- intros _. apply Hlen. rewrite cons_middle, app_assoc, app_nil_r. lia.
        -- intros Hlt a Ha Hin. apply elem_of_cons in Ha as [->|Ha].
           ++ apply elem_of_app. right. by left.
           ++ by apply Hcomp.
    + destruct (IH selected) as (extra & Heq & Hsub & Hall & Hnd & Hlen & Hcomp).
      exists extra. repeat split; try done.
      * by apply sublist_cons.
      * intros Hlt a Ha Hin. apply elem_of_cons in Ha as [->|Ha]; [|by apply Hcomp].
        apply elem_of_app. left.
        destruct (decide (algo ∈ selected)); [done|]. exfalso. by apply Hno.
Qed.

(** The second loop, likewise, over the available list itself. *)
Lemma select_remaining_spec top_k include_neural available selected :
  ∃ extra,
    select_remaining top_k include_neural available selected = selected ++ extra
    ∧ extra `sublist_of` available
    ∧ Forall (λ a, (a ∉ selected) ∧ (include_neural = true ∨ a ≠ "neural_network")) extra
    ∧ (NoDup selected → NoDup (selected ++ extra))
    ∧ (Z.of_nat (length selected) < top_k →
         Z.of_nat (length (selected ++ extra)) ≤ top_k)
    ∧ (Z.of_nat (length (selected ++ extra)) < top_k →
         ∀ a, a ∈ available → include_neural = true ∨ a ≠ "neural_network" →
              a ∈ selected ++ extra).
Proof.
  revert selected.
  induction available as [|algo rest IH]; intros selected; simpl.
  - exists []. rewrite app_nil_r. repeat split; try done; try lia.
    intros _ a Ha. by apply elem_of_nil in Ha.
  - destruct (decide ((algo ∉ selected)
                      ∧ (include_neural = true ∨ algo ≠ "neural_network")))
      as [[Hnew Hnn]|Hno].
    + destruct (Z.leb_spec top_k (Z.of_nat (length (selected ++ [algo])))) as [Hfull|Hroom].
      * exists [algo]. repeat split.
        -- apply sublist_skip, sublist_nil_l.
        -- by constructor.
        -- intros Hnd. apply NoDup_app. repeat split; [done | | apply NoDup_singleton].
           intros x Hx Hx'. apply list_elem_of_singleton in Hx'. by subst.
        -- rewrite length_app in *. simpl in *. lia.
        -- lia.
      * destruct (IH (selected ++ [algo])) as (extra & Heq & Hsub & Hall & Hnd & Hlen & Hcomp).
        exists (algo :: extra). rewrite <- app_assoc in *. simpl in *.
        repeat split.
        -- done.
        -- by apply sublist_skip.
        -- constructor; [done|]. eapply Forall_impl; [exact Hall|].
           simpl. intros a [Ha ?]. split; [|done].
           intros Hin. apply Ha. apply elem_of_app. by left.
        -- intros Hs. apply Hnd. rewrite cons_middle, app_assoc, app_nil_r.
           apply NoDup_app. repeat split; [done | | apply NoDup_singleton].
           intros x Hx Hx'. apply list_elem_of_singleton in Hx'. by subst.
        -- intros _. apply Hlen. rewrite cons_middle, app_assoc, app_nil_r. lia.
        -- intros Hlt a Ha Hin. apply elem_of_cons in Ha as [->|Ha].
           ++ apply elem_of_app. right. by left.
           ++ by apply Hcomp.
    + destruct (IH selected) as (extra & Heq & Hsub & Hall & Hnd & Hlen & Hcomp).
      exists extra. repeat split; try done.
      * by apply sublist_cons.
      * intros Hlt a Ha Hin. apply elem_of_cons in Ha as [->|Ha]; [|by apply Hcomp].
        apply elem_of_app. left.
        destruct (decide (algo ∈ selected)); [done|]. exfalso. by apply Hno.
Qed.

Lemma elem_of_available_set a available include_neural :
  a ∈ available_set available include_neural ↔
  a ∈ available ∧ (include_neural = true ∨ a ≠ "neural_network").
Proof.
  unfold available_set. destruct include_neural.
  - rewrite elem_of_list_to_set. intuition.
  - rewrite elem_of_difference, elem_of_list_to_set, elem_of_singleton.
    intuition congruence.
Qed.

(** The names of the selection, whatever the priority list is. *)
Lemma select_algorithms_facts dataset_info available top_k include_neural :
  let r := select_algorithms dataset_info available top_k include_neural in
  NoDup r
  ∧ (∀ a, a ∈ r → a ∈ available_set available include_neural)
  ∧ (1 ≤ top_k → Z.of_nat (length r) ≤ top_k)
  ∧ (Z.of_nat (length r) < top_k →
       ∀ a, a ∈ available_set available include_neural → a ∈ r).
Proof.
  unfold select_algorithms.
  destruct (select_from_priority_spec top_k (available_set available include_neural)
              (effective_priority_list dataset_info) [])
    as (e1 & -> & Hsub1 & Hall1 & Hnd1 & Hlen1 & Hcomp1). simpl in *.
  specialize (Hnd1 (NoDup_nil_2)).
  destruct (Z.ltb_spec (Z.of_nat (length e1)) top_k) as [Hshort|Hfull].
  - destruct (select_remaining_spec top_k include_neural available e1)
      as (e2 & -> & Hsub2 & Hall2 & Hnd2 & Hlen2 & Hcomp2).
    repeat split.
    + by apply Hnd2.
    + intros a [Ha|Ha]%elem_of_app.
      * by eapply (proj1 (Forall_forall _ _) Hall1).
      * apply elem_of_available_set. split.
        -- by eapply elem_of_sublist.
        -- by eapply (proj1 (Forall_forall _ _) Hall2).
    + intros _. by apply Hlen2.
    + intros Hlt a [Ha Hnn]%elem_of_available_set. by apply Hcomp2.
  - repeat split; try done.
    + intros a Ha. by eapply (proj1 (Forall_forall _ _) Hall1).
    + intros Hk. apply Hlen1. lia.
    + lia.
Qed.

End Selector.

(** C4: with top-k at least 1 the selection has min(top-k, number of
    available names) names, the available names being those of the list
    given, without the neural network when it is disabled (for a list
    without repetitions, as many as the list has after that exclusion); the
    neural network is never selected when disabled; and the function, which
    is total, returns the empty selection for an empty list. *)
Theorem select_algorithms_length (dataset_info : DatasetInfo)
    (available_algorithms : list string) (top_k : Z) (include_neural : bool) :
  1 ≤ top_k →
  length (select_algorithms dataset_info available_algorithms top_k include_neural)
    = Nat.min (Z.to_nat top_k) (size (available_set available_algorithms include_neural))
  ∧ (NoDup available_algorithms →
       size (available_set available_algorithms include_neural)
       = length (filter (λ a, include_neural = true ∨ a ≠ "neural_network")
                   available_algorithms))
  ∧ (include_neural = false →
       "neural_network" ∉ select_algorithms dataset_info available_algorithms top_k
                            include_neural)
  ∧ (available_algorithms = [] →
       select_algorithms dataset_info available_algorithms top_k include_neural = []).
Proof.
  intros Hk.
  destruct (select_algorithms_facts dataset_info available_algorithms top_k include_neural)
    as (Hnd & Hin & Hlen & Hcomp).
  set (r := select_algorithms _ _ _ _) in *.
  set (S := available_set available_algorithms include_neural) in *.
  assert (Hle : (length r ≤ size S)%nat).
  { rewrite <- (size_list_to_set (C:=gset string) r) by done.
    apply subseteq_size. intros a Ha. apply Hin. by apply elem_of_list_to_set in Ha. }
  assert (Hlen_eq : length r = Nat.min (Z.to_nat top_k) (size S)).
  { specialize (Hlen Hk).
    destruct (decide (Z.of_nat (length r) < top_k)) as [Hlt|Hge]; [|lia].
    assert ((size S ≤ length r)%nat); [|lia].
    rewrite <- (size_list_to_set (C:=gset string) r) by done.
    apply subseteq_size. intros a Ha. apply elem_of_list_to_set. by apply Hcomp. }
  repeat split.
  - done.
  - intros Hnda.
    rewrite <- (size_list_to_set (C:=gset string)) by by apply NoDup_filter.
    f_equal. apply set_eq. intros a.
    subst S. rewrite elem_of_available_set, elem_of_list_to_set, list_elem_of_filter.
    tauto.
  - intros -> Hnn. apply Hin in Hnn. apply elem_of_available_set in Hnn.
    destruct Hnn as [_ [?|?]]; done.
  - intros Hav. apply length_zero_iff_nil.
    assert (HS : S = ∅).
    { subst S. rewrite Hav. unfold available_set. destruct include_neural; set_solver. }
    rewrite HS, size_empty in Hle. lia.
Qed.

(** ** Re-ordering for high-dimensional data *)

Lemma filter_all {A} (P : A → Prop) `{∀ x, Decision (P x)} (l : list A) :
  Forall P l → filter P l = l.
Proof.
  induction 1 as [|x l Hx _ IH]; [done|].
  rewrite filter_cons_True by done. by rewrite IH.
Qed.

Lemma filter_none {A} (P : A → Prop) `{∀ x, Decision (P x)} (l : list A) :
  Forall (λ x, ¬ P x) l → filter P l = [].
Proof.
  induction 1 as [|x l Hx _ IH]; [done|].
  by rewrite filter_cons_False.
Qed.

Lemma Forall_filter_self {A} (P : A → Prop) `{∀ x, Decision (P x)} (l : list A) :
  Forall P (filter P l).
Proof. apply Forall_forall. intros x Hx. by apply list_elem_of_filter in Hx as [? _]. Qed.

Lemma tree_models_NoDup : NoDup tree_models.
Proof. apply (bool_decide_unpack _). by vm_compute. Qed.

Lemma static_priority_list_NoDup dataset_info : NoDup (static_priority_list dataset_info).
Proof.
  unfold static_priority_list.
  destruct (di_problem_type dataset_info), (size_category dataset_info);
    apply (bool_decide_unpack _); by vm_compute.
Qed.

Lemma elem_of_boost_tree_models priority_list m :
  m ∈ boost_tree_models priority_list ↔ m ∈ priority_list.
Proof.
  unfold boost_tree_models.
  rewrite elem_of_app, !list_elem_of_filter.
  destruct (decide (m ∈ tree_models)); tauto.
Qed.

Lemma boost_tree_models_NoDup priority_list :
  NoDup priority_list → NoDup (boost_tree_models priority_list).
Proof.
  intros Hnd. unfold boost_tree_models. apply NoDup_app. repeat split.
  - apply NoDup_filter, tree_models_NoDup.
  - intros m [_ Hm]%list_elem_of_filter [Hm' _]%list_elem_of_filter. done.
  - by apply NoDup_filter.
Qed.

Lemma boost_tree_models_trees_first priority_list :
  trees_first (boost_tree_models priority_list).
Proof.
  eexists _, _. split; [reflexivity|]. split.
  - apply Forall_forall. intros m Hm. by apply list_elem_of_filter in Hm as [_ ?].
  - apply Forall_filter_self.
Qed.

(** When every tree-ensemble name is in the priority list and that list has
    them first, the whole selection has them first: what the second loop
    appends cannot be a tree-ensemble name. *)
Lemma select_output_trees_first top_k include_neural available priority_list :
  trees_first priority_list →
  (∀ m, m ∈ tree_models → m ∈ priority_list) →
  let selected := select_from_priority top_k (available_set available include_neural)
                    priority_list [] in
  trees_first (if Z.of_nat (length selected) <? top_k
               then select_remaining top_k include_neural available selected
               else selected).
Proof.
  intros (T & N & -> & HT & HN) Hall. simpl.
  destruct (select_from_priority_spec top_k (available_set available include_neural)
              (T ++ N) []) as (e1 & -> & Hsub1 & Hav1 & _ & _ & Hcomp1). simpl in *.
  apply sublist_app_r in Hsub1 as (eT & eN & -> & HsT & HsN).
  assert (HeT : Forall (λ m, m ∈ tree_models) eT).
  { apply Forall_forall. intros m Hm.
    eapply (proj1 (Forall_forall _ _) HT). by eapply elem_of_sublist. }
  assert (HeN : Forall (λ m, m ∉ tree_models) eN).
  { apply Forall_forall. intros m Hm.
    eapply (proj1 (Forall_forall _ _) HN). by eapply elem_of_sublist. }
  destruct (Z.ltb_spec (Z.of_nat (length (eT ++ eN))) top_k) as [Hshort|Hfull].
  - destruct (select_remaining_spec top_k include_neural available (eT ++ eN))
      as (e2 & -> & Hsub2 & Hall2 & _ & _ & _).
    exists eT, (eN ++ e2). rewrite app_assoc. split; [done|]. split; [done|].
    apply Forall_app. split; [done|].
    apply Forall_forall. intros m Hm Htree.
    pose proof (proj1 (Forall_forall _ _) Hall2 m Hm) as [Hnew Hnn].
    apply Hnew. apply (Hcomp1 Hshort m (Hall m Htree)).
    apply elem_of_available_set. split; [exact (elem_of_sublist _ _ _ Hm Hsub2)|].
    right. intros ->. revert Htree. apply (bool_decide_unpack _). by vm_compute.
  - by exists eT, eN.
Qed.

Lemma tree_models_in_static dataset_info :
  1000 ≤ n_samples dataset_info →
  ∀ m, m ∈ tree_models → m ∈ static_priority_list dataset_info.
Proof.
  intros Hn. unfold static_priority_list, size_category.
  destruct (Z.ltb_spec (n_samples dataset_info) 1000); [lia|].
  intros m Hm. revert m Hm. apply Forall_forall.
  destruct (di_problem_type dataset_info), (n_samples dataset_info <? 10000);
    apply (bool_decide_unpack _); by vm_compute.
Qed.

(** C5, as the code has it: for a high-dimensional dataset the re-ordered
    list has the same names as the static priority list, the tree-ensemble
    names first; the names outside that subset keep their relative order,
    and those inside it come in the order of the selector's own
    [tree_models] list (random_forest, extra_trees, xgboost, lightgbm,
    gradient_boosting), not in that of the priority list.  From 1000
    samples on (so for n_features = 150, n_samples = 1000) every
    tree-ensemble name of the selector's output precedes every other
    name of it. *)
Theorem high_dimensional_reorder (dataset_info : DatasetInfo) :
  is_high_dimensional dataset_info = true →
  let static := static_priority_list dataset_info in
  let reordered := effective_priority_list dataset_info in
  reordered ≡ₚ static
  ∧ trees_first reordered
  ∧ filter (λ m, m ∉ tree_models) reordered = filter (λ m, m ∉ tree_models) static
  ∧ filter (λ m, m ∈ tree_models) reordered = filter (λ m, m ∈ static) tree_models
  ∧ (1000 ≤ n_samples dataset_info →
       ∀ available_algorithms top_k include_neural,
         trees_first (select_algorithms dataset_info available_algorithms top_k
                        include_neural)).
Proof.
  intros Hhigh static reordered.
  assert (Hre : reordered = boost_tree_models static).
  { subst reordered. unfold effective_priority_list. by rewrite Hhigh. }
  repeat split.
  - rewrite Hre. apply NoDup_Permutation.
    + apply boost_tree_models_NoDup, static_priority_list_NoDup.
    + apply static_priority_list_NoDup.
    + apply elem_of_boost_tree_models.
  - rewrite Hre. apply boost_tree_models_trees_first.
  - rewrite Hre. unfold boost_tree_models. rewrite filter_app.
    rewrite (filter_none (λ m, m ∉ tree_models)), (filter_all (λ m, m ∉ tree_models)).
    + done.
    + apply Forall_filter_self.
    + apply Forall_forall. intros m [_ Hm]%list_elem_of_filter Hn. done.
  - rewrite Hre. unfold boost_tree_models. rewrite filter_app.
    rewrite (filter_all (λ m, m ∈ tree_models)), (filter_none (λ m, m ∈ tree_models)).
    + by rewrite app_nil_r.
    + apply Forall_forall. intros m [Hm _]%list_elem_of_filter. done.
    + apply Forall_forall. intros m [_ Hm]%list_elem_of_filter. done.
  - intros Hn available_algorithms top_k include_neural.
    unfold select_algorithms. fold reordered.
    apply select_output_trees_first.
    + rewrite Hre. apply boost_tree_models_trees_first.
    + intros m Hm. rewrite Hre. apply elem_of_boost_tree_models.
      by apply tree_models_in_static.
Qed.

Lemma high_dimensional_reorder_witness :
  is_high_dimensional (hd_150_1000 CLASSIFICATION (Some 2)) = true ∧
  trees_first (select_algorithms (hd_150_1000 CLASSIFICATION (Some 2))
                 ["logistic_regression"; "knn"; "xgboost"; "extra_trees"] 3 false).
Proof.
  split; [reflexivity|].
  apply (high_dimensional_reorder (hd_150_1000 CLASSIFICATION (Some 2)));
    [reflexivity | simpl; lia].
Defined.

(** C5, as the specification words it, fails on its own example: with 150
    features and 1000 samples (classification) the static list has xgboost,
    gradient_boosting, lightgbm, extra_trees in that order, and the
    re-ordered list has extra_trees before them: the relative order inside
    the tree-ensemble subset is not preserved. *)
Lemma high_dimensional_reorder_changes_tree_order :
  is_high_dimensional (hd_150_1000 CLASSIFICATION None) = true ∧
  filter (λ m, m ∈ tree_models) (static_priority_list (hd_150_1000 CLASSIFICATION None))
    = ["random_forest"; "xgboost"; "gradient_boosting"; "lightgbm"; "extra_trees"] ∧
  filter (λ m, m ∈ tree_models) (effective_priority_list (hd_150_1000 CLASSIFICATION None))
    = ["random_forest"; "extra_trees"; "xgboost"; "lightgbm"; "gradient_boosting"] ∧
  filter (λ m, m ∈ tree_models) (effective_priority_list (hd_150_1000 CLASSIFICATION None))
    ≠ filter (λ m, m ∈ tree_models) (static_priority_list (hd_150_1000 CLASSIFICATION None)).
Proof. repeat split; by vm_compute. Qed.

Lemma select_algorithms_length_witness :
  1 ≤ 3 ∧
  length (select_algorithms (hd_150_1000 CLASSIFICATION (Some 2))
            ["logistic_regression"; "knn"; "neural_network"] 3 false)
  = Nat.min (Z.to_nat 3)
      (size (available_set ["logistic_regression"; "knn"; "neural_network"] false)).
Proof.
  assert (Hk : 1 ≤ 3) by lia.
  split; [exact Hk|].
  exact (proj1 (select_algorithms_length (hd_150_1000 CLASSIFICATION (Some 2))
                  ["logistic_regression"; "knn"; "neural_network"] 3 false Hk)).
Defined.

(** ** Ranking of the model results *)

Lemma insert_desc_Permutation r l : insert_desc r l ≡ₚ r :: l.
Proof.
  induction l as [|y l IH]; simpl; [done|].
  destruct (Qltb (test_score r) (test_score y)); [|done].
  rewrite IH. apply Permutation_swap.
Qed.

Lemma insert_desc_sorted r l :
  StronglySorted desc l → StronglySorted desc (insert_desc r l).
Proof.
  induction 1 as [|y l Hl IH Hy]; simpl.
  - repeat constructor.
  - destruct (Qltb_spec (test_score r) (test_score y)) as [Hlt|Hge].
    + constructor; [done|].
      rewrite insert_desc_Permutation. constructor; [|done].
      unfold desc. by apply Qlt_le_weak.
    + apply Qnot_lt_le in Hge.
      constructor; [by constructor|]. constructor; [done|].
      eapply Forall_impl; [exact Hy|]. unfold desc. simpl. intros z Hz.
      by eapply Qle_trans.
Qed.

Lemma insert_desc_with_score s r l :
  with_score s (insert_desc r l) = with_score s (r :: l).
Proof.
  unfold with_score.
  induction l as [|y l IH]; simpl; [done|].
  destruct (Qltb_spec (test_score r) (test_score y)) as [Hlt|Hge]; [|done].
  rewrite (filter_cons _ y), IH, !(filter_cons _ r), (filter_cons _ y).
  destruct (decide (test_score y == s)%Q) as [Hy|Hy];
    destruct (decide (test_score r == s)%Q) as [Hr|Hr]; try done.
  exfalso. rewrite Hy, Hr in Hlt. by apply Qlt_irrefl in Hlt.
Qed.

Lemma sort_by_test_score_desc_Permutation l : sort_by_test_score_desc l ≡ₚ l.
Proof.
  induction l as [|r l IH]; simpl; [done|].
  by rewrite insert_desc_Permutation, IH.
Qed.

Lemma sort_by_test_score_desc_sorted l : StronglySorted desc (sort_by_test_score_desc l).
Proof.
  induction l as [|r l IH]; simpl; [constructor|]. by apply insert_desc_sorted.
Qed.

Lemma sort_by_test_score_desc_stable s l :
  with_score s (sort_by_test_score_desc l) = with_score s l.
Proof.
  induction l as [|r l IH]; simpl; [done|].
  rewrite insert_desc_with_score. unfold with_score in *.
  by rewrite !(filter_cons _ r), IH.
Qed.

(** ** Running the monad *)

Lemma bind_run {A B} (m : M A) (f : A → M B) (w : world) :
  (m ≫= f) w = match m w with
               | (Ok a, w') => f a w'
               | (Raise e, w') => (Raise e, w')
               end.
Proof. reflexivity. Qed.

Lemma try_except_run {A} (body : M A) (handler : exn → M A) (w : world) :
  try_except body handler w = match body w with
                              | (Ok a, w') => (Ok a, w')
                              | (Raise e, w') => handler e w'
                              end.
Proof. reflexivity. Qed.

(** Case analysis on the innermost scrutinee of the goal. *)
Ltac case_scrutinee :=
  match goal with
  | |- context [match ?x with _ => _ end] =>
      lazymatch x with
      | context [match _ with _ => _ end] => fail
      | _ => destruct x eqn:?
      end
  end.

Lemma silent_ret {A} (a : A) : silent (mret a).
Proof. by intros w. Qed.

Lemma silent_raise {A} (e : exn) : silent (raise (A:=A) e).
Proof. by intros w. Qed.

Lemma silent_lift {A} (r : result A) : silent (lift r).
Proof. by intros w. Qed.

Lemma silent_bind {A B} (m : M A) (f : A → M B) :
  silent m → (∀ a, silent (f a)) → silent (m ≫= f).
Proof.
  intros Hm Hf w. rewrite bind_run. specialize (Hm w).
  destruct (m w) as [[a|e] w1]; simpl in *; [|done].
  by rewrite Hf.
Qed.

Lemma silent_try_except {A} (body : M A) (handler : exn → M A) :
  silent body → (∀ e, silent (handler e)) → silent (try_except body handler).
Proof.
  intros Hm Hf w. rewrite try_except_run. specialize (Hm w).
  destruct (body w) as [[a|e] w1]; simpl in *; [done|].
  by rewrite Hf.
Qed.

Lemma silent_is_cancelled reporter : silent (is_cancelled reporter).
Proof. intros w. by destruct reporter as [cb [check|]|]. Qed.

Lemma is_cancelled_Ok reporter w :
  ∃ c w1, is_cancelled reporter w = (Ok c, w1) ∧ captured w1 = captured w.
Proof. destruct reporter as [cb [check|]|]; by eexists _, _. Qed.

Lemma is_cancelled_without_check cb w :
  is_cancelled (CallbackProgressReporter cb None) w = (Ok false, w).
Proof. reflexivity. Qed.

Lemma report_Ok reporter update w :
  ∃ w1, report reporter update w = (Ok (), w1) ∧ polls w1 = polls w.
Proof. destruct reporter as [[] ?|]; by eexists. Qed.

Lemma shown_app reporter us1 us2 :
  shown reporter (us1 ++ us2) = shown reporter us1 ++ shown reporter us2.
Proof. by destruct reporter as [[] ?|]. Qed.

Lemma report_shown reporter update w :
  report reporter update w
  = (Ok (), {| captured := captured w ++ shown reporter [update]; polls := polls w |}).
Proof. destruct reporter as [[] ?|], w; simpl; by rewrite ?app_nil_r. Qed.

Section EngineFacts.
Context (E : externals).

Lemma silent_objective algorithm config reporter trial :
  silent (objective E algorithm config reporter trial).
Proof.
  unfold objective. apply silent_bind; [apply silent_is_cancelled|].
  intros [|]; [apply silent_raise|].
  apply silent_bind; [apply silent_lift|]. intros model. apply silent_lift.
Qed.

Lemma silent_Study_optimize func params_of catch n_trials number study :
  (∀ k, silent (func k)) →
  silent (Study_optimize func params_of catch n_trials number study).
Proof.
  intros Hfunc. revert number study.
  induction n_trials as [|n IH]; intros number study; simpl; [apply silent_ret|].
  apply silent_bind; [|intros v; apply IH].
  apply silent_try_except.
  - apply silent_bind; [apply Hfunc|]. intros v. apply silent_ret.
  - intros e. destruct (catch e); [apply silent_ret | apply silent_raise].
Qed.

Lemma silent_optimize_hyperparameters algorithm config reporter :
  silent (optimize_hyperparameters E algorithm config reporter).
Proof.
  unfold optimize_hyperparameters.
  apply silent_bind.
  { apply silent_try_except; [|intros e; apply silent_raise].
    apply silent_Study_optimize. intros k. apply silent_objective. }
  intros study. apply silent_bind; [apply silent_lift|].
  intros bp. apply silent_bind; [apply silent_lift|].
  intros model. apply silent_ret.
Qed.

Lemma silent_train_single_model algorithm config progress_reporter :
  silent (train_single_model E algorithm config progress_reporter).
Proof.
  unfold train_single_model. apply silent_try_except; [|intros e; apply silent_ret].
  apply silent_bind; [|intros r; apply silent_ret].
  unfold train_single_model_body. apply silent_bind.
  { destruct (optimize_hyperparams config).
    - apply silent_optimize_hyperparameters.
    - apply silent_bind; [apply silent_lift|]. intros m. apply silent_ret. }
  intros [model bp].
  repeat (apply silent_bind; [apply silent_lift|]; intros ?).
  apply silent_ret.
Qed.

(** [train_single_model] swallows every exception of its body, a
    [CancelledError] included: it always returns. *)
Lemma train_single_model_returns algorithm config progress_reporter w :
  ∃ r w1, train_single_model E algorithm config progress_reporter w = (Ok r, w1)
          ∧ captured w1 = captured w.
Proof.
  pose proof (silent_train_single_model algorithm config progress_reporter w) as Hs.
  unfold train_single_model in *. rewrite try_except_run in *.
  match goal with |- context [match ?b with _ => _ end] => destruct b as [[r|e] w1] end;
    simpl in *; by eexists _, _.
Qed.

End EngineFacts.

(** ** The training loop *)

Section Trainer.
Context (E : externals).

Lemma train_loop_cons config reporter n i algorithm rest acc w :
  ∃ c w1, is_cancelled reporter w = (Ok c, w1) ∧ captured w1 = captured w ∧
    if (c : bool)
    then train_loop E config reporter n i (algorithm :: rest) acc w
         = (Raise CancelledError, w1)
    else ∃ w2 r w3,
        report reporter (training_update algorithm i n) w1 = (Ok (), w2)
        ∧ train_single_model E algorithm config (Some reporter) w2 = (Ok r, w3)
        ∧ captured w3 = captured w2
        ∧ train_loop E config reporter n i (algorithm :: rest) acc w
          = train_loop E config reporter n (i + 1) rest (record_attempt algorithm r acc) w3.
Proof.
  destruct (is_cancelled_Ok reporter w) as (c & w1 & Hc & Hcap).
  exists c, w1. split; [done|]. split; [done|].
  simpl. rewrite bind_run, Hc. destruct c; [done|].
  destruct (report_Ok reporter (training_update algorithm i n) w1) as (w2 & Hr & _).
  destruct (train_single_model_returns E algorithm config (Some reporter) w2)
    as (r & w3 & Ht & Hcap3).
  exists w2, r, w3. repeat split; try done.
  rewrite bind_run, Hr, bind_run, try_except_run, bind_run, Ht.
  by destruct r as [[model model_result]|].
Qed.

Lemma lift_bind_run {A B} (r : result A) (f : A → M B) (w : world) :
  (lift r ≫= f) w = match r with Ok a => f a w | Raise e => (Raise e, w) end.
Proof. rewrite bind_run. unfold lift. by destruct r. Qed.

Lemma train_single_model_body_name algorithm config reporter w model model_result w1 :
  train_single_model_body E algorithm config reporter w = (Ok (model, model_result), w1) →
  name model_result = algorithm.
Proof.
  unfold train_single_model_body. rewrite bind_run.
  match goal with |- context [match ?b with _ => _ end] =>
    destruct b as [[[m0 bp]|e] w0] end; [|discriminate].
  rewrite lift_bind_run. destruct (fit E m0) as [m1|e]; [|discriminate].
  rewrite lift_bind_run. destruct (_score_model E m1 TrainSplit _) as [s1|e]; [|discriminate].
  rewrite lift_bind_run. destruct (_score_model E m1 TestSplit _) as [s2|e]; [|discriminate].
  rewrite lift_bind_run. destruct (_cross_validate E m1 config) as [s3|e]; [|discriminate].
  by intros [= <- <- <-].
Qed.

Lemma train_single_model_name algorithm config progress_reporter w model model_result w1 :
  train_single_model E algorithm config progress_reporter w
    = (Ok (Some (model, model_result)), w1) →
  name model_result = algorithm.
Proof.
  unfold train_single_model. rewrite try_except_run, bind_run.
  match goal with |- context [match ?b with _ => _ end] =>
    destruct b as [[[m0 mr]|e] w0] eqn:Hbody end; [|discriminate].
  intros [= <- <- <-]. by eapply train_single_model_body_name.
Qed.

(** The loop only appends to the results, in the order of the list, and
    every result has a model stored under its name. *)
Lemma train_loop_Ok config reporter n i algorithms acc w acc' w' :
  train_loop E config reporter n i algorithms acc w = (Ok acc', w') →
  ∃ new, acc_results acc' = acc_results acc ++ new
         ∧ name <$> new `sublist_of` algorithms
         ∧ ((∀ r, r ∈ acc_results acc → is_Some (acc_models acc !! name r)) →
            ∀ r, r ∈ acc_results acc' → is_Some (acc_models acc' !! name r)).
Proof.
  revert i acc w. induction algorithms as [|algorithm rest IH]; intros i acc w.
  - simpl. intros [= <- <-]. exists []. by rewrite app_nil_r.
  - destruct (train_loop_cons config reporter n i algorithm rest acc w)
      as (c & w1 & _ & _ & Hstep).
    destruct c; [by rewrite Hstep|].
    destruct Hstep as (w2 & r & w3 & _ & Hr & _ & ->).
    intros (new & Hres & Hsub & Hmod)%IH.
    destruct r as [[model model_result]|]; simpl in *.
    + exists (model_result :: new). split; [by rewrite Hres, <- app_assoc|]. split.
      * simpl. rewrite (train_single_model_name _ _ _ _ _ _ _ Hr). by apply sublist_skip.
      * intros Hacc. apply Hmod. intros r [Hin|Hin]%elem_of_app.
        -- destruct (decide (algorithm = name r)) as [->|Hne].
           ++ rewrite lookup_insert_eq. by eexists.
           ++ rewrite lookup_insert_ne by done. by apply Hacc.
        -- apply list_elem_of_singleton in Hin as ->.
           rewrite (train_single_model_name _ _ _ _ _ _ _ Hr), lookup_insert_eq.
           by eexists.
    + exists new. split; [done|]. split; [by apply sublist_cons|]. done.
Qed.




Lemma sort_by_test_score_desc_cons r l :
  ∃ first rest, sort_by_test_score_desc (r :: l) = first :: rest.
Proof.
  destruct (sort_by_test_score_desc (r :: l)) as [|first rest] eqn:Hs; [|by eexists _, _].
  pose proof (sort_by_test_score_desc_Permutation (r :: l)) as Hp.
  rewrite Hs in Hp. by apply Permutation_nil_cons in Hp.
Qed.

(** [train_models] in terms of its loop. *)
Lemma train_models_run algorithms config progress_reporter w :
  let reporter := default NullProgressReporter progress_reporter in
  let n := Z.of_nat (length algorithms) in
  match train_loop E config reporter n 0 algorithms empty_acc w with
  | (Raise e, w') =>
      train_models E algorithms config progress_reporter w = (Raise e, w')
  | (Ok acc, w') =>
      match acc_results acc with
      | [] => train_models E algorithms config progress_reporter w
              = (Raise (TrainingFailedError (acc_failures acc)), w')
      | _ :: _ =>
          ∃ first rest best_model,
            sort_by_test_score_desc (acc_results acc) = first :: rest
            ∧ acc_models acc !! name first = Some best_model
            ∧ train_models E algorithms config progress_reporter w
              = (Ok (best_model, first :: rest), w')
      end
  end.
Proof.
  intros reporter n. unfold train_models. fold reporter n. rewrite bind_run.
  destruct (train_loop E config reporter n 0 algorithms empty_acc w)
    as [[acc|e] w'] eqn:Hloop; [|done].
  destruct (acc_results acc) as [|r l] eqn:Hres; [done|].
  destruct (sort_by_test_score_desc_cons r l) as (first & rest & Hs).
  destruct (train_loop_Ok _ _ _ _ _ _ _ _ _ Hloop) as (_ & _ & _ & Hmod).
  destruct (Hmod (λ r Hr, False_ind _ (not_elem_of_nil _ Hr)) first) as [best_model Hb].
  { rewrite Hres, <- (sort_by_test_score_desc_Permutation (r :: l)), Hs. by left. }
  exists first, rest, best_model. split; [done|]. split; [done|].
  by rewrite Hs, Hb.
Qed.

End Trainer.


Section PipelineFacts.
Context (E : externals).

Lemma train_loop_captured config reporter n i algorithms acc w acc' w' :
  train_loop E config reporter n i algorithms acc w = (Ok acc', w') →
  captured w' = captured w ++ shown reporter (training_updates n i algorithms).
Proof.
  revert i acc w. induction algorithms as [|algorithm rest IH]; intros i acc w.
  - simpl. intros [= <- <-]. destruct reporter as [[] ?|]; by rewrite app_nil_r.
  - destruct (train_loop_cons E config reporter n i algorithm rest acc w)
      as (c & w1 & _ & Hcap1 & Hstep).
    destruct c; [by rewrite Hstep|].
    destruct Hstep as (w2 & r & w3 & Hrep & _ & Hcap3 & ->).
    intros Hloop%IH. rewrite report_shown in Hrep. injection Hrep as <-.
    rewrite Hloop, Hcap3. simpl captured. rewrite Hcap1, <- app_assoc.
    by rewrite <- shown_app.
Qed.

Lemma train_models_captured algorithms config reporter w best_model results w' :
  train_models E algorithms config (Some reporter) w = (Ok (best_model, results), w') →
  algorithms ≠ [] ∧
  captured w' = captured w
    ++ shown reporter (training_updates (Z.of_nat (length algorithms)) 0 algorithms).
Proof.
  intros Hok.
  pose proof (train_models_run E algorithms config (Some reporter) w) as Hrun.
  simpl in Hrun.
  destruct (train_loop _ _ _ _ _ _ _ _) as [[acc|e] w1] eqn:Hloop;
    [|by rewrite Hrun in Hok].
  destruct (acc_results acc) as [|r l] eqn:Hres; [by rewrite Hrun in Hok|].
  destruct Hrun as (? & ? & ? & _ & _ & Hrun). rewrite Hrun in Hok.
  injection Hok as _ _ <-. split.
  - intros ->. simpl in Hloop. injection Hloop as <- _. done.
  - by eapply train_loop_captured.
Qed.

Lemma ValidationStage_reports :
  stage_reports ValidationStage
    (λ _ us, us = [stage_update PREPROCESSING (5 # 100) "Validating data..."]).
Proof.
  unfold stage_reports, ValidationStage.
  intros context w context' w'.
  rewrite bind_run, report_shown.
  destruct (ctx_data context) as [data|]; [|discriminate].
  rewrite bind_run.
  match goal with |- context [match ?x with _ => _ end] =>
    destruct x as [[target|e] w1] eqn:Htarget end; [|discriminate].
  assert (w1 = {| captured := captured w ++ shown (ctx_reporter context)
                    [stage_update PREPROCESSING (5 # 100) "Validating data..."];
                  polls := polls w |}) as ->.
  { destruct (target_column (ctx_config context)); [by injection Htarget as _ <-|].
    destruct (last (columns data)); [by injection Htarget as _ <-|discriminate]. }
  repeat (case_scrutinee; try discriminate).
  intros [= <- <-]. simpl. repeat split. by eexists.
Qed.

Lemma PreprocessingStage_reports :
  stage_reports (PreprocessingStage E)
    (λ _ us, us = [stage_update PREPROCESSING (8 # 100) "Preprocessing data..."]).
Proof.
  unfold stage_reports, PreprocessingStage.
  intros context w context' w'.
  rewrite bind_run, report_shown.
  destruct (ctx_X context) as [X|]; [|discriminate].
  destruct (ctx_y context) as [y|]; [|discriminate].
  rewrite lift_bind_run.
  destruct (fit_transform E _ X y) as [[[prep Xt] yt]|e]; [|discriminate].
  intros [= <- <-]. simpl. repeat split. by eexists.
Qed.

Lemma SplitStage_reports :
  stage_reports (SplitStage E)
    (λ _ us, us = [stage_update PREPROCESSING (10 # 100) "Splitting data..."]).
Proof.
  unfold stage_reports, SplitStage.
  intros context w context' w'.
  rewrite bind_run, report_shown.
  destruct (ctx__X_transformed context) as [X|]; [|discriminate].
  destruct (ctx__y_transformed context) as [y|]; [|discriminate].
  rewrite lift_bind_run.
  destruct (train_test_split E X y _ _ _) as [[[[? ?] ?] ?]|e]; [|discriminate].
  intros [= <- <-]. simpl. repeat split. by eexists.
Qed.

Lemma AlgorithmSelectionStage_reports :
  stage_reports (AlgorithmSelectionStage E)
    (λ _ us, us = [stage_update ALGORITHM_SELECTION (15 # 100) "Selecting algorithms..."]).
Proof.
  unfold stage_reports, AlgorithmSelectionStage.
  intros context w context' w'.
  rewrite bind_run, report_shown.
  destruct (ctx_X_train context) as [X|]; [|discriminate].
  destruct (ctx_y_train context) as [y|]; [|discriminate].
  destruct (forced_algorithm (ctx_config context)) as [a|];
    intros [= <- <-]; simpl; repeat split; by eexists.
Qed.

Lemma ModelTrainingStage_reports :
  stage_reports (ModelTrainingStage E)
    (λ context' us, ∃ algorithms best_model results w1 w2,
       algorithms ≠ []
       ∧ train_models E algorithms (ctx_config context')
           (Some (ctx_reporter context')) w1 = (Ok (best_model, results), w2)
       ∧ ctx_model context' = Some best_model
       ∧ ctx_model_results context' = Some results
       ∧ us = stage_update TRAINING (20 # 100)
                ("Training " +:+ pretty (Z.of_nat (length algorithms)) +:+ " models...")
              :: training_updates (Z.of_nat (length algorithms)) 0 algorithms).
Proof.
  unfold stage_reports, ModelTrainingStage.
  intros context w context' w'.
  destruct (ctx_algorithms context) as [algorithms|]; [|discriminate].
  destruct (ctx_X_train context); [|discriminate].
  destruct (ctx_y_train context); [|discriminate].
  destruct (ctx_X_test context); [|discriminate].
  destruct (ctx_y_test context); [|discriminate].
  rewrite bind_run, report_shown, bind_run.
  match goal with |- context [train_models E algorithms ?c ?r ?w0] =>
    destruct (train_models E algorithms c r w0) as [[[best_model results]|e] w2] eqn:Htrain
  end; [|discriminate].
  intros [= <- <-]. simpl. repeat split.
  destruct (train_models_captured _ _ _ _ _ _ _ Htrain) as [Hne Hcap].
  eexists. split.
  - rewrite Hcap. simpl captured. rewrite <- app_assoc, <- shown_app. reflexivity.
  - eexists algorithms, best_model, results, _, _. repeat split; done.
Qed.

Lemma EvaluationStage_reports :
  stage_reports (EvaluationStage E)
    (λ _ us, us = [stage_update EVALUATION (90 # 100) "Calculating metrics..."]).
Proof.
  unfold stage_reports, EvaluationStage.
  intros context w context' w'.
  rewrite bind_run, report_shown.
  destruct (ctx_model context) as [model|]; [|discriminate].
  destruct (ctx_X_test context); [|discriminate].
  destruct (ctx_y_test context); [|discriminate].
  rewrite lift_bind_run.
  destruct (calculate_metrics E model _) as [m|e]; [|discriminate].
  intros [= <- <-]. simpl. repeat split. by eexists.
Qed.

Lemma ExplainabilityStage_reports :
  stage_reports (ExplainabilityStage E)
    (λ context' us,
       us = if enable_explainability (ctx_config context')
            then [stage_update EXPLAINABILITY (95 # 100) "Generating explanations..."]
            else []).
Proof.
  unfold stage_reports, ExplainabilityStage.
  intros context w context' w'.
  destruct (enable_explainability (ctx_config context)) eqn:Hen; simpl.
  - rewrite bind_run, report_shown.
    destruct (ctx_model context) as [model|]; [|discriminate].
    destruct (ctx_X_test context); [|discriminate].
    destruct (ctx_preprocessor context); [|discriminate].
    intros [= <- <-]. simpl. rewrite ?Hen. repeat split. by eexists.
  - intros [= <- <-]. simpl. rewrite Hen. repeat split.
    exists []. destruct (ctx_reporter context) as [[] ?|]; by rewrite app_nil_r.
Qed.

Lemma EvaluationStage_keeps context w context' w' :
  EvaluationStage E context w = (Ok context', w') →
  ctx_model context' = ctx_model context
  ∧ ctx_model_results context' = ctx_model_results context.
Proof.
  unfold EvaluationStage. rewrite bind_run, report_shown.
  repeat (case_scrutinee; try discriminate). rewrite lift_bind_run.
  case_scrutinee; [|discriminate]. by intros [= <- <-].
Qed.

Lemma ExplainabilityStage_keeps context w context' w' :
  ExplainabilityStage E context w = (Ok context', w') →
  ctx_model context' = ctx_model context
  ∧ ctx_model_results context' = ctx_model_results context
  ∧ is_Some (ctx_explainability context').
Proof.
  unfold ExplainabilityStage.
  destruct (enable_explainability (ctx_config context)); simpl.
  - rewrite bind_run, report_shown.
    repeat (case_scrutinee; try discriminate). intros [= <- <-]. simpl. eauto.
  - intros [= <- <-]. simpl. eauto.
Qed.

(** A run that returns has gone through the seven stages and the final
    report. *)
Lemma train_Ok self data w r w' :
  train E self data w = (Ok r, w') →
  ∃ algorithms best_model results w1 w2 context,
    algorithms ≠ []
    ∧ train_models E algorithms (_config self) (Some (_reporter self)) w1
      = (Ok (best_model, results), w2)
    ∧ ctx_model context = Some best_model
    ∧ ctx_model_results context = Some results
    ∧ is_Some (ctx_explainability context)
    ∧ _build_result self context (total_elapsed E) = Ok r
    ∧ captured w' = captured w
        ++ shown (_reporter self) (successful_run_updates (_config self) algorithms).
Proof.
  unfold train. rewrite try_except_run.
  match goal with |- context [match ?b with _ => _ end] =>
    destruct b as [[r0|e] w0] eqn:Hbody end.
  2: { destruct (is_CancelledError e); rewrite bind_run; unfold _report;
       rewrite report_shown; discriminate. }
  intros [= -> ->]. revert Hbody.
  unfold _report. rewrite bind_run, report_shown, bind_run.
  unfold _stages, run_stages.
  set (c0 := initial_context self data).
  assert (Hc0 : ctx_config c0 = _config self ∧ ctx_reporter c0 = _reporter self) by done.
  destruct Hc0 as [Hcfg0 Hrep0]. clearbody c0.
  rewrite bind_run.
  destruct (ValidationStage c0 _) as [[c1|e] w1] eqn:H1; [|discriminate].
  apply ValidationStage_reports in H1 as (Hcfg1 & Hrep1 & us1 & Hcap1 & ->).
  rewrite bind_run.
  destruct (PreprocessingStage E c1 _) as [[c2|e] w2] eqn:H2; [|discriminate].
  apply PreprocessingStage_reports in H2 as (Hcfg2 & Hrep2 & us2 & Hcap2 & ->).
  rewrite bind_run.
  destruct (SplitStage E c2 _) as [[c3|e] w3] eqn:H3; [|discriminate].
  apply SplitStage_reports in H3 as (Hcfg3 & Hrep3 & us3 & Hcap3 & ->).
  rewrite bind_run.
  destruct (AlgorithmSelectionStage E c3 _) as [[c4|e] w4] eqn:H4; [|discriminate].
  apply AlgorithmSelectionStage_reports in H4 as (Hcfg4 & Hrep4 & us4 & Hcap4 & ->).
  rewrite bind_run.
  destruct (ModelTrainingStage E c4 _) as [[c5|e] w5] eqn:H5; [|discriminate].
  apply ModelTrainingStage_reports in H5
    as (Hcfg5 & Hrep5 & us5 & Hcap5 & algorithms & best_model & results & wa & wb
        & Hne & Htrain & Hmodel & Hresults & ->).
  rewrite bind_run.
  destruct (EvaluationStage E c5 _) as [[c6|e] w6] eqn:H6; [|discriminate].
  pose proof (EvaluationStage_keeps _ _ _ _ H6) as [Hm6 Hr6].
  apply EvaluationStage_reports in H6 as (Hcfg6 & Hrep6 & us6 & Hcap6 & ->).
  rewrite bind_run.
  destruct (ExplainabilityStage E c6 _) as [[c7|e] w7] eqn:H7; [|discriminate].
  pose proof (ExplainabilityStage_keeps _ _ _ _ H7) as (Hm7 & Hr7 & Hx7).
  apply ExplainabilityStage_reports in H7 as (Hcfg7 & Hrep7 & us7 & Hcap7 & ->).
  simpl. rewrite bind_run, report_shown. unfold lift.
  intros [= Hbuild <-].
  exists algorithms, best_model, results, wa, wb, c7.
  assert (Hcfg : ctx_config c5 = _config self) by congruence.
  assert (Hrep : ctx_reporter c5 = _reporter self) by congruence.
  rewrite Hcfg, Hrep in Htrain.
  repeat split; try congruence.
  simpl captured. rewrite Hcap7, Hcap6, Hcap5, Hcap4, Hcap3, Hcap2, Hcap1. simpl captured.
  assert (Hcfg' : ctx_config c7 = _config self) by congruence.
  rewrite Hcfg'.
  replace (ctx_reporter c6) with (_reporter self) by congruence.
  replace (ctx_reporter c5) with (_reporter self) by congruence.
  replace (ctx_reporter c4) with (_reporter self) by congruence.
  replace (ctx_reporter c3) with (_reporter self) by congruence.
  replace (ctx_reporter c2) with (_reporter self) by congruence.
  replace (ctx_reporter c1) with (_reporter self) by congruence.
  replace (ctx_reporter c0) with (_reporter self) by congruence.
  unfold successful_run_updates.
  rewrite <- !app_assoc, <- !shown_app. simpl. reflexivity.
Qed.

End PipelineFacts.

(** ** Progress fractions *)

Lemma training_progress_mono i j n :
  0 < n → i ≤ j → (training_progress i n <= training_progress j n)%Q.
Proof.
  intros Hn Hij. unfold training_progress, Qdiv.
  apply Qplus_le_r. apply Qmult_le_compat_r.
  - apply Qmult_le_l; [reflexivity|]. by rewrite <- Zle_Qle.
  - apply Qinv_le_0_compat. replace 0%Q with (inject_Z 0) by done.
    rewrite <- Zle_Qle. lia.
Qed.

Lemma training_progress_lower i n :
  0 < n → 0 ≤ i → (20 # 100 <= training_progress i n)%Q.
Proof.
  intros Hn Hi. apply Qle_trans with (training_progress 0 n).
  - unfold training_progress, Qdiv. rewrite Qmult_0_r, Qmult_0_l. done.
  - by apply training_progress_mono.
Qed.

Lemma training_progress_upper i n :
  0 < n → i ≤ n → (training_progress i n <= 85 # 100)%Q.
Proof.
  intros Hn Hi. apply Qle_trans with (training_progress n n).
  - by apply training_progress_mono.
  - unfold training_progress. rewrite Qdiv_mult_l; [done|].
    replace 0%Q with (inject_Z 0) by done. rewrite inject_Z_injective. lia.
Qed.

Lemma training_updates_progress n i algorithms :
  progress <$> training_updates n i algorithms
  = (λ k, training_progress k n) <$> seqZ i (Z.of_nat (length algorithms)).
Proof.
  revert i. induction algorithms as [|a rest IH]; intros i; [done|].
  simpl length. rewrite seqZ_cons by lia. simpl. rewrite IH.
  do 3 f_equal; lia.
Qed.

Lemma training_progress_sorted n i len :
  0 < n → StronglySorted Qle ((λ k, training_progress k n) <$> seqZ i len).
Proof.
  intros Hn. destruct (decide (0 ≤ len)) as [Hlen|Hlen].
  2: { unfold seqZ. rewrite Z2Nat.nonpos by lia. constructor. }
  rewrite <- (Z2Nat.id len) by lia. clear Hlen.
  revert i. induction (Z.to_nat len) as [|m IH]; intros i; [constructor|].
  rewrite seqZ_cons by lia. simpl. constructor.
  - replace (Z.pred (Z.of_nat (S m))) with (Z.of_nat m) by lia. apply IH.
  - apply Forall_fmap, Forall_forall. intros k Hk. simpl.
    apply elem_of_seqZ in Hk. apply training_progress_mono; lia.
Qed.

Lemma successful_run_fractions_sorted explain n :
  0 < n → StronglySorted Qle (successful_run_fractions explain n).
Proof.
  intros Hn. unfold successful_run_fractions.
  apply StronglySorted_app_2.
  - intros x1 x2 Hx1 Hx2. apply Qle_trans with (20 # 100)%Q.
    + repeat (apply elem_of_cons in Hx1 as [->|Hx1]; [done|]).
      by apply elem_of_nil in Hx1.
    + apply elem_of_app in Hx2 as [Hx2|Hx2].
      * apply list_elem_of_fmap in Hx2 as (k & -> & Hk%elem_of_seqZ).
        apply training_progress_lower; lia.
      * destruct explain;
          repeat (apply elem_of_cons in Hx2 as [->|Hx2]; [done|]);
          by apply elem_of_nil in Hx2.
  - repeat constructor; done.
  - apply StronglySorted_app_2.
    + intros x1 x2 (k & -> & Hk%elem_of_seqZ)%list_elem_of_fmap Hx2.
      apply Qle_trans with (85 # 100)%Q; [apply training_progress_upper; lia|].
      destruct explain;
        repeat (apply elem_of_cons in Hx2 as [->|Hx2]; [done|]);
        by apply elem_of_nil in Hx2.
    + by apply training_progress_sorted.
    + destruct explain; repeat constructor; done.
Qed.

(** C8, as the code has it: the sequence a callback captures over a run
    that returns starts with (Initializing, 0.0), ends with (Complete,
    1.0), its fractions never decrease, and they are the fixed checkpoints
    of the stages: 0.00, 0.05, 0.08, 0.10, 0.15, 0.20, then 0.2 + 0.65 * i
    / n for the i-th of the n algorithms trained, then 0.90, then 0.95 only
    when explainability is enabled (the stage reports nothing when it is
    disabled), then 1.00. *)
Theorem progress_sequence_of_successful_run (E : externals) (self : Pipeline)
    (data : DataFrame) (w : world) (r : TrainingResult) (w' : world) :
  _progress_callback self = true →
  train E self data w = (Ok r, w') →
  ∃ algorithms events,
    algorithms ≠ []
    ∧ captured w' = captured w ++ events
    ∧ events = successful_run_updates (_config self) algorithms
    ∧ head events = Some (stage_update INITIALIZING 0 "Initializing pipeline...")
    ∧ last events = Some (stage_update COMPLETE 1 "Training complete!")
    ∧ StronglySorted Qle (progress <$> events)
    ∧ progress <$> events
      = successful_run_fractions (enable_explainability (_config self))
          (Z.of_nat (length algorithms)).
Proof.
  intros Hcb (algorithms & _ & _ & _ & _ & _ & Hne & _ & _ & _ & _ & _ & Hcap)%train_Ok.
  unfold _reporter in Hcap. rewrite Hcb in Hcap. simpl in Hcap.
  exists algorithms, (successful_run_updates (_config self) algorithms).
  assert (Hfr : progress <$> successful_run_updates (_config self) algorithms
                = successful_run_fractions (enable_explainability (_config self))
                    (Z.of_nat (length algorithms))).
  { unfold successful_run_updates, successful_run_fractions.
    rewrite !fmap_app, training_updates_progress.
    by destruct (enable_explainability (_config self)). }
  repeat split; try done.
  - unfold successful_run_updates. rewrite !app_assoc. apply last_snoc.
  - rewrite Hfr. apply successful_run_fractions_sorted.
    destruct algorithms; [done | simpl; lia].
Qed.

Lemma progress_sequence_of_successful_run_witness :
  ∃ r w',
    _progress_callback (demo_pipeline false true) = true
    ∧ train (demo_externals cv_ok fit_ok) (demo_pipeline false true) demo_data world0
      = (Ok r, w')
    ∧ ∃ algorithms events,
        algorithms ≠ []
        ∧ captured w' = captured world0 ++ events
        ∧ events = successful_run_updates (_config (demo_pipeline false true)) algorithms
        ∧ head events = Some (stage_update INITIALIZING 0 "Initializing pipeline...")
        ∧ last events = Some (stage_update COMPLETE 1 "Training complete!")
        ∧ StronglySorted Qle (progress <$> events)
        ∧ progress <$> events
          = successful_run_fractions
              (enable_explainability (_config (demo_pipeline false true)))
              (Z.of_nat (length algorithms)).
Proof.
  assert (Hrun : ∃ r w', train (demo_externals cv_ok fit_ok) (demo_pipeline false true)
                          demo_data world0 = (Ok r, w')).
  { eexists _, _. vm_compute. reflexivity. }
  destruct Hrun as (r & w' & Hrun). exists r, w'.
  split; [reflexivity|]. split; [exact Hrun|].
  apply (progress_sequence_of_successful_run (demo_externals cv_ok fit_ok)
           (demo_pipeline false true) demo_data world0 r w'); [reflexivity | exact Hrun].
Defined.

(** C8, as the specification words it, fails when explainability is
    disabled: the run below returns a result and its callback captures no
    update of the explainability stage and no fraction 0.95; the sequence
    goes from 0.90 straight to 1.00. *)
Lemma progress_sequence_without_explainability :
  let run := train (demo_externals cv_ok fit_ok) (demo_pipeline false false) demo_data
               world0 in
  (∃ r, run.1 = Ok r)
  ∧ Forall (λ u, stage u ≠ EXPLAINABILITY ∧ ¬ (progress u == 95 # 100)%Q) (captured run.2)
  ∧ (λ u, (stage u, progress u)) <$> drop 7 (captured run.2)
    = [(EVALUATION, (90 # 100)%Q); (COMPLETE, 1%Q)].
Proof.
  split; [eexists; vm_compute; reflexivity|]. split.
  - apply (bool_decide_unpack _). vm_compute. reflexivity.
  - vm_compute. reflexivity.
Qed.

(** ** The result of a run *)

(** C10: a run that returns a [TrainingResult] returns one with [success =
    True] and an explainability field that is not [None]; the only place
    that builds a [TrainingResult], [_build_result], always sets [success
    = True] and puts the sentinel of method "none" where the context has no
    attribution.  A run that fails returns no result: it raises. *)
Theorem returned_result_is_successful (E : externals) (self : Pipeline)
    (data : DataFrame) (w : world) (r : TrainingResult) (w' : world) :
  train E self data w = (Ok r, w') →
  success r = true
  ∧ is_Some (explainability r)
  ∧ (∀ context training_time r0,
       _build_result self context training_time = Ok r0 →
       success r0 = true
       ∧ explainability r0
         = Some (default {| feature_importance := []; method := "none" |}
                   (ctx_explainability context))).
Proof.
  assert (Hbuild : ∀ context training_time r0,
             _build_result self context training_time = Ok r0 →
             success r0 = true
             ∧ explainability r0
               = Some (default {| feature_importance := []; method := "none" |}
                         (ctx_explainability context))).
  { intros context training_time r0. unfold _build_result.
    repeat (case_scrutinee; try discriminate). by intros [= <-]. }
  intros (_ & _ & _ & _ & _ & context & _ & _ & _ & _ & _ & Hr & _)%train_Ok.
  destruct (Hbuild _ _ _ Hr) as [Hs Hx]. rewrite Hx. eauto.
Qed.

Lemma returned_result_is_successful_witness :
  ∃ r w',
    train (demo_externals cv_ok fit_ok) (demo_pipeline true false) demo_data world0
      = (Ok r, w')
    ∧ success r = true ∧ is_Some (explainability r).
Proof.
  assert (Hrun : ∃ r w', train (demo_externals cv_ok fit_ok) (demo_pipeline true false)
                          demo_data world0 = (Ok r, w')).
  { eexists _, _. vm_compute. reflexivity. }
  destruct Hrun as (r & w' & Hrun). exists r, w'. split; [exact Hrun|].
  pose proof (returned_result_is_successful _ _ _ _ _ _ Hrun) as (Hs & Hx & _).
  by split.
Defined.

(** ** The ranked list *)

(** What [train_models] returns, in terms of the results in training
    order. *)
Lemma train_models_ranked (E : externals) (algorithms : list string)
    (config : PipelineConfig) (progress_reporter : option ProgressReporter) (w : world)
    (best_model : estimator) (results : list ModelResult) (w' : world) :
  train_models E algorithms config progress_reporter w = (Ok (best_model, results), w') →
  ∃ acc first rest,
    train_loop E config (default NullProgressReporter progress_reporter)
      (Z.of_nat (length algorithms)) 0 algorithms empty_acc w = (Ok acc, w')
    ∧ name <$> acc_results acc `sublist_of` algorithms
    ∧ results ≡ₚ acc_results acc
    ∧ StronglySorted desc results
    ∧ (∀ s, with_score s results = with_score s (acc_results acc))
    ∧ results = first :: rest
    ∧ acc_models acc !! name first = Some best_model.
Proof.
  intros Hok.
  pose proof (train_models_run E algorithms config progress_reporter w) as Hrun.
  simpl in Hrun.
  destruct (train_loop _ _ _ _ _ _ _ _) as [[acc|e] w1] eqn:Hloop;
    [|by rewrite Hrun in Hok].
  destruct (acc_results acc) as [|r0 l] eqn:Hres; [by rewrite Hrun in Hok|].
  destruct Hrun as (first & rest & bm & Hsort & Hbm & Hrun). rewrite Hrun in Hok.
  injection Hok as <- <- <-.
  destruct (train_loop_Ok _ _ _ _ _ _ _ _ _ _ Hloop) as (new & Hnew & Hsub & _).
  simpl in Hnew. rewrite Hres in Hnew. subst new.
  exists acc, first, rest. rewrite Hres, <- Hsort.
  split; [done|]. split; [done|].
  split; [apply sort_by_test_score_desc_Permutation|].
  split; [apply sort_by_test_score_desc_sorted|].
  split; [intros s; apply sort_by_test_score_desc_stable|]. done.
Qed.



(** Two results of equal test score keep their training order, and a
    better one trained later moves to the front. *)
Example sort_by_test_score_desc_example :
  let mk n s := {| name := n; test_score := s; train_score := 1; cv_score := s;
                   training_time_seconds := 1; hyperparameters := ∅;
                   overfitting_risk := "low" |} in
  name <$> sort_by_test_score_desc
             [mk "a" (8 # 10); mk "b" (9 # 10); mk "c" (8 # 10); mk "d" (9 # 10)]
  = ["b"; "d"; "a"; "c"].
Proof. reflexivity. Qed.

(** ** Cancellation observed at the start of a trial *)

Section Optimizer.
Context (E : externals).

(** With [catch=(Exception,)] the study never raises: the exception of a
    trial, a [CancelledError] included, only marks the trial as failed. *)
Lemma Study_optimize_returns func params_of n_trials number study w :
  ∃ study' w', Study_optimize func params_of catch_Exception n_trials number study w
               = (Ok study', w').
Proof.
  revert number study w. induction n_trials as [|n IH]; intros number study w; simpl.
  - by eexists _, _.
  - rewrite bind_run, try_except_run, bind_run.
    destruct (func number w) as [[v|e] w1]; simpl; apply IH.
Qed.

Lemma best_trial_Raise study e :
  best_trial study = Raise e → e = ValueError "No trials are completed yet.".
Proof. unfold best_trial. destruct (foldl better None study); by intros [= <-]. Qed.

Lemma create_model_Raise algorithm problem_type trial random_seed n_jobs e :
  create_model E algorithm problem_type trial random_seed n_jobs = Raise e →
  ∃ msg, e = ValueError msg.
Proof.
  unfold create_model. destruct (registry_get E algorithm); [|intros [= <-]; by eexists].
  case_decide; [intros [= <-]; by eexists | discriminate].
Qed.

(** [optimize_hyperparameters] never raises [CancelledError]. *)
Lemma optimize_hyperparameters_not_cancelled algorithm config reporter w e w' :
  optimize_hyperparameters E algorithm config reporter w = (Raise e, w') →
  ∃ msg, e = ValueError msg.
Proof.
  unfold optimize_hyperparameters. rewrite bind_run, try_except_run.
  destruct (Study_optimize_returns (objective E algorithm config reporter)
              (λ number, (suggest_params E algorithm number).2)
              (Z.to_nat (n_trials config)) 0%nat [] w) as (study & w1 & ->).
  rewrite lift_bind_run.
  destruct (best_trial study) as [t|e0] eqn:Hbest; simpl.
  - unfold best_params. rewrite Hbest. simpl. rewrite lift_bind_run.
    destruct (create_model E algorithm _ None _ _) as [m|e1] eqn:Hc; [discriminate|].
    intros [= <- _]. by eapply create_model_Raise.
  - intros [= <- _]. apply best_trial_Raise in Hbest. by eexists.
Qed.

Lemma foldl_better_all_failed study :
  Forall (λ t, value t = None) study → foldl better None study = None.
Proof.
  induction 1 as [|t study Ht _ IH]; [done|].
  simpl. unfold better at 2. by rewrite Ht.
Qed.

Lemma foldl_better_Some study best t :
  foldl better best study = Some t →
  best = Some t ∨ (t ∈ study ∧ is_Some (value t)).
Proof.
  revert best. induction study as [|t0 study IH]; intros best; simpl; [by left|].
  intros [Hb|[Hin Hv]]%IH; [|right; split; [by right|done]].
  unfold better in Hb. destruct (value t0) as [v|] eqn:Hv0; [|by left].
  destruct best as [b|].
  - assert (Hcase : Some t = Some t0 ∨ Some t = Some b).
    { destruct (value b); [destruct (Qltb _ _)|]; simplify_eq; eauto. }
    destruct Hcase as [[= ->]|[= ->]]; [|by left].
    right. split; [by left|]. by rewrite Hv0.
  - simplify_eq. right. split; [by left|]. by rewrite Hv0.
Qed.

(** Applying the best parameters leaves the estimator unfitted and sets
    every parameter the estimator has an attribute for. *)
Lemma apply_best_params (model : estimator) (best : params) :
  let model' := map_fold (λ key value m,
                            if hasattr m key then setattr m key value else m)
                         model best in
  est_fitted model' = est_fitted model
  ∧ est_settable model' = est_settable model
  ∧ ∀ key v, best !! key = Some v → key ∈ est_settable model →
             est_attrs model' !! key = Some v.
Proof.
  simpl. apply (map_fold_weak_ind (λ m' (b : params),
    est_fitted m' = est_fitted model ∧ est_settable m' = est_settable model
    ∧ ∀ key v, b !! key = Some v → key ∈ est_settable model →
               est_attrs m' !! key = Some v)).
  - repeat split. intros key v Hk. by rewrite lookup_empty in Hk.
  - intros i x b r Hi (Hf & Hs & Hattrs). unfold hasattr.
    case_bool_decide as Hhas; simpl.
    + repeat split; try done. intros key v Hk Hkey.
      destruct (decide (i = key)) as [->|Hne].
      * rewrite lookup_insert_eq in Hk |- *. done.
      * rewrite lookup_insert_ne in Hk |- * by done. by apply Hattrs.
    + repeat split; try done. intros key v Hk Hkey.
      destruct (decide (i = key)) as [->|Hne]; [by rewrite Hs in Hhas|].
      rewrite lookup_insert_ne in Hk by done. by apply Hattrs.
Qed.

(** When some trial completes, [optimize_hyperparameters] returns the
    parameters of the best complete trial and a fresh estimator that is not
    fitted and carries those parameters. *)
Lemma optimize_hyperparameters_Ok algorithm config reporter w model best w' :
  optimize_hyperparameters E algorithm config reporter w = (Ok (model, best), w') →
  ∃ study t,
    Study_optimize (objective E algorithm config reporter)
      (λ number, (suggest_params E algorithm number).2) catch_Exception
      (Z.to_nat (n_trials config)) 0%nat [] w = (Ok study, w')
    ∧ t ∈ study ∧ is_Some (value t) ∧ best = trial_params t
    ∧ est_fitted model = false
    ∧ ∀ key v, best !! key = Some v → key ∈ est_settable model →
               est_attrs model !! key = Some v.
Proof.
  unfold optimize_hyperparameters. rewrite bind_run, try_except_run.
  destruct (Study_optimize_returns (objective E algorithm config reporter)
              (λ number, (suggest_params E algorithm number).2)
              (Z.to_nat (n_trials config)) 0%nat [] w) as (study & w1 & Hstudy).
  rewrite Hstudy, lift_bind_run.
  destruct (best_trial study) as [t|e0] eqn:Hbest; simpl; [|discriminate].
  unfold best_params. rewrite Hbest. simpl. rewrite lift_bind_run.
  destruct (create_model E algorithm _ None _ _) as [m|e1] eqn:Hc; [|discriminate].
  intros [= <- <- <-].
  exists study, t. split; [done|].
  unfold best_trial in Hbest.
  destruct (foldl better None study) as [t'|] eqn:Hfold; [|discriminate].
  injection Hbest as ->.
  apply foldl_better_Some in Hfold as [|[Hin Hv]]; [discriminate|].
  split; [done|]. split; [done|]. split; [done|].
  destruct (apply_best_params m (trial_params t)) as (Hf & Hs & Hattrs).
  simpl in *. split.
  - rewrite Hf. unfold create_model in Hc.
    destruct (registry_get E algorithm); [|discriminate].
    case_decide; [discriminate|]. by injection Hc as <-.
  - intros key v Hk Hkey. rewrite Hs in Hkey. by apply Hattrs.
Qed.

End Optimizer.

(** C1 fails on the code.  With hyperparameter optimisation on, one
    algorithm and a reporter that is not cancelled at the start of the
    training iteration but is cancelled when its trials begin, the
    [CancelledError] of the objective is caught by the study
    ([catch=(Exception,)]) and anything escaping the optimizer is caught by
    [train_single_model] ([except Exception]): the run ends with
    [TrainingFailedError], not with [CancelledError].  With two algorithms,
    the first trained before the signal and the second cancelled in its
    trials, [train_models] even returns a ranked list, from which a
    [TrainingResult] is built. *)
Theorem cancellation_at_trial_start_is_swallowed :
  train_models (demo_externals cv_ok fit_ok) ["decision_tree"] (demo_config true true)
    (Some (cancelled_from 1)) world0
  = (Raise (TrainingFailedError {[ "decision_tree" := "Training returned no result" ]}),
     {| captured := []; polls := 3 |})
  ∧ (∃ best_model r,
        train_models (demo_externals cv_ok fit_ok) ["decision_tree"; "knn"]
          (demo_config true true) (Some (cancelled_from 4)) world0
        = (Ok (best_model, [r]), {| captured := []; polls := 6 |})
        ∧ name r = "decision_tree")
  ∧ (∀ E algorithm config reporter w e w',
        optimize_hyperparameters E algorithm config reporter w = (Raise e, w') →
        e ≠ CancelledError)
  ∧ (∀ E algorithm config progress_reporter w,
        ∃ r w', train_single_model E algorithm config progress_reporter w = (Ok r, w')).
Proof.
  split; [by vm_compute|]. split; [|split].
  - eexists _, _. vm_compute. split; reflexivity.
  - intros E algorithm config reporter w e w' [msg ->]%optimize_hyperparameters_not_cancelled.
    discriminate.
  - intros E algorithm config progress_reporter w.
    destruct (train_single_model_returns E algorithm config progress_reporter w)
      as (r & w' & Hr & _).
    by eexists _, _.
Qed.

(** ** A search in which every trial fails *)

(** C9 fails on the code.  When no trial of the study is complete,
    [study.best_trial] raises [ValueError] instead of being false, so line
    106 of [optimizer.py] raises and [optimize_hyperparameters] returns
    neither the empty parameter set nor an estimator. *)
Theorem optimize_raises_when_every_trial_fails (E : externals) (algorithm : string)
    (config : PipelineConfig) (reporter : ProgressReporter) (w : world)
    (study : list FrozenTrial) (w1 : world) :
  Study_optimize (objective E algorithm config reporter)
    (λ number, (suggest_params E algorithm number).2) catch_Exception
    (Z.to_nat (n_trials config)) 0%nat [] w = (Ok study, w1) →
  Forall (λ t, value t = None) study →
  optimize_hyperparameters E algorithm config reporter w
  = (Raise (ValueError "No trials are completed yet."), w1).
Proof.
  intros Hstudy Hfail. unfold optimize_hyperparameters.
  rewrite bind_run, try_except_run, Hstudy, lift_bind_run.
  unfold best_trial. by rewrite foldl_better_all_failed.
Qed.

Lemma optimize_raises_when_every_trial_fails_witness :
  Study_optimize
    (objective (demo_externals cv_fails fit_ok) "decision_tree" (demo_config true true)
       NullProgressReporter)
    (λ number, (suggest_params (demo_externals cv_fails fit_ok) "decision_tree" number).2)
    catch_Exception (Z.to_nat (n_trials (demo_config true true))) 0%nat [] world0
  = (Ok demo_failed_study, world0)
  ∧ Forall (λ t, value t = None) demo_failed_study
  ∧ optimize_hyperparameters (demo_externals cv_fails fit_ok) "decision_tree"
      (demo_config true true) NullProgressReporter world0
    = (Raise (ValueError "No trials are completed yet."), world0).
Proof.
  assert (Hstudy : Study_optimize
    (objective (demo_externals cv_fails fit_ok) "decision_tree" (demo_config true true)
       NullProgressReporter)
    (λ number, (suggest_params (demo_externals cv_fails fit_ok) "decision_tree" number).2)
    catch_Exception (Z.to_nat (n_trials (demo_config true true))) 0%nat [] world0
    = (Ok demo_failed_study, world0)) by (vm_compute; reflexivity).
  assert (Hfail : Forall (λ t, value t = None) demo_failed_study)
    by (repeat constructor).
  split; [exact Hstudy|]. split; [exact Hfail|].
  exact (optimize_raises_when_every_trial_fails _ _ _ _ _ _ _ Hstudy Hfail).
Defined.

(** ** The failure messages *)


(** * Further properties *)

(** ** The selector in closed form *)

Section SelectorClosedForm.
Implicit Types (l seen selected : list string) (avail : gset string).

Lemma select_from_priority_take top_k avail l selected :
  Z.of_nat (length selected) < top_k →
  select_from_priority top_k avail l selected
  = take (Z.to_nat top_k) (selected ++ novel avail l selected).
Proof.
  revert selected. induction l as [|a rest IH]; intros selected Hlen; simpl.
  - rewrite app_nil_r, take_ge; [done | lia].
  - destruct (decide (a ∈ avail ∧ a ∉ selected)) as [_|_]; [|by apply IH].
    destruct (Z.leb_spec top_k (Z.of_nat (length (selected ++ [a])))) as [Hfull|Hroom].
    + replace (selected ++ a :: novel avail rest (selected ++ [a]))
        with ((selected ++ [a]) ++ novel avail rest (selected ++ [a]))
        by (by rewrite <- app_assoc).
      rewrite length_app in Hfull. simpl in Hfull.
      rewrite take_app_length'; [done|]. rewrite length_app. simpl. lia.
    + rewrite IH by done. by rewrite <- app_assoc.
Qed.

(** The second loop is the first one run over the available list. *)
Lemma select_remaining_as_priority top_k include_neural available l selected :
  l ⊆ available →
  select_remaining top_k include_neural l selected
  = select_from_priority top_k (available_set available include_neural) l selected.
Proof.
  revert selected. induction l as [|a rest IH]; intros selected Hsub; [done|].
  assert (Ha : a ∈ available) by (apply Hsub; by left).
  assert (Hrest : rest ⊆ available) by (intros x Hx; apply Hsub; by right).
  simpl.
  destruct (decide ((a ∉ selected) ∧ (include_neural = true ∨ a ≠ "neural_network")))
    as [[Hnew Hnn]|Hno];
    destruct (decide (a ∈ available_set available include_neural ∧ a ∉ selected))
      as [[Hin Hnew']|Hno'].
  - rewrite IH by done. done.
  - exfalso. apply Hno'. split; [|done]. by apply elem_of_available_set.
  - exfalso. apply Hno. split; [done|]. by apply elem_of_available_set in Hin as [_ ?].
  - by apply IH.
Qed.

Lemma novel_elem_of avail l seen a :
  a ∈ novel avail l seen → a ∈ l ∧ a ∈ avail ∧ a ∉ seen.
Proof.
  revert seen. induction l as [|b rest IH]; intros seen; simpl.
  - by intros ?%elem_of_nil.
  - destruct (decide (b ∈ avail ∧ b ∉ seen)) as [[Hb Hnew]|_].
    + intros [->|Hin]%elem_of_cons.
      * split; [by left|done].
      * apply IH in Hin as (? & ? & Hns). split; [by right|]. split; [done|].
        intros ?. apply Hns, elem_of_app. by left.
    + intros (? & ? & ?)%IH. split; [by right|done].
Qed.

Lemma filter_ext_elem {A} (P Q : A → Prop) `{∀ x, Decision (P x), ∀ x, Decision (Q x)}
    (l : list A) :
  (∀ x, x ∈ l → P x ↔ Q x) → filter P l = filter Q l.
Proof.
  induction l as [|x l IH]; intros Hext; [done|].
  rewrite !filter_cons, IH by (intros y Hy; apply Hext; by right).
  destruct (decide (P x)) as [HP|HP], (decide (Q x)) as [HQ|HQ]; try done;
    exfalso; apply (Hext x) in HP || apply (Hext x) in HQ; done || by left.
Qed.

(** Without repetitions in [l], nothing is met twice. *)
Lemma novel_NoDup avail l seen :
  NoDup l → novel avail l seen = filter (λ a, a ∈ avail ∧ a ∉ seen) l.
Proof.
  intros Hnd. revert seen. induction Hnd as [|a rest Ha _ IH]; intros seen; [done|].
  simpl. rewrite filter_cons.
  destruct (decide (a ∈ avail ∧ a ∉ seen)) as [_|_]; [|by apply IH].
  f_equal. rewrite IH. apply filter_ext_elem. intros b Hb.
  rewrite elem_of_app, list_elem_of_singleton.
  split; [intros [? Hn]; split; [done|]; intros ?; apply Hn; by left|].
  intros [? ?]. split; [done|]. intros [?| ->]; done.
Qed.

Lemma effective_priority_list_NoDup dataset_info :
  NoDup (effective_priority_list dataset_info).
Proof.
  unfold effective_priority_list. destruct (is_high_dimensional dataset_info).
  - apply boost_tree_models_NoDup, static_priority_list_NoDup.
  - apply static_priority_list_NoDup.
Qed.

(** The selection for every list of available names and top-k at least 1. *)
Lemma select_algorithms_take dataset_info available top_k include_neural :
  1 ≤ top_k →
  let avail := available_set available include_neural in
  let chosen := novel avail (effective_priority_list dataset_info) [] in
  select_algorithms dataset_info available top_k include_neural
  = take (Z.to_nat top_k) (chosen ++ novel avail available chosen).
Proof.
  intros Hk avail chosen. unfold select_algorithms. fold avail.
  rewrite (select_from_priority_take top_k avail _ []) by (simpl; lia).
  simpl. fold chosen.
  destruct (Z.ltb_spec (Z.of_nat (length (take (Z.to_nat top_k) chosen))) top_k)
    as [Hshort|Hfull].
  - rewrite length_take in Hshort.
    rewrite take_ge by lia.
    rewrite (select_remaining_as_priority _ _ available) by done.
    apply select_from_priority_take. lia.
  - rewrite length_take in Hfull. by rewrite take_app_le by lia.
Qed.

End SelectorClosedForm.

(** X1: for a list of available algorithms without repetitions and top-k
    at least 1, the selection is the first top-k names of: the available
    names of the (possibly re-ordered) priority list, in priority order,
    followed by the available names that are not on the priority list, in
    the order of the available list. *)
Theorem select_algorithms_closed_form (dataset_info : DatasetInfo)
    (available_algorithms : list string) (top_k : Z) (include_neural : bool) :
  1 ≤ top_k →
  NoDup available_algorithms →
  let avail := available_set available_algorithms include_neural in
  let priority_list := effective_priority_list dataset_info in
  select_algorithms dataset_info available_algorithms top_k include_neural
  = take (Z.to_nat top_k)
      (filter (λ a, a ∈ avail) priority_list
       ++ filter (λ a, a ∈ avail ∧ a ∉ priority_list) available_algorithms).
Proof.
  intros Hk Hnd avail priority_list.
  rewrite select_algorithms_take by done. fold avail priority_list.
  rewrite (novel_NoDup avail priority_list) by apply effective_priority_list_NoDup.
  rewrite (novel_NoDup avail available_algorithms) by done.
  f_equal. f_equal.
  - apply list_filter_iff. intros a. split; [by intros [? _]|]. intros ?. split; [done|].
    by intros ?%elem_of_nil.
  - apply list_filter_iff. intros a. rewrite list_elem_of_filter.
    split; intros [Ha Hn]; (split; [done|]); intros ?; apply Hn; [|tauto].
    split; [|done]. split; [done|]. by intros ?%elem_of_nil.
Qed.

Lemma select_algorithms_closed_form_witness :
  1 ≤ 2 ∧ NoDup ["knn"; "svm"; "random_forest"] ∧
  select_algorithms (hd_150_1000 CLASSIFICATION None) ["knn"; "svm"; "random_forest"] 2 true
  = ["random_forest"; "knn"].
Proof.
  assert (Hk : 1 ≤ 2) by lia.
  assert (Hnd : NoDup ["knn"; "svm"; "random_forest"])
    by (apply (bool_decide_unpack _); vm_compute; reflexivity).
  split; [exact Hk|]. split; [exact Hnd|].
  rewrite (select_algorithms_closed_form (hd_150_1000 CLASSIFICATION None)
             ["knn"; "svm"; "random_forest"] 2 true Hk Hnd).
  vm_compute. reflexivity.
Defined.

(** X2: raising top-k only extends the selection: for 1 <= k <= k' the
    selection for k is a prefix of the selection for k'. *)
Theorem select_algorithms_prefix (dataset_info : DatasetInfo)
    (available_algorithms : list string) (k k' : Z) (include_neural : bool) :
  1 ≤ k → k ≤ k' →
  select_algorithms dataset_info available_algorithms k include_neural
  `prefix_of` select_algorithms dataset_info available_algorithms k' include_neural.
Proof.
  intros Hk Hkk'. rewrite !select_algorithms_take by lia. simpl.
  match goal with |- take _ ?l `prefix_of` _ => set (all := l) end.
  exists (take (Z.to_nat k' - Z.to_nat k) (drop (Z.to_nat k) all)).
  rewrite take_take_drop. f_equal. lia.
Qed.

Lemma select_algorithms_prefix_witness :
  1 ≤ 1 ∧ 1 ≤ 3 ∧
  select_algorithms (hd_150_1000 REGRESSION None) ["ridge"; "knn"; "xgboost"] 1 true
  `prefix_of`
  select_algorithms (hd_150_1000 REGRESSION None) ["ridge"; "knn"; "xgboost"] 3 true.
Proof.
  assert (H1 : 1 ≤ 1) by lia. assert (H3 : 1 ≤ 3) by lia.
  split; [exact H1|]. split; [exact H3|].
  exact (select_algorithms_prefix (hd_150_1000 REGRESSION None) ["ridge"; "knn"; "xgboost"]
           1 3 true H1 H3).
Defined.

(** X3: with top-k zero or negative the selection is not empty when some
    name of the priority list is available: the first loop appends one name
    before it compares the length with top-k, and the second loop does not
    run; the result is the first available name of the priority list, or
    nothing. *)
Theorem select_algorithms_nonpositive_top_k (dataset_info : DatasetInfo)
    (available_algorithms : list string) (top_k : Z) (include_neural : bool) :
  top_k ≤ 0 →
  select_algorithms dataset_info available_algorithms top_k include_neural
  = take 1 (filter (λ a, a ∈ available_set available_algorithms include_neural)
              (effective_priority_list dataset_info)).
Proof.
  intros Hk. unfold select_algorithms.
  set (avail := available_set available_algorithms include_neural).
  assert (Hloop : ∀ l, select_from_priority top_k avail l []
                       = take 1 (filter (λ a, a ∈ avail) l)).
  { induction l as [|a rest IH]; [done|]. simpl. rewrite filter_cons.
    destruct (decide (a ∈ avail ∧ a ∉ [])) as [[Ha _]|Hno].
    - destruct (Z.leb_spec top_k (Z.of_nat 1)); [|lia].
      by rewrite decide_True.
    - rewrite decide_False; [done|]. intros Ha. apply Hno. split; [done|].
      by intros ?%elem_of_nil. }
  rewrite Hloop.
  destruct (Z.ltb_spec (Z.of_nat (length (take 1 (filter (λ a, a ∈ avail)
              (effective_priority_list dataset_info))))) top_k); [lia|done].
Qed.

Lemma select_algorithms_nonpositive_top_k_witness :
  0 ≤ 0 ∧
  select_algorithms (hd_150_1000 CLASSIFICATION None) ["knn"; "xgboost"] 0 true = ["xgboost"].
Proof.
  assert (Hk : 0 ≤ 0) by lia. split; [exact Hk|].
  rewrite (select_algorithms_nonpositive_top_k (hd_150_1000 CLASSIFICATION None)
             ["knn"; "xgboost"] 0 true Hk).
  vm_compute. reflexivity.
Defined.

(** X4: the selection never repeats a name and only holds names of the
    available list (never the neural network when it is disabled), for
    every top-k. *)
Theorem select_algorithms_NoDup_available (dataset_info : DatasetInfo)
    (available_algorithms : list string) (top_k : Z) (include_neural : bool) :
  NoDup (select_algorithms dataset_info available_algorithms top_k include_neural)
  ∧ ∀ a, a ∈ select_algorithms dataset_info available_algorithms top_k include_neural →
         a ∈ available_algorithms ∧ (include_neural = true ∨ a ≠ "neural_network").
Proof.
  destruct (select_algorithms_facts dataset_info available_algorithms top_k include_neural)
    as (Hnd & Hin & _).
  split; [done|]. intros a Ha. by apply elem_of_available_set, Hin.
Qed.

(** X5: a dataset is high-dimensional exactly when it has more than 100
    features or more than half as many features as samples: the comparison
    with [n_samples * 0.5] is the integer comparison [n_samples < 2 *
    n_features]. *)
Theorem is_high_dimensional_iff (dataset_info : DatasetInfo) :
  is_high_dimensional dataset_info = true
  ↔ 100 < n_features dataset_info ∨ n_samples dataset_info < 2 * n_features dataset_info.
Proof.
  unfold is_high_dimensional. rewrite orb_true_iff, Z.ltb_lt, Qltb_lt.
  assert (Hq : (inject_Z (n_samples dataset_info) * (5 # 10)
                < inject_Z (n_features dataset_info))%Q
               ↔ n_samples dataset_info < 2 * n_features dataset_info).
  { unfold Qlt, Qmult, inject_Z. simpl. lia. }
  by rewrite Hq.
Qed.

(** ** The registry *)

Section Registry.
Context (E : externals).

Lemma registry_get_Some name config :
  registry_get E name = Some config → (name, config) ∈ _ALL_MODELS E.
Proof.
  unfold registry_get.
  destruct (list_find _ _) as [[i [n c]]|] eqn:Hfind; [|discriminate].
  intros [= <-]. apply list_find_Some in Hfind as (Hi & Hn & _). simpl in Hn. subst n.
  by eapply list_elem_of_lookup_2.
Qed.

Lemma registry_get_unique name config :
  NoDup (_ALL_MODELS E).*1 → (name, config) ∈ _ALL_MODELS E →
  registry_get E name = Some config.
Proof.
  intros Hnd Hin. unfold registry_get.
  destruct (list_find _ _) as [[i [n c]]|] eqn:Hfind.
  - apply list_find_Some in Hfind as (Hi & Hn & _). simpl in Hn. subst n. simpl.
    apply list_elem_of_lookup in Hin as [j Hj].
    assert (i = j) as ->.
    { eapply NoDup_lookup; [exact Hnd| |]; rewrite list_lookup_fmap.
      - by rewrite Hi.
      - by rewrite Hj. }
    congruence.
  - exfalso. apply list_find_None in Hfind.
    by apply (proj1 (Forall_forall _ _) Hfind _ Hin).
Qed.

Lemma create_model_Ok name problem_type trial random_seed n_jobs :
  (∃ model, create_model E name problem_type trial random_seed n_jobs = Ok model)
  ↔ ∃ config, registry_get E name = Some config ∧ problem_type ∈ problem_types config.
Proof.
  unfold create_model. destruct (registry_get E name) as [config|].
  - case_decide as Hpt.
    + split; [by intros [? ?]|]. intros (c & [= <-] & ?). done.
    + split; [|by eexists]. intros _. exists config. split; [done|].
      by destruct (decide (problem_type ∈ problem_types config)).
  - split; [by intros [? ?] | by intros (? & ? & ?)].
Qed.

End Registry.

(** X6: [create_model] returns an estimator exactly when the name is
    registered and its entry supports the problem type, and raises
    [ValueError] otherwise.  The estimator it returns is of that algorithm
    and not fitted, and its random state is the configured seed whenever
    the model class has that parameter, whatever the trial suggested. *)
Theorem create_model_behaviour (E : externals) (name : string) (problem_type : ProblemType)
    (trial : option nat) (random_seed n_jobs : Z) :
  ((∃ model, create_model E name problem_type trial random_seed n_jobs = Ok model)
   ↔ ∃ config, registry_get E name = Some config ∧ problem_type ∈ problem_types config)
  ∧ (∀ e, create_model E name problem_type trial random_seed n_jobs = Raise e →
          ∃ msg, e = ValueError msg)
  ∧ (∀ model config,
       create_model E name problem_type trial random_seed n_jobs = Ok model →
       registry_get E name = Some config →
       est_algorithm model = name
       ∧ est_fitted model = false
       ∧ est_settable model = init_params config
       ∧ ("random_state" ∈ init_params config →
            est_attrs model !! "random_state" = Some (PInt random_seed))
       ∧ ("n_jobs" ∈ init_params config →
            est_attrs model !! "n_jobs" = Some (PInt n_jobs))).
Proof.
  split; [apply create_model_Ok|]. split.
  - intros e. apply create_model_Raise.
  - intros model config. unfold create_model. intros Hc Hreg. rewrite Hreg in Hc.
    case_decide; [discriminate|]. injection Hc as <-. simpl.
    split; [done|]. split; [done|]. split; [done|]. split.
    + intros Hrs. rewrite (decide_True _ _ Hrs).
      repeat case_decide; by simplify_map_eq.
    + intros Hnj. rewrite (decide_True _ _ Hnj).
      repeat case_decide; by simplify_map_eq.
Qed.

(** X7: with a registry whose names are distinct (it is a dictionary), the
    names [get_available_algorithms] lists for a problem type are exactly
    the names [create_model] accepts for it. *)
Theorem available_iff_creatable (E : externals) (name : string) (problem_type : ProblemType)
    (trial : option nat) (random_seed n_jobs : Z) :
  NoDup (_ALL_MODELS E).*1 →
  name ∈ get_available_algorithms E problem_type
  ↔ ∃ model, create_model E name problem_type trial random_seed n_jobs = Ok model.
Proof.
  intros Hnd. rewrite create_model_Ok. unfold get_available_algorithms.
  rewrite list_elem_of_fmap. split.
  - intros ([n config] & -> & [Hpt Hin]%list_elem_of_filter). simpl in *.
    exists config. split; [|done]. by apply registry_get_unique.
  - intros (config & Hreg & Hpt). exists (name, config). split; [done|].
    apply list_elem_of_filter. split; [done|]. by apply registry_get_Some.
Qed.

Lemma available_iff_creatable_witness :
  NoDup (_ALL_MODELS (demo_externals cv_ok fit_ok)).*1
  ∧ ("knn" ∈ get_available_algorithms (demo_externals cv_ok fit_ok) REGRESSION
     ↔ ∃ model, create_model (demo_externals cv_ok fit_ok) "knn" REGRESSION None 42 (-1)
                = Ok model).
Proof.
  assert (Hnd : NoDup (_ALL_MODELS (demo_externals cv_ok fit_ok)).*1)
    by (apply (bool_decide_unpack _); vm_compute; reflexivity).
  split; [exact Hnd|].
  exact (available_iff_creatable (demo_externals cv_ok fit_ok) "knn" REGRESSION None 42 (-1)
           Hnd).
Defined.

(** ** The hyperparameter search *)

Lemma foldl_better_first_best study :
  match foldl better None study with
  | Some t => first_best study t
  | None => Forall (λ t, value t = None) study
  end.
Proof.
  induction study as [|x study IH] using rev_ind; [by constructor|].
  rewrite foldl_app. simpl. unfold better at 1.
  destruct (value x) as [vx|] eqn:Hx.
  - destruct (foldl better None study) as [b|].
    + destruct IH as (before & after & v & -> & Hv & Hbefore & Hafter). rewrite Hv.
      destruct (Qltb_spec v vx) as [Hlt|Hge].
      * exists (before ++ b :: after), [], vx. split; [done|]. split; [done|]. split.
        -- intros t' v' [Hin|[->|Hin]%elem_of_cons]%elem_of_app Hv'.
           ++ eapply Qlt_trans; [by eapply Hbefore|done].
           ++ by simplify_eq.
           ++ eapply Qle_lt_trans; [by eapply Hafter|done].
        -- by intros t' v' ?%elem_of_nil.
      * apply Qnot_lt_le in Hge.
        exists before, (after ++ [x]), v. rewrite <- app_assoc. split; [done|].
        split; [done|]. split; [done|].
        intros t' v' [Hin| ->%list_elem_of_singleton]%elem_of_app Hv'.
        -- by eapply Hafter.
        -- by simplify_eq.
    + exists study, [], vx. split; [done|]. split; [done|]. split.
      * intros t' v' Hin Hv'. by rewrite (proj1 (Forall_forall _ _) IH _ Hin) in Hv'.
      * by intros t' v' ?%elem_of_nil.
  - destruct (foldl better None study) as [b|].
    + destruct IH as (before & after & v & -> & Hv & Hbefore & Hafter).
      exists before, (after ++ [x]), v. rewrite <- app_assoc. split; [done|].
      split; [done|]. split; [done|].
      intros t' v' [Hin| ->%list_elem_of_singleton]%elem_of_app Hv'.
      * by eapply Hafter.
      * congruence.
    + apply Forall_app. split; [done|]. by constructor.
Qed.

Lemma Study_optimize_length func params_of catch n_trials number study w study' w' :
  Study_optimize func params_of catch n_trials number study w = (Ok study', w') →
  ∃ new, study' = study ++ new ∧ length new = n_trials.
Proof.
  revert number study w. induction n_trials as [|n IH]; intros number study w; simpl.
  - intros [= <- <-]. exists []. by rewrite app_nil_r.
  - rewrite bind_run, try_except_run, bind_run.
    destruct (func number w) as [[v|e] w1]; simpl.
    + intros (new & -> & Hlen)%IH. eexists (_ :: new). rewrite <- app_assoc.
      split; [done|]. simpl. by rewrite Hlen.
    + destruct (catch e); simpl; [|discriminate].
      intros (new & -> & Hlen)%IH. eexists (_ :: new). rewrite <- app_assoc.
      split; [done|]. simpl. by rewrite Hlen.
Qed.

(** X8: when [optimize_hyperparameters] returns, all of the configured
    trials have run, the parameters it returns are those of the first
    complete trial with the greatest score (an earlier trial wins a tie),
    and the estimator it returns is a fresh one of the algorithm, not
    fitted, on which every returned parameter the estimator has an
    attribute for has been set. *)
Theorem optimize_hyperparameters_returns_first_best (E : externals) (algorithm : string)
    (config : PipelineConfig) (reporter : ProgressReporter) (w : world)
    (model : estimator) (best : params) (w' : world) :
  optimize_hyperparameters E algorithm config reporter w = (Ok (model, best), w') →
  ∃ study t,
    Study_optimize (objective E algorithm config reporter)
      (λ number, (suggest_params E algorithm number).2) catch_Exception
      (Z.to_nat (n_trials config)) 0%nat [] w = (Ok study, w')
    ∧ length study = Z.to_nat (n_trials config)
    ∧ first_best study t
    ∧ best = trial_params t
    ∧ est_algorithm model = algorithm
    ∧ est_fitted model = false
    ∧ ∀ key v, best !! key = Some v → key ∈ est_settable model →
               est_attrs model !! key = Some v.
Proof.
  unfold optimize_hyperparameters. rewrite bind_run, try_except_run.
  destruct (Study_optimize_returns (objective E algorithm config reporter)
              (λ number, (suggest_params E algorithm number).2)
              (Z.to_nat (n_trials config)) 0%nat [] w) as (study & w1 & Hstudy).
  rewrite Hstudy, lift_bind_run.
  pose proof (foldl_better_first_best study) as Hbest. unfold best_params, best_trial.
  destruct (foldl better None study) as [t|]; simpl; [|discriminate].
  rewrite lift_bind_run.
  destruct (create_model E algorithm _ None _ _) as [m|e1] eqn:Hc; [|discriminate].
  intros [= <- <- <-]. exists study, t. split; [done|].
  destruct (Study_optimize_length _ _ _ _ _ _ _ _ _ Hstudy) as (new & -> & Hlen).
  split; [done|]. split; [done|]. split; [done|].
  destruct (apply_best_params m (trial_params t)) as (Hf & Hs & Hattrs). simpl in *.
  assert (Hm : est_algorithm m = algorithm ∧ est_fitted m = false).
  { unfold create_model in Hc. destruct (registry_get E algorithm); [|discriminate].
    case_decide; [discriminate|]. by injection Hc as <-. }
  split.
  { destruct Hm as [<- _].
    apply (map_fold_weak_ind (λ m' (_ : params), est_algorithm m' = est_algorithm m));
      [done|]. intros i x b r _ Hr. unfold hasattr. by case_bool_decide. }
  split; [by rewrite Hf; apply Hm|].
  intros key v Hk Hkey. rewrite Hs in Hkey. by apply Hattrs.
Qed.

Lemma optimize_hyperparameters_returns_first_best_witness :
  ∃ model best w',
    optimize_hyperparameters (demo_externals cv_ok fit_ok) "decision_tree"
      (demo_config true true) NullProgressReporter world0 = (Ok (model, best), w')
    ∧ best = {[ "max_depth" := PInt 2 ]}
    ∧ est_fitted model = false.
Proof.
  assert (Hrun : ∃ model w',
             optimize_hyperparameters (demo_externals cv_ok fit_ok) "decision_tree"
               (demo_config true true) NullProgressReporter world0
             = (Ok (model, {[ "max_depth" := PInt 2 ]}), w')).
  { eexists _, _. vm_compute. reflexivity. }
  destruct Hrun as (model & w' & Hrun).
  exists model, ({[ "max_depth" := PInt 2 ]} : params), w'.
  split; [exact Hrun|]. split; [reflexivity|].
  destruct (optimize_hyperparameters_returns_first_best _ _ _ _ _ _ _ _ Hrun)
    as (_ & _ & _ & _ & _ & _ & _ & Hf & _).
  exact Hf.
Defined.

Lemma polled_0 reporter w : polled reporter 0 w = w.
Proof. destruct reporter as [? [?|]|], w; simpl; by rewrite ?Nat.add_0_r. Qed.

Lemma polled_polled reporter n m w :
  polled reporter m (polled reporter n w) = polled reporter (n + m) w.
Proof. destruct reporter as [? [?|]|]; simpl; [|done..]. f_equal. lia. Qed.

Lemma is_cancelled_polled reporter w : (is_cancelled reporter w).2 = polled reporter 1 w.
Proof. destruct reporter as [? [?|]|]; simpl; [|done..]. f_equal. lia. Qed.

Lemma objective_polled E algorithm config reporter trial w :
  (objective E algorithm config reporter trial w).2 = polled reporter 1 w.
Proof.
  unfold objective. rewrite bind_run.
  pose proof (is_cancelled_polled reporter w) as Hp.
  destruct (is_cancelled reporter w) as [[[|]|e] w1]; simpl in *; subst w1; try done.
  rewrite lift_bind_run. by destruct (create_model E algorithm _ _ _ _).
Qed.

Lemma Study_optimize_polled E algorithm config reporter params_of n_trials number study w :
  (Study_optimize (objective E algorithm config reporter) params_of catch_Exception
     n_trials number study w).2 = polled reporter n_trials w.
Proof.
  revert number study w. induction n_trials as [|n IH]; intros number study w; simpl.
  - by rewrite polled_0.
  - rewrite bind_run, try_except_run, bind_run.
    pose proof (objective_polled E algorithm config reporter number w) as Hp.
    destruct (objective E algorithm config reporter number w) as [[v|e] w1];
      simpl in *; subst w1; rewrite IH, polled_polled; done.
Qed.

Lemma optimize_hyperparameters_polled (E : externals) (algorithm : string)
    (config : PipelineConfig) (reporter : ProgressReporter) (w : world) :
  (optimize_hyperparameters E algorithm config reporter w).2
  = polled reporter (Z.to_nat (n_trials config)) w.
Proof.
  unfold optimize_hyperparameters. rewrite bind_run, try_except_run.
  pose proof (Study_optimize_polled E algorithm config reporter
                (λ number, (suggest_params E algorithm number).2)
                (Z.to_nat (n_trials config)) 0%nat [] w) as Hp.
  destruct (Study_optimize_returns (objective E algorithm config reporter)
              (λ number, (suggest_params E algorithm number).2)
              (Z.to_nat (n_trials config)) 0%nat [] w) as (study & w1 & Hstudy).
  rewrite Hstudy in Hp |- *. simpl in Hp. subst w1.
  rewrite lift_bind_run.
  destruct (best_trial study) as [t|e0] eqn:Hbest; simpl; [|done].
  unfold best_params. rewrite Hbest. simpl. rewrite lift_bind_run.
  by destruct (create_model E algorithm _ None _ _).
Qed.

(** X9: whatever its outcome, [optimize_hyperparameters] reports no
    progress and calls the cancellation check exactly once for each of the
    configured trials: a cancellation it observes stops none of them. *)
Theorem optimize_hyperparameters_polls_every_trial (E : externals) (algorithm : string)
    (config : PipelineConfig) (check : nat → bool) (progress_callback : bool) (w : world) :
  let w' := (optimize_hyperparameters E algorithm config
               (CallbackProgressReporter progress_callback (Some check)) w).2 in
  captured w' = captured w
  ∧ polls w' = (polls w + Z.to_nat (n_trials config))%nat.
Proof. simpl. by rewrite optimize_hyperparameters_polled. Qed.

(** ** Training one algorithm *)

Section SingleModel.
Context (E : externals).

Lemma create_model_algorithm name problem_type trial random_seed n_jobs model :
  create_model E name problem_type trial random_seed n_jobs = Ok model →
  est_algorithm model = name ∧ est_fitted model = false.
Proof.
  unfold create_model. destruct (registry_get E name); [|discriminate].
  case_decide; [discriminate|]. by intros [= <-].
Qed.

Lemma optimize_hyperparameters_algorithm algorithm config reporter w model best w' :
  optimize_hyperparameters E algorithm config reporter w = (Ok (model, best), w') →
  est_algorithm model = algorithm.
Proof.
  unfold optimize_hyperparameters. rewrite bind_run, try_except_run.
  destruct (Study_optimize_returns (objective E algorithm config reporter)
              (λ number, (suggest_params E algorithm number).2)
              (Z.to_nat (n_trials config)) 0%nat [] w) as (study & w1 & ->).
  rewrite lift_bind_run.
  destruct (best_trial study) as [t|e0] eqn:Hbest; simpl; [|discriminate].
  unfold best_params. rewrite Hbest. simpl. rewrite lift_bind_run.
  destruct (create_model E algorithm _ None _ _) as [m|e1] eqn:Hc; [|discriminate].
  intros [= <- _ _]. apply create_model_algorithm in Hc as [<- _].
  apply (map_fold_weak_ind (λ m' (_ : params), est_algorithm m' = est_algorithm m));
    [done|]. intros i x b r _ Hr. unfold hasattr. by case_bool_decide.
Qed.

Lemma fit_Ok model model' :
  fit E model = Ok model' →
  est_algorithm model' = est_algorithm model ∧ est_attrs model' = est_attrs model
  ∧ est_fitted model' = true.
Proof. unfold fit. destruct (fit_raises E model); [discriminate|]. by intros [= <-]. Qed.

Lemma _score_model_score model on problem_type :
  _score_model E model on problem_type = score E model on.
Proof. by destruct problem_type. Qed.

Lemma train_single_model_body_Ok algorithm config reporter w model r w' :
  train_single_model_body E algorithm config reporter w = (Ok (model, r), w') →
  name r = algorithm
  ∧ est_algorithm model = algorithm
  ∧ est_fitted model = true
  ∧ score E model TrainSplit = Ok (train_score r)
  ∧ score E model TestSplit = Ok (test_score r)
  ∧ cross_val_score E (clone model) (cv_folds config)
      (match problem_type config with CLASSIFICATION => "accuracy" | REGRESSION => "r2" end)
    = Ok (cv_score r)
  ∧ overfitting_risk r = _assess_overfitting (train_score r) (test_score r)
  ∧ (optimize_hyperparams config = false →
       hyperparameters r = get_default_params E algorithm ∧ w' = w).
Proof.
  unfold train_single_model_body. rewrite bind_run.
  match goal with |- context [match ?b with _ => _ end] =>
    destruct b as [[[m0 bp]|e] w0] eqn:Hfirst end; [|discriminate].
  assert (Hm0 : est_algorithm m0 = algorithm
                ∧ (optimize_hyperparams config = false →
                     bp = get_default_params E algorithm ∧ w0 = w)).
  { destruct (optimize_hyperparams config).
    - split; [by eapply optimize_hyperparameters_algorithm | done].
    - rewrite lift_bind_run in Hfirst.
      destruct (create_model E algorithm _ None _ _) as [m|e] eqn:Hc; [|discriminate].
      unfold mret, M_ret in Hfirst. injection Hfirst as <- <- <-.
      split; [|done]. by destruct (create_model_algorithm _ _ _ _ _ _ Hc). }
  destruct Hm0 as [Halg Hoff].
  rewrite lift_bind_run. destruct (fit E m0) as [m1|e] eqn:Hfit; [|discriminate].
  apply fit_Ok in Hfit as (Ha1 & _ & Hf1).
  rewrite lift_bind_run, _score_model_score.
  destruct (score E m1 TrainSplit) as [s1|e] eqn:Hs1; [|discriminate].
  rewrite lift_bind_run, _score_model_score.
  destruct (score E m1 TestSplit) as [s2|e] eqn:Hs2; [|discriminate].
  rewrite lift_bind_run. unfold _cross_validate.
  destruct (cross_val_score E (clone m1) _ _) as [s3|e] eqn:Hs3; [|discriminate].
  intros [= <- <- <-]. simpl. repeat split; try done; try congruence.
  - by destruct Hoff.
  - by destruct Hoff.
Qed.

End SingleModel.

(** X10: what [train_single_model] returns when it returns a result: the
    result is named after the algorithm, the model is an estimator of that
    algorithm and is fitted, the train and test scores are the model's own
    scores on the two splits, the cross-validation score is that of an
    unfitted clone, and the overfitting risk is the classification of
    those two scores; without hyperparameter optimisation the recorded
    hyperparameters are the registry's defaults and nothing outside the
    function has changed. *)
Theorem train_single_model_result (E : externals) (algorithm : string)
    (config : PipelineConfig) (progress_reporter : option ProgressReporter) (w : world)
    (model : estimator) (r : ModelResult) (w' : world) :
  train_single_model E algorithm config progress_reporter w = (Ok (Some (model, r)), w') →
  name r = algorithm
  ∧ est_algorithm model = algorithm
  ∧ est_fitted model = true
  ∧ score E model TrainSplit = Ok (train_score r)
  ∧ score E model TestSplit = Ok (test_score r)
  ∧ cross_val_score E (clone model) (cv_folds config)
      (match problem_type config with CLASSIFICATION => "accuracy" | REGRESSION => "r2" end)
    = Ok (cv_score r)
  ∧ est_fitted (clone model) = false
  ∧ overfitting_risk r = _assess_overfitting (train_score r) (test_score r)
  ∧ (optimize_hyperparams config = false →
       hyperparameters r = get_default_params E algorithm ∧ w' = w).
Proof.
  unfold train_single_model. rewrite try_except_run, bind_run.
  match goal with |- context [match ?b with _ => _ end] =>
    destruct b as [[[m0 mr]|e] w0] eqn:Hbody end; [|discriminate].
  intros [= <- <- <-].
  destruct (train_single_model_body_Ok E _ _ _ _ _ _ _ Hbody)
    as (? & ? & ? & ? & ? & ? & ? & Hoff).
  repeat split; try done; by destruct Hoff.
Qed.

Lemma train_single_model_result_witness :
  ∃ model r w',
    train_single_model (demo_externals cv_ok fit_ok) "knn" (demo_config false true) None world0
    = (Ok (Some (model, r)), w')
    ∧ name r = "knn" ∧ est_fitted model = true.
Proof.
  assert (Hrun : ∃ model r w',
             train_single_model (demo_externals cv_ok fit_ok) "knn" (demo_config false true)
               None world0 = (Ok (Some (model, r)), w')).
  { eexists _, _, _. vm_compute. reflexivity. }
  destruct Hrun as (model & r & w' & Hrun). exists model, r, w'. split; [exact Hrun|].
  destruct (train_single_model_result _ _ _ _ _ _ _ _ Hrun) as (Hn & _ & Hf & _).
  by split.
Defined.

Lemma train_single_model_polled (E : externals) (algorithm : string)
    (config : PipelineConfig) (progress_reporter : option ProgressReporter) (w : world) :
  (train_single_model E algorithm config progress_reporter w).2
  = if optimize_hyperparams config
    then polled (default NullProgressReporter progress_reporter)
           (Z.to_nat (n_trials config)) w
    else w.
Proof.
  unfold train_single_model. rewrite try_except_run, bind_run.
  unfold train_single_model_body. rewrite bind_run.
  set (reporter := default NullProgressReporter progress_reporter).
  set (first := if optimize_hyperparams config
            then optimize_hyperparameters E algorithm config reporter
            else let best_params := get_default_params E algorithm in
                 model ← lift (create_model E algorithm (problem_type config) None
                                 (random_seed config) (n_jobs config));
                 mret (model, best_params)).
  assert (Hfirst : (first w).2 = if optimize_hyperparams config
                then polled reporter (Z.to_nat (n_trials config)) w else w).
  { subst first. destruct (optimize_hyperparams config).
    - apply optimize_hyperparameters_polled.
    - simpl. rewrite lift_bind_run. by destruct (create_model E algorithm _ None _ _). }
  rewrite <- Hfirst. clear Hfirst.
  destruct (first w) as [[[m0 bp]|e] w0]; [|done]. simpl.
  rewrite lift_bind_run. destruct (fit E m0) as [m1|e]; [|done].
  rewrite lift_bind_run. destruct (_score_model E m1 TrainSplit _) as [s1|e]; [|done].
  rewrite lift_bind_run. destruct (_score_model E m1 TestSplit _) as [s2|e]; [|done].
  rewrite lift_bind_run. by destruct (_cross_validate E m1 config) as [s3|e].
Qed.

(** X11: what [train_single_model] does outside itself, whatever its
    outcome: it reports no progress, and it calls the cancellation check
    once per configured trial when hyperparameter optimisation is on and
    not at all when it is off. *)
Theorem train_single_model_world (E : externals) (algorithm : string)
    (config : PipelineConfig) (progress_reporter : option ProgressReporter) (w : world) :
  (train_single_model E algorithm config progress_reporter w).2
  = if optimize_hyperparams config
    then polled (default NullProgressReporter progress_reporter)
           (Z.to_nat (n_trials config)) w
    else w.
Proof. apply train_single_model_polled. Qed.

(** ** The training loop and the world *)

Section TrainerWorld.
Context (E : externals).

Lemma train_single_model_Some algorithm config progress_reporter w model r w' :
  train_single_model E algorithm config progress_reporter w = (Ok (Some (model, r)), w') →
  name r = algorithm
  ∧ est_algorithm model = algorithm
  ∧ est_fitted model = true
  ∧ score E model TrainSplit = Ok (train_score r)
  ∧ score E model TestSplit = Ok (test_score r)
  ∧ overfitting_risk r = _assess_overfitting (train_score r) (test_score r)
  ∧ (optimize_hyperparams config = false →
       hyperparameters r = get_default_params E algorithm).
Proof.
  unfold train_single_model. rewrite try_except_run, bind_run.
  match goal with |- context [match ?b with _ => _ end] =>
    destruct b as [[[m0 mr]|e] w0] eqn:Hbody end; [|discriminate].
  intros [= <- <- <-].
  destruct (train_single_model_body_Ok E _ _ _ _ _ _ _ Hbody)
    as (? & ? & ? & ? & ? & ? & ? & Hoff).
  repeat split; try done. intros Hopt. by destruct (Hoff Hopt).
Qed.

Lemma polled_without_check reporter k w :
  _cancellation_check reporter = None → polled reporter k w = w.
Proof. by destruct reporter as [? [?|]|]. Qed.

Lemma polled_with_check reporter check k w :
  _cancellation_check reporter = Some check →
  polled reporter k w = {| captured := captured w; polls := polls w + k |}.
Proof. destruct reporter as [? [?|]|]; by intros [= <-]. Qed.

Lemma captured_polled reporter k w : captured (polled reporter k w) = captured w.
Proof. by destruct reporter as [? [?|]|]. Qed.

(** One iteration of the loop. *)
Lemma train_loop_step config reporter n i algorithm rest acc w :
  if match _cancellation_check reporter with
     | Some check => check (polls w)
     | None => false
     end
  then train_loop E config reporter n i (algorithm :: rest) acc w
       = (Raise CancelledError, polled reporter 1 w)
  else ∃ r w3,
      captured w3 = captured w ++ shown reporter [training_update algorithm i n]
      ∧ polls w3 = polls (polled reporter (polls_per_algorithm config) w)
      ∧ (∀ model model_result, r = Some (model, model_result) →
           ∃ w2, train_single_model E algorithm config (Some reporter) w2
                 = (Ok (Some (model, model_result)), w3))
      ∧ train_loop E config reporter n i (algorithm :: rest) acc w
        = train_loop E config reporter n (i + 1) rest (record_attempt algorithm r acc) w3.
Proof.
  destruct (train_loop_cons E config reporter n i algorithm rest acc w)
    as (c & w1 & Hc & _ & Hstep).
  pose proof (is_cancelled_polled reporter w) as Hw1. rewrite Hc in Hw1. simpl in Hw1.
  assert (Hcv : c = match _cancellation_check reporter with
                    | Some check => check (polls w)
                    | None => false
                    end).
  { destruct reporter as [? [?|]|]; simpl in *; congruence. }
  rewrite <- Hcv. destruct c; [by rewrite Hstep, Hw1|].
  destruct Hstep as (w2 & r & w3 & Hrep & Hr & Hcap3 & ->).
  rewrite report_shown in Hrep. injection Hrep as <-.
  pose proof (train_single_model_polled E algorithm config (Some reporter)
                {| captured := captured w1 ++ shown reporter [training_update algorithm i n];
                   polls := polls w1 |}) as Hw3.
  rewrite Hr in Hw3. simpl in Hw3.
  exists r, w3. split; [|split; [|split]]; [| |by intros model mr ->; eexists|done].
  - rewrite Hcap3. simpl. by rewrite Hw1, captured_polled.
  - rewrite Hw3, Hw1. unfold polls_per_algorithm.
    destruct reporter as [? [?|]|], (optimize_hyperparams config); simpl; lia.
Qed.

(** The world after the loop, in both of its outcomes. *)
Lemma train_loop_world config reporter n i algorithms acc w :
  let per := polls_per_algorithm config in
  match train_loop E config reporter n i algorithms acc w with
  | (Ok _, w') =>
      captured w' = captured w ++ shown reporter (training_updates n i algorithms)
      ∧ polls w' = polls (polled reporter (length algorithms * per) w)
  | (Raise e, w') =>
      e = CancelledError
      ∧ ∃ check k,
          _cancellation_check reporter = Some check
          ∧ (k < length algorithms)%nat
          ∧ captured w'
            = captured w ++ shown reporter (training_updates n i (take k algorithms))
          ∧ polls w' = (polls w + k * per + 1)%nat
          ∧ check (polls w + k * per)%nat = true
          ∧ ∀ j, (j < k)%nat → check (polls w + j * per)%nat = false
  end.
Proof.
  intros per. revert i acc w.
  induction algorithms as [|algorithm rest IH]; intros i acc w.
  - simpl. rewrite polled_0. split; [|done]. destruct reporter as [[] ?|]; by rewrite app_nil_r.
  - pose proof (train_loop_step config reporter n i algorithm rest acc w) as Hstep.
    destruct (_cancellation_check reporter) as [check|] eqn:Hcheck.
    + destruct (check (polls w)) eqn:Hc.
      * rewrite Hstep. split; [done|]. exists check, 0%nat.
        rewrite (polled_with_check _ _ _ _ Hcheck). simpl.
        rewrite Nat.add_0_r.
        split; [done|]. split; [lia|]. split.
        { destruct reporter as [[] ?|]; by rewrite app_nil_r. }
        split; [lia|]. split; [done|]. intros j Hj. lia.
      * destruct Hstep as (r & w3 & Hcap3 & Hpolls3 & _ & ->).
        rewrite (polled_with_check _ _ _ _ Hcheck) in Hpolls3. simpl in Hpolls3.
        specialize (IH (i + 1) (record_attempt algorithm r acc) w3).
        destruct (train_loop E config reporter n (i + 1) rest _ w3) as [[acc'|e] w'].
        -- destruct IH as [Hcap Hpolls]. split.
           ++ rewrite Hcap, Hcap3, <- app_assoc, <- shown_app. done.
           ++ rewrite Hpolls, !(polled_with_check _ _ _ _ Hcheck). simpl.
              fold per in Hpolls3. lia.
        -- destruct IH as (-> & check' & k & Hcheck' & Hk & Hcap & Hpolls & Hck & Hbefore).
           assert (check' = check) as -> by congruence.
           split; [done|]. exists check, (S k). split; [done|]. split; [simpl; lia|].
           fold per in Hpolls3. split; [|split; [|split]].
           ++ rewrite Hcap, Hcap3, <- app_assoc, <- shown_app. done.
           ++ rewrite Hpolls, Hpolls3. lia.
           ++ rewrite <- Hck. f_equal. lia.
           ++ intros [|j] Hj.
              ** by rewrite Nat.add_0_r.
              ** rewrite <- (Hbefore j) by lia. f_equal. lia.
    + destruct Hstep as (r & w3 & Hcap3 & Hpolls3 & _ & ->).
      rewrite (polled_without_check _ _ _ Hcheck) in Hpolls3.
      specialize (IH (i + 1) (record_attempt algorithm r acc) w3).
      destruct (train_loop E config reporter n (i + 1) rest _ w3) as [[acc'|e] w'].
      * destruct IH as [Hcap Hpolls]. split.
        -- rewrite Hcap, Hcap3, <- app_assoc, <- shown_app. done.
        -- rewrite Hpolls, !(polled_without_check _ _ _ Hcheck). done.
      * destruct IH as (_ & check' & _ & Hcheck' & _). congruence.
Qed.

(** [train_models] changes the world as its loop does. *)
Lemma train_models_world algorithms config progress_reporter w :
  (train_models E algorithms config progress_reporter w).2
  = (train_loop E config (default NullProgressReporter progress_reporter)
       (Z.of_nat (length algorithms)) 0 algorithms empty_acc w).2
  ∧ ((train_models E algorithms config progress_reporter w).1 = Raise CancelledError
     ↔ (train_loop E config (default NullProgressReporter progress_reporter)
          (Z.of_nat (length algorithms)) 0 algorithms empty_acc w).1
       = Raise CancelledError).
Proof.
  pose proof (train_models_run E algorithms config progress_reporter w) as Hrun.
  simpl in Hrun.
  destruct (train_loop _ _ _ _ _ _ _ _) as [[acc|e] w1] eqn:Hloop.
  - destruct (acc_results acc) as [|r l] eqn:Hres.
    + rewrite Hrun. simpl. split; [done|]. split; discriminate.
    + destruct Hrun as (? & ? & ? & _ & _ & ->). simpl. split; [done|]. split; discriminate.
  - rewrite Hrun. simpl. split; [reflexivity|]. split; by intros [= ->].
Qed.

End TrainerWorld.

(** X12: a reporter without a cancellation check (no reporter at all, the
    null reporter, or a callback reporter built without a check) never
    cancels [train_models]: the function does not raise [CancelledError]
    and no check is called. *)
Theorem train_models_without_cancellation_check (E : externals) (algorithms : list string)
    (config : PipelineConfig) (progress_reporter : option ProgressReporter) (w : world) :
  _cancellation_check (default NullProgressReporter progress_reporter) = None →
  (train_models E algorithms config progress_reporter w).1 ≠ Raise CancelledError
  ∧ polls (train_models E algorithms config progress_reporter w).2 = polls w.
Proof.
  intros Hcheck.
  destruct (train_models_world E algorithms config progress_reporter w) as [-> Hiff].
  rewrite Hiff.
  pose proof (train_loop_world E config (default NullProgressReporter progress_reporter)
                (Z.of_nat (length algorithms)) 0 algorithms empty_acc w) as Hw.
  simpl in Hw. destruct (train_loop _ _ _ _ _ _ _ _) as [[acc|e] w'].
  - destruct Hw as [_ Hpolls]. split; [done|].
    simpl. by rewrite Hpolls, (polled_without_check _ _ _ Hcheck).
  - destruct Hw as (_ & check & _ & Hcheck' & _). congruence.
Qed.

Lemma train_models_without_cancellation_check_witness :
  (train_models (demo_externals cv_ok fit_ok) ["decision_tree"; "knn"]
     (demo_config true true) (Some (CallbackProgressReporter true None)) world0).1
  ≠ Raise CancelledError.
Proof.
  exact (proj1 (train_models_without_cancellation_check (demo_externals cv_ok fit_ok)
                  ["decision_tree"; "knn"] (demo_config true true)
                  (Some (CallbackProgressReporter true None)) world0 eq_refl)).
Defined.

(** X13: when [train_models] raises [CancelledError], the reporter has a
    cancellation check, the check answered false at the start of the first
    [k] iterations and true at the start of the next one, exactly those [k]
    algorithms were announced to the callback, and the check has been
    called once for each of their iterations, once for each trial of their
    hyperparameter searches, and once more. *)
Theorem train_models_cancelled (E : externals) (algorithms : list string)
    (config : PipelineConfig) (progress_reporter : option ProgressReporter)
    (w w' : world) :
  train_models E algorithms config progress_reporter w = (Raise CancelledError, w') →
  let reporter := default NullProgressReporter progress_reporter in
  let per := polls_per_algorithm config in
  ∃ check k,
    _cancellation_check reporter = Some check
    ∧ (k < length algorithms)%nat
    ∧ captured w'
      = captured w
        ++ shown reporter (training_updates (Z.of_nat (length algorithms)) 0
                             (take k algorithms))
    ∧ polls w' = (polls w + k * per + 1)%nat
    ∧ check (polls w + k * per)%nat = true
    ∧ ∀ j, (j < k)%nat → check (polls w + j * per)%nat = false.
Proof.
  intros Hraise reporter per.
  destruct (train_models_world E algorithms config progress_reporter w) as [Hw2 Hiff].
  rewrite Hraise in Hw2, Hiff. simpl in Hw2, Hiff.
  pose proof (train_loop_world E config reporter (Z.of_nat (length algorithms)) 0
                algorithms empty_acc w) as Hw.
  simpl in Hw. fold reporter in Hw2, Hiff.
  destruct (train_loop _ _ _ _ _ _ _ _) as [[acc|e] w1].
  - pose proof (proj1 Hiff eq_refl) as Hno. simpl in Hno. discriminate.
  - simpl in Hw2. subst w1. by destruct Hw as [_ Hw].
Qed.

Lemma train_models_cancelled_witness :
  ∃ w' check k,
    train_models (demo_externals cv_ok fit_ok) ["decision_tree"; "knn"]
      (demo_config false true) (Some (cancelled_from 1)) world0
    = (Raise CancelledError, w')
    ∧ _cancellation_check (cancelled_from 1) = Some check
    ∧ (k < 2)%nat
    ∧ polls w' = (polls world0 + k * polls_per_algorithm (demo_config false true) + 1)%nat.
Proof.
  assert (Hrun : ∃ w', train_models (demo_externals cv_ok fit_ok) ["decision_tree"; "knn"]
                         (demo_config false true) (Some (cancelled_from 1)) world0
                       = (Raise CancelledError, w')).
  { eexists. vm_compute. reflexivity. }
  destruct Hrun as (w' & Hrun).
  destruct (train_models_cancelled _ _ _ _ _ _ Hrun)
    as (check & k & Hc & Hk & _ & Hp & _).
  exists w', check, k. split; [exact Hrun|]. split; [exact Hc|]. split; [exact Hk|].
  exact Hp.
Defined.

(** X14: when [train_models] ends in any other way (it returns, or it
    raises [TrainingFailedError]), every algorithm of the list has been
    announced to the callback, in order, each with its index and the
    fraction 0.2 + 0.65 * i / n, and the cancellation check has been called
    once for each iteration and once for each trial of each hyperparameter
    search. *)
Theorem train_models_completed (E : externals) (algorithms : list string)
    (config : PipelineConfig) (progress_reporter : option ProgressReporter) (w : world) :
  let reporter := default NullProgressReporter progress_reporter in
  let out := train_models E algorithms config progress_reporter w in
  out.1 ≠ Raise CancelledError →
  captured out.2
  = captured w
    ++ shown reporter (training_updates (Z.of_nat (length algorithms)) 0 algorithms)
  ∧ polls out.2
    = polls (polled reporter (length algorithms * polls_per_algorithm config) w).
Proof.
  intros reporter out Hnot. subst out.
  destruct (train_models_world E algorithms config progress_reporter w) as [Hw2 Hiff].
  rewrite Hw2. rewrite Hiff in Hnot.
  pose proof (train_loop_world E config reporter (Z.of_nat (length algorithms)) 0
                algorithms empty_acc w) as Hw.
  simpl in Hw. fold reporter in Hnot |- *.
  destruct (train_loop _ _ _ _ _ _ _ _) as [[acc|e] w1]; [done|].
  destruct Hw as [-> _]. done.
Qed.

Lemma train_models_completed_witness :
  let out := train_models (demo_externals cv_ok fit_ok) ["decision_tree"; "knn"]
               (demo_config true true) (Some (cancelled_from 100)) world0 in
  out.1 ≠ Raise CancelledError ∧ polls out.2 = 6%nat.
Proof.
  assert (Hnot : (train_models (demo_externals cv_ok fit_ok) ["decision_tree"; "knn"]
                    (demo_config true true) (Some (cancelled_from 100)) world0).1
                 ≠ Raise CancelledError).
  { vm_compute. discriminate. }
  split; [exact Hnot|].
  exact (proj2 (train_models_completed (demo_externals cv_ok fit_ok)
                  ["decision_tree"; "knn"] (demo_config true true)
                  (Some (cancelled_from 100)) world0 Hnot)).
Defined.

(** ** The best model *)

Section BestModel.
Context (E : externals).

(** Every stored model is a fitted estimator of the algorithm it is stored
    under, and every result is as [train_single_model] builds it. *)
Lemma train_loop_trained config reporter n i algorithms acc w acc' w' :
  train_loop E config reporter n i algorithms acc w = (Ok acc', w') →
  (∀ k m, acc_models acc !! k = Some m → est_algorithm m = k ∧ est_fitted m = true) →
  Forall (λ r, overfitting_risk r = _assess_overfitting (train_score r) (test_score r)
               ∧ (optimize_hyperparams config = false →
                    hyperparameters r = get_default_params E (name r)))
         (acc_results acc) →
  (∀ k m, acc_models acc' !! k = Some m → est_algorithm m = k ∧ est_fitted m = true)
  ∧ Forall (λ r, overfitting_risk r = _assess_overfitting (train_score r) (test_score r)
                 ∧ (optimize_hyperparams config = false →
                      hyperparameters r = get_default_params E (name r)))
           (acc_results acc').
Proof.
  revert i acc w. induction algorithms as [|algorithm rest IH]; intros i acc w.
  - simpl. by intros [= <- <-].
  - pose proof (train_loop_step E config reporter n i algorithm rest acc w) as Hstep.
    destruct (match _cancellation_check reporter with
              | Some check => check (polls w)
              | None => false
              end); [by rewrite Hstep|].
    destruct Hstep as (r & w3 & _ & _ & Hr & ->).
    intros Hloop Hmodels Hresults. apply (IH _ _ _ Hloop).
    + destruct r as [[model model_result]|]; simpl; [|done].
      destruct (Hr _ _ eq_refl) as (w2 & Ht).
      apply train_single_model_Some in Ht as (_ & Ha & Hf & _).
      intros k m. destruct (decide (algorithm = k)) as [<-|Hne].
      * rewrite lookup_insert_eq. by intros [= <-].
      * rewrite lookup_insert_ne by done. apply Hmodels.
    + destruct r as [[model model_result]|]; simpl; [|done].
      destruct (Hr _ _ eq_refl) as (w2 & Ht).
      apply train_single_model_Some in Ht as (Hn & _ & _ & _ & _ & Ho & Hd).
      apply Forall_app. split; [done|]. apply Forall_singleton. by rewrite Hn.
Qed.

(** When no algorithm is listed twice, the model stored under the name of a
    result is the model that result was measured on. *)
Lemma train_loop_linked config reporter n i algorithms acc w acc' w' :
  train_loop E config reporter n i algorithms acc w = (Ok acc', w') →
  NoDup algorithms →
  (∀ r, r ∈ acc_results acc → name r ∉ algorithms) →
  (∀ r, r ∈ acc_results acc →
        ∃ m, acc_models acc !! name r = Some m
             ∧ score E m TrainSplit = Ok (train_score r)
             ∧ score E m TestSplit = Ok (test_score r)) →
  ∀ r, r ∈ acc_results acc' →
       ∃ m, acc_models acc' !! name r = Some m
            ∧ score E m TrainSplit = Ok (train_score r)
            ∧ score E m TestSplit = Ok (test_score r).
Proof.
  revert i acc w. induction algorithms as [|algorithm rest IH]; intros i acc w.
  - simpl. by intros [= <- <-].
  - pose proof (train_loop_step E config reporter n i algorithm rest acc w) as Hstep.
    destruct (match _cancellation_check reporter with
              | Some check => check (polls w)
              | None => false
              end); [by rewrite Hstep|].
    destruct Hstep as (r & w3 & _ & _ & Hr & ->).
    intros Hloop [Hnotin Hnodup]%NoDup_cons Hfresh Hlinked.
    apply (IH _ _ _ Hloop Hnodup).
    + destruct r as [[model model_result]|]; simpl.
      * destruct (Hr _ _ eq_refl) as (w2 & Ht).
        apply train_single_model_Some in Ht as (Hn & _).
        intros r [Hin|Hin]%elem_of_app.
        -- intros Hrest. apply (Hfresh r Hin). by right.
        -- apply list_elem_of_singleton in Hin as ->. by rewrite Hn.
      * intros r Hin Hrest. apply (Hfresh r Hin). by right.
    + destruct r as [[model model_result]|]; simpl; [|done].
      destruct (Hr _ _ eq_refl) as (w2 & Ht).
      apply train_single_model_Some in Ht as (Hn & _ & _ & Hs1 & Hs2 & _).
      intros r [Hin|Hin]%elem_of_app.
      * rewrite lookup_insert_ne; [by apply Hlinked|].
        intros Heq. apply (Hfresh r Hin). rewrite <- Heq. by left.
      * apply list_elem_of_singleton in Hin as ->.
        rewrite Hn, lookup_insert_eq. by exists model.
Qed.

End BestModel.

(** X15: the pair [train_models] returns.  The list is not empty and has
    at most one result for each algorithm of the input; the best model is a
    fitted estimator of the algorithm the first result names; no result
    has a greater test score than the first; every result is named after an
    algorithm of the input, carries the overfitting risk its own two scores
    give, and, without hyperparameter optimisation, the default parameters
    of its algorithm. *)
Theorem train_models_best_model (E : externals) (algorithms : list string)
    (config : PipelineConfig) (progress_reporter : option ProgressReporter) (w : world)
    (best_model : estimator) (results : list ModelResult) (w' : world) :
  train_models E algorithms config progress_reporter w = (Ok (best_model, results), w') →
  ∃ first rest,
    results = first :: rest
    ∧ (length results ≤ length algorithms)%nat
    ∧ est_algorithm best_model = name first
    ∧ est_fitted best_model = true
    ∧ ∀ r, r ∈ results →
        name r ∈ algorithms
        ∧ (test_score r <= test_score first)%Q
        ∧ overfitting_risk r = _assess_overfitting (train_score r) (test_score r)
        ∧ (optimize_hyperparams config = false →
             hyperparameters r = get_default_params E (name r)).
Proof.
  intros Hok.
  destruct (train_models_ranked _ _ _ _ _ _ _ _ Hok)
    as (acc & first & rest & Hloop & Hsub & Hperm & Hsorted & _ & Hfirst & Hbest).
  destruct (train_loop_trained E _ _ _ _ _ _ _ _ _ Hloop) as [Hmodels Hresults].
  { intros k m. unfold empty_acc. simpl. by rewrite lookup_empty. }
  { constructor. }
  exists first, rest. split; [done|]. split.
  { rewrite Hperm, <- (length_fmap name). by apply sublist_length. }
  destruct (Hmodels _ _ Hbest) as [Ha Hf]. split; [done|]. split; [done|].
  intros r Hin. split; [|split].
  - eapply elem_of_sublist; [|exact Hsub]. apply list_elem_of_fmap.
    exists r. split; [done|]. by rewrite <- Hperm.
  - subst results. apply StronglySorted_inv in Hsorted as [_ Hall].
    apply elem_of_cons in Hin as [->|Hin]; [apply Qle_refl|].
    rewrite Forall_forall in Hall. exact (Hall _ Hin).
  - rewrite Forall_forall in Hresults. apply Hresults. by rewrite <- Hperm.
Qed.

Lemma train_models_best_model_witness :
  ∃ best_model results w',
    train_models (demo_externals cv_ok fit_ok) ["decision_tree"; "knn"]
      (demo_config false true) None world0 = (Ok (best_model, results), w')
    ∧ est_fitted best_model = true
    ∧ (length results ≤ 2)%nat.
Proof.
  assert (Hrun : ∃ best_model results w',
             train_models (demo_externals cv_ok fit_ok) ["decision_tree"; "knn"]
               (demo_config false true) None world0 = (Ok (best_model, results), w')).
  { eexists _, _, _. vm_compute. reflexivity. }
  destruct Hrun as (best_model & results & w' & Hrun).
  exists best_model, results, w'. split; [exact Hrun|].
  destruct (train_models_best_model _ _ _ _ _ _ _ _ Hrun)
    as (first & rest & _ & Hlen & _ & Hf & _).
  split; [exact Hf|exact Hlen].
Defined.

(** X16: when no algorithm is listed twice (as in every list
    [select_algorithms] returns), the scores of the first result are the
    scores of the best model itself: the model handed back is the one the
    best result was measured on. *)
Theorem train_models_best_model_scores (E : externals) (algorithms : list string)
    (config : PipelineConfig) (progress_reporter : option ProgressReporter) (w : world)
    (best_model : estimator) (first : ModelResult) (rest : list ModelResult) (w' : world) :
  NoDup algorithms →
  train_models E algorithms config progress_reporter w
    = (Ok (best_model, first :: rest), w') →
  score E best_model TrainSplit = Ok (train_score first)
  ∧ score E best_model TestSplit = Ok (test_score first).
Proof.
  intros Hnodup Hok.
  destruct (train_models_ranked _ _ _ _ _ _ _ _ Hok)
    as (acc & first' & rest' & Hloop & _ & Hperm & _ & _ & [= <- <-] & Hbest).
  destruct (train_loop_linked E _ _ _ _ _ _ _ _ _ Hloop Hnodup) with (r := first)
    as (m & Hm & Hs1 & Hs2).
  - intros r Hin. by apply not_elem_of_nil in Hin.
  - intros r Hin. by apply not_elem_of_nil in Hin.
  - rewrite <- Hperm. by left.
  - rewrite Hbest in Hm. by injection Hm as <-.
Qed.

Lemma train_models_best_model_scores_witness :
  ∃ best_model first rest w',
    train_models (demo_externals cv_ok fit_ok) ["decision_tree"; "knn"]
      (demo_config true true) None world0 = (Ok (best_model, first :: rest), w')
    ∧ score (demo_externals cv_ok fit_ok) best_model TestSplit = Ok (test_score first).
Proof.
  assert (Hnodup : NoDup ["decision_tree"; "knn"])
    by (apply (bool_decide_unpack _); vm_compute; reflexivity).
  assert (Hrun : ∃ best_model first rest w',
             train_models (demo_externals cv_ok fit_ok) ["decision_tree"; "knn"]
               (demo_config true true) None world0
             = (Ok (best_model, first :: rest), w')).
  { eexists _, _, _, _. vm_compute. reflexivity. }
  destruct Hrun as (best_model & first & rest & w' & Hrun).
  exists best_model, first, rest, w'. split; [exact Hrun|].
  exact (proj2 (train_models_best_model_scores _ _ _ _ _ _ _ _ _ Hnodup Hrun)).
Defined.

(** ** What a run reports in every outcome *)

Lemma reports_only_ret {A} reporter (a : A) : reports_only reporter (mret a).
Proof.
  intros w. split; [done|]. exists []. split; [|done].
  destruct reporter as [[] ?|]; by rewrite app_nil_r.
Qed.

Lemma reports_only_raise {A} reporter (e : exn) : reports_only reporter (raise (A:=A) e).
Proof.
  intros w. split; [done|]. exists []. split; [|done].
  destruct reporter as [[] ?|]; by rewrite app_nil_r.
Qed.

Lemma reports_only_lift {A} reporter (r : result A) : reports_only reporter (lift r).
Proof.
  intros w. split; [done|]. exists []. split; [|done].
  destruct reporter as [[] ?|]; by rewrite app_nil_r.
Qed.

Lemma reports_only_bind {A B} reporter (m : M A) (f : A → M B) :
  reports_only reporter m → (∀ a, reports_only reporter (f a)) →
  reports_only reporter (m ≫= f).
Proof.
  intros Hm Hf w. rewrite bind_run. destruct (Hm w) as (Hp & us & Hc & Hus).
  destruct (m w) as [[a|e] w1]; simpl in *; [|by eauto].
  destruct (Hf a w1) as (Hp' & us' & Hc' & Hus'). split; [congruence|].
  exists (us ++ us'). split; [|by apply Forall_app].
  by rewrite Hc', Hc, shown_app, app_assoc.
Qed.

Lemma reports_only_report reporter update :
  in_progress update → reports_only reporter (report reporter update).
Proof.
  intros Hu w. rewrite report_shown. split; [done|]. exists [update].
  split; [done|]. by apply Forall_singleton.
Qed.

Lemma in_progress_stage_update s p msg :
  s ≠ COMPLETE → s ≠ FAILED → s ≠ CANCELLED → in_progress (stage_update s p msg).
Proof. by intros ???. Qed.

Lemma training_updates_in_progress n i algorithms :
  Forall in_progress (training_updates n i algorithms).
Proof.
  revert i. induction algorithms as [|a rest IH]; intros i; simpl; [done|].
  constructor; [done|apply IH].
Qed.

Section RunReports.
Context (E : externals).

Lemma reports_only_train_models algorithms config reporter :
  _cancellation_check reporter = None →
  reports_only reporter (train_models E algorithms config (Some reporter)).
Proof.
  intros Hcheck w.
  destruct (train_models_world E algorithms config (Some reporter) w) as [-> _].
  pose proof (train_loop_world E config reporter (Z.of_nat (length algorithms)) 0
                algorithms empty_acc w) as Hw.
  simpl in Hw |- *. destruct (train_loop _ _ _ _ _ _ _ _) as [[acc|e] w'].
  - destruct Hw as [Hcap Hpolls]. simpl. split.
    + by rewrite Hpolls, (polled_without_check _ _ _ Hcheck).
    + eexists. split; [exact Hcap|apply training_updates_in_progress].
  - destruct Hw as (_ & check & _ & Hcheck' & _). congruence.
Qed.

Ltac reports_only_step :=
  lazymatch goal with
  | |- reports_only _ (train_models _ _ _ _) => by apply reports_only_train_models
  | |- reports_only _ (mret _) => apply reports_only_ret
  | |- reports_only _ (raise _) => apply reports_only_raise
  | |- reports_only _ (lift _) => apply reports_only_lift
  | |- reports_only _ (report _ _) =>
      apply reports_only_report; by apply in_progress_stage_update
  | |- reports_only _ (_ ≫= _) => apply reports_only_bind; [|intros ?]
  | |- reports_only _ _ => case_match
  end.

Lemma reports_only_stage stage context :
  stage ∈ _stages E →
  _cancellation_check (ctx_reporter context) = None →
  reports_only (ctx_reporter context) (stage context).
Proof.
  intros Hin Hcheck. unfold _stages in Hin.
  repeat (apply elem_of_cons in Hin as [->|Hin]);
    [..|by apply not_elem_of_nil in Hin].
  - unfold ValidationStage. repeat reports_only_step.
  - unfold PreprocessingStage. repeat reports_only_step.
  - unfold SplitStage. repeat reports_only_step.
  - unfold AlgorithmSelectionStage. repeat reports_only_step.
  - unfold ModelTrainingStage. repeat reports_only_step.
  - unfold EvaluationStage. repeat reports_only_step.
  - unfold ExplainabilityStage. repeat reports_only_step.
Qed.

Lemma stage_keeps_reporter stage context w context' w' :
  stage ∈ _stages E →
  stage context w = (Ok context', w') →
  ctx_reporter context' = ctx_reporter context.
Proof.
  intros Hin Hok. unfold _stages in Hin.
  repeat (apply elem_of_cons in Hin as [->|Hin]);
    [..|by apply not_elem_of_nil in Hin].
  - by apply ValidationStage_reports in Hok as (_ & ? & _).
  - by apply PreprocessingStage_reports in Hok as (_ & ? & _).
  - by apply SplitStage_reports in Hok as (_ & ? & _).
  - by apply AlgorithmSelectionStage_reports in Hok as (_ & ? & _).
  - by apply ModelTrainingStage_reports in Hok as (_ & ? & _).
  - by apply EvaluationStage_reports in Hok as (_ & ? & _).
  - by apply ExplainabilityStage_reports in Hok as (_ & ? & _).
Qed.

Lemma reports_only_run_stages reporter stages context :
  stages ⊆ _stages E →
  _cancellation_check reporter = None →
  ctx_reporter context = reporter →
  reports_only reporter (run_stages stages context).
Proof.
  intros Hsub Hcheck. revert context.
  induction stages as [|stage rest IH]; intros context Hrep; simpl.
  - apply reports_only_ret.
  - assert (Hin : stage ∈ _stages E) by (apply Hsub; by left).
    intros w. rewrite bind_run.
    destruct (reports_only_stage stage context Hin) with (w := w)
      as (Hp & us & Hc & Hus); [by rewrite Hrep|].
    destruct (stage context w) as [[context'|e] w1] eqn:Hstage; simpl in *.
    + destruct (IH (λ x Hx, Hsub x (proj2 (elem_of_cons _ _ _) (or_intror Hx))) context') with (w := w1)
        as (Hp' & us' & Hc' & Hus').
      { rewrite <- Hrep. by eapply stage_keeps_reporter. }
      split; [congruence|]. exists (us ++ us'). split; [|by apply Forall_app].
      by rewrite Hc', Hc, Hrep, shown_app, app_assoc.
    + split; [done|]. exists us. by rewrite <- Hrep.
Qed.

Lemma _reporter_without_check self : _cancellation_check (_reporter self) = None.
Proof. unfold _reporter. by destruct (_progress_callback self). Qed.

End RunReports.

Section RunContext.
Context (E : externals).

Ltac ctx_simpl :=
  cbn [ctx_config ctx_reporter ctx_data ctx_X ctx_y ctx_target_column ctx_X_train
       ctx_y_train ctx_X_test ctx_y_test ctx_preprocessor ctx_algorithms ctx_model
       ctx_model_results ctx_metrics ctx_explainability ctx_warnings ctx_start_time
       ctx__X_transformed ctx__y_transformed initial_context with_algorithms
       with_metrics with_explainability].

Lemma run_stages_Ok self data w context w1 :
  run_stages (_stages E) (initial_context self data) w = (Ok context, w1) →
  let config := _config self in
  ∃ target prep Xt yt X_train X_test y_train y_test best_model results m wa wb,
    match target_column config with Some c => Some c | None => last (columns data) end
      = Some target
    ∧ target ∈ columns data
    ∧ null_columns data = []
    ∧ 10 ≤ n_rows data
    ∧ fit_transform E (problem_type config) (filter (λ c, c ≠ target) (columns data)) target
      = Ok (prep, Xt, yt)
    ∧ train_test_split E Xt yt (test_size config) (random_seed config)
        (bool_decide (problem_type config = CLASSIFICATION))
      = Ok (X_train, X_test, y_train, y_test)
    ∧ train_models E
        (match forced_algorithm config with
         | Some a => [a]
         | None =>
             select_algorithms
               {| n_samples := (shape X_train).1; n_features := (shape X_train).2;
                  di_problem_type := problem_type config;
                  n_classes := match problem_type config with
                               | CLASSIFICATION => Some (n_unique y_train)
                               | REGRESSION => None
                               end |}
               (if enable_neural_networks config
                then get_available_algorithms E (problem_type config)
                else filter (λ a, a ≠ "neural_network")
                       (get_available_algorithms E (problem_type config)))
               (top_k_algorithms config) (enable_neural_networks config)
         end)
        config (Some (_reporter self)) wa
      = (Ok (best_model, results), wb)
    ∧ calculate_metrics E best_model (problem_type config) = Ok m
    ∧ ctx_target_column context = Some target
    ∧ ctx_preprocessor context = Some prep
    ∧ ctx_model context = Some best_model
    ∧ ctx_model_results context = Some results
    ∧ ctx_metrics context = Some m
    ∧ ctx_explainability context
      = Some (if enable_explainability config
              then explain_model E best_model (shap_max_samples config)
              else {| feature_importance := []; method := "disabled" |})
    ∧ ctx_warnings context = [].
Proof.
  intros Hrun config. subst config. revert Hrun.
  unfold _stages, run_stages.
  rewrite bind_run. unfold ValidationStage at 1.
  rewrite bind_run, report_shown.
  cbn [ctx_data initial_context ctx_config ctx_reporter].
  rewrite bind_run.
  set (target_opt := match target_column (_config self) with
                     | Some c => Some c
                     | None => last (columns data)
                     end).
  match goal with |- context [?m {| captured := ?c; polls := ?p |}] =>
    assert (Hm : m {| captured := c; polls := p |}
                 = match target_opt with
                   | Some t => (Ok t, {| captured := c; polls := p |})
                   | None => (Raise (OtherError
                               "index -1 is out of bounds for axis 0 with size 0"),
                              {| captured := c; polls := p |})
                   end);
      [subst target_opt; destruct (target_column (_config self));
         [done|by destruct (last (columns data))]|rewrite Hm; clear Hm]
  end.
  destruct target_opt as [target|] eqn:Htarget; [|discriminate].
  destruct (decide (target ∉ columns data)) as [|Hin%dec_stable]; [discriminate|].
  destruct (decide (null_columns data ≠ [])) as [|Hnull%dec_stable]; [discriminate|].
  destruct (Z.ltb_spec (n_rows data) 10) as [|Hrows]; [discriminate|].
  unfold mret at 1, M_ret at 1. ctx_simpl.
  rewrite bind_run. unfold PreprocessingStage at 1.
  rewrite bind_run, report_shown. ctx_simpl. rewrite lift_bind_run.
  destruct (fit_transform E _ _ _) as [[[prep Xt] yt]|e] eqn:Hfit; [|discriminate].
  unfold mret at 1, M_ret at 1. ctx_simpl.
  rewrite bind_run. unfold SplitStage at 1.
  rewrite bind_run, report_shown. ctx_simpl. rewrite lift_bind_run.
  destruct (train_test_split E _ _ _ _ _) as [[[[X_train X_test] y_train] y_test]|e]
    eqn:Hsplit; [|discriminate].
  unfold mret at 1, M_ret at 1. ctx_simpl.
  rewrite bind_run. unfold AlgorithmSelectionStage at 1.
  rewrite bind_run, report_shown. ctx_simpl.
  assert (Hsel : ∀ ctx sel w0,
             (match forced_algorithm (_config self) return M PipelineContext with
              | Some a => mret (with_algorithms ctx [a])
              | None => mret (with_algorithms ctx sel)
              end) w0
             = (Ok (with_algorithms ctx match forced_algorithm (_config self) with
                                        | Some a => [a]
                                        | None => sel
                                        end), w0))
    by (intros; by destruct (forced_algorithm _)).
  rewrite Hsel. clear Hsel. ctx_simpl.
  match goal with |- context [with_algorithms _ ?a] => set (algorithms := a) end.
  unfold with_algorithms. ctx_simpl.
  rewrite bind_run. unfold ModelTrainingStage at 1. ctx_simpl.
  rewrite bind_run, report_shown, bind_run.
  match goal with |- context [train_models E algorithms ?c ?r ?w0] =>
    destruct (train_models E algorithms c r w0) as [[[best_model results]|e] wb] eqn:Htrain
  end; [|discriminate].
  unfold mret at 1, M_ret at 1. ctx_simpl.
  rewrite bind_run. unfold EvaluationStage at 1.
  rewrite bind_run, report_shown. ctx_simpl. rewrite lift_bind_run.
  destruct (calculate_metrics E best_model _) as [m|e] eqn:Hmetrics; [|discriminate].
  unfold mret at 1, M_ret at 1. ctx_simpl.
  rewrite bind_run. unfold ExplainabilityStage at 1. ctx_simpl.
  destruct (enable_explainability (_config self)) eqn:Hen; cbn [negb].
  - rewrite bind_run, report_shown. ctx_simpl.
    unfold mret, M_ret. ctx_simpl. intros [= <- <-]. ctx_simpl.
    eexists target, prep, Xt, yt, X_train, X_test, y_train, y_test, best_model, results,
      m, _, wb.
    repeat split; done.
  - unfold mret, M_ret. ctx_simpl. intros [= <- <-]. ctx_simpl.
    eexists target, prep, Xt, yt, X_train, X_test, y_train, y_test, best_model, results,
      m, _, wb.
    repeat split; done.
Qed.

End RunContext.

Section RunOutcome.
Context (E : externals).

(** Once the seven stages have succeeded, the result can be built. *)
Lemma _build_result_Ok self data w context w1 :
  run_stages (_stages E) (initial_context self data) w = (Ok context, w1) →
  ∃ r, _build_result self context (total_elapsed E) = Ok r.
Proof.
  intros Hrun. destruct (run_stages_Ok E _ _ _ _ _ Hrun)
    as (target & prep & Xt & yt & X_train & X_test & y_train & y_test & best_model
        & results & m & wa & wb & _ & _ & _ & _ & _ & _ & Htrain & _ & Htc & Hprep & _
        & Hres & Hm & _).
  destruct (train_models_ranked _ _ _ _ _ _ _ _ Htrain)
    as (_ & first & rest & _ & _ & _ & _ & _ & -> & _).
  unfold _build_result. rewrite Hres, Hm, Hprep, Htc. by eexists.
Qed.

(** [train] in terms of its stages. *)
Lemma train_run self data w :
  let w0 := {| captured := captured w
                 ++ shown (_reporter self)
                      [stage_update INITIALIZING 0 "Initializing pipeline..."];
               polls := polls w |} in
  match run_stages (_stages E) (initial_context self data) w0 with
  | (Ok context, w1) =>
      ∃ r, _build_result self context (total_elapsed E) = Ok r
           ∧ train E self data w
             = (Ok r, {| captured := captured w1
                           ++ shown (_reporter self)
                                [stage_update COMPLETE 1 "Training complete!"];
                         polls := polls w1 |})
  | (Raise e, w1) =>
      train E self data w
      = (Raise e, {| captured := captured w1 ++ shown (_reporter self) [failure_update e];
                     polls := polls w1 |})
  end.
Proof.
  intros w0.
  assert (Hbody : ∀ k : PipelineContext → M TrainingResult,
             (_report self INITIALIZING 0 "Initializing pipeline..."
              ≫= λ _, run_stages (_stages E) (initial_context self data) ≫= k) w
             = match run_stages (_stages E) (initial_context self data) w0 with
               | (Ok context, w1) => k context w1
               | (Raise e, w1) => (Raise e, w1)
               end).
  { intros k. unfold _report. by rewrite bind_run, report_shown, bind_run. }
  unfold train. rewrite try_except_run, Hbody. clear Hbody.
  destruct (run_stages (_stages E) (initial_context self data) w0)
    as [[context|e] w1] eqn:Hrun.
  - destruct (_build_result_Ok _ _ _ _ _ Hrun) as [r Hr]. exists r. split; [done|].
    unfold _report. rewrite bind_run, report_shown. unfold lift. by rewrite Hr.
  - unfold failure_update, _report.
    destruct (is_CancelledError e); by rewrite bind_run, report_shown.
Qed.

(** The updates of a run: the first is the initial one, the last tells the
    outcome, and every update between them belongs to a stage. *)
Lemma train_reports self data w :
  ∃ us, Forall in_progress us
        ∧ polls (train E self data w).2 = polls w
        ∧ captured (train E self data w).2
          = captured w
            ++ shown (_reporter self)
                 (stage_update INITIALIZING 0 "Initializing pipeline..." :: us
                  ++ [match (train E self data w).1 with
                      | Ok _ => stage_update COMPLETE 1 "Training complete!"
                      | Raise e => failure_update e
                      end]).
Proof.
  pose proof (train_run self data w) as Hrun. cbv zeta in Hrun.
  match type of Hrun with context [run_stages _ _ ?w0] =>
    destruct (reports_only_run_stages E (_reporter self) (_stages E)
                (initial_context self data) (λ x Hx, Hx) (_reporter_without_check self)
                eq_refl w0) as (Hp & us & Hc & Hus);
    destruct (run_stages (_stages E) (initial_context self data) w0) as [[context|e] w1]
  end.
  - destruct Hrun as (r & _ & ->). exists us. simpl in *. split; [done|]. split; [done|].
    rewrite Hc, <- !app_assoc, <- !shown_app. done.
  - rewrite Hrun. exists us. simpl in *. split; [done|]. split; [done|].
    rewrite Hc, <- !app_assoc, <- !shown_app. done.
Qed.

End RunOutcome.

(** X17: [Pipeline.train] builds its reporter without a cancellation
    check, so no check is ever called during a run, whatever the outcome;
    and a pipeline built without a progress callback reports nothing. *)
Theorem train_calls_no_cancellation_check (E : externals) (self : Pipeline)
    (data : DataFrame) (w : world) :
  polls (train E self data w).2 = polls w
  ∧ (_progress_callback self = false → captured (train E self data w).2 = captured w).
Proof.
  destruct (train_reports E self data w) as (us & _ & Hp & Hc). split; [done|].
  intros Hcb. rewrite Hc. unfold _reporter. rewrite Hcb. simpl. by rewrite app_nil_r.
Qed.

(** X18: a run that raises has told the callback so.  The updates of the
    run start with the initial one and end with one of stage [CANCELLED]
    (when the exception is [CancelledError]) or [FAILED] (for any other
    exception), at fraction 0.0; no update before the last one has the
    stage [COMPLETE], [FAILED] or [CANCELLED]: a run never reports
    completion and then fails. *)
Theorem train_failure_is_reported (E : externals) (self : Pipeline) (data : DataFrame)
    (w : world) (e : exn) (w' : world) :
  train E self data w = (Raise e, w') →
  ∃ us final,
    captured w'
    = captured w
      ++ shown (_reporter self)
           (stage_update INITIALIZING 0 "Initializing pipeline..." :: us ++ [final])
    ∧ Forall in_progress us
    ∧ stage final = (if is_CancelledError e then CANCELLED else FAILED)
    ∧ (progress final == 0)%Q
    ∧ current_model final = None
    ∧ models_completed final = None.
Proof.
  intros Hraise. destruct (train_reports E self data w) as (us & Hus & _ & Hc).
  rewrite Hraise in Hc. simpl in Hc.
  exists us, (failure_update e). split; [done|]. split; [done|].
  unfold failure_update. by destruct (is_CancelledError e).
Qed.

Lemma train_failure_is_reported_witness :
  ∃ e w' us final,
    train (demo_externals cv_ok fit_fails) (demo_pipeline false true) demo_data world0
    = (Raise e, w')
    ∧ captured w'
      = captured world0
        ++ shown (_reporter (demo_pipeline false true))
             (stage_update INITIALIZING 0 "Initializing pipeline..." :: us ++ [final])
    ∧ stage final = (if is_CancelledError e then CANCELLED else FAILED).
Proof.
  assert (Hrun : ∃ e w', train (demo_externals cv_ok fit_fails) (demo_pipeline false true)
                           demo_data world0 = (Raise e, w')).
  { eexists _, _. vm_compute. reflexivity. }
  destruct Hrun as (e & w' & Hrun).
  destruct (train_failure_is_reported _ _ _ _ _ _ Hrun) as (us & final & Hc & _ & Hs & _).
  exists e, w', us, final. split; [exact Hrun|]. split; [exact Hc|exact Hs].
Defined.
